(** * GridTorch: the LSTM grid-cell model of [path_integration/model_lstm.py]

    A shallow embedding of the module: tensors are a shape with row-major
    contents, floating-point numbers are an abstract scalar interface, the
    random generator is an explicit entropy source read through a cursor,
    the weight directory is a partial map from paths to arrays, and Python
    exceptions are an error result.  The library calls the module makes
    ([nn.Linear], [nn.LSTM], [nn.Dropout], [torch.cat], [torch.stack],
    [squeeze], [view], [np.load], ...) are modelled after the behaviour
    documented for PyTorch and NumPy.

    Arrays and tensors share one element type: [torch.Tensor(array)]
    converts every element to single precision, an operation of the
    scalar interface.

    Outside the model: strides (every tensor is contiguous), the element
    type an array is stored with, devices, gradients, and the rarely used
    forms of the library calls (a weight of [F.linear] that is not 2-D, a
    bias that is not a vector of the output width, [torch.cat] over
    tensors of different ranks); the model raises where those forms would
    be needed. *)

From Stdlib Require Import String List ZArith Arith Bool Lia FinFun QArith Qabs.
Import ListNotations.

Close Scope Q_scope.

Set Implicit Arguments.

(** ** Scalars *)

(** The element type of tensors.  [fconst] stands for a numeric literal,
    [ffloat32] for the conversion to single precision; the remaining
    operations are the ones the module (or a library routine it calls)
    applies to tensor elements. *)
Class Scalar (F : Type) : Type := {
  fconst : Z -> F;
  fadd : F -> F -> F;
  fsub : F -> F -> F;
  fmul : F -> F -> F;
  fdiv : F -> F -> F;
  fsqrt : F -> F;
  fsigmoid : F -> F;
  ftanh : F -> F;
  ffloat32 : F -> F;
  fltb : F -> F -> bool
}.

(** The order laws used to bound sampled values: multiplying by a
    non-negative factor is monotone, adding the literal [0] does not change
    how a value compares, and [1 / sqrt n] is never negative.  Rounded
    floating-point arithmetic satisfies them on numbers. *)
Class ScalarOrder (F : Type) {SF : Scalar F} : Prop := {
  scale_upper : forall d s : F,
    fltb d (fconst 2) = true -> fltb s (fconst 0) = false ->
    fltb (fmul (fconst 2) s) (fmul d s) = false;
  scale_lower : forall d s : F,
    fltb (fconst (-2)) d = true -> fltb s (fconst 0) = false ->
    fltb (fmul d s) (fmul (fconst (-2)) s) = false;
  shift_zero_l : forall x v : F, fltb x (fadd v (fconst 0)) = fltb x v;
  shift_zero_r : forall x v : F, fltb (fadd v (fconst 0)) x = fltb v x;
  inv_sqrt_nonneg : forall n : Z,
    fltb (fdiv (fconst 1) (fsqrt (fconst n))) (fconst 0) = false
}.

Arguments ScalarOrder F {SF}.

(** ** Exceptions and results *)

Inductive exn : Type :=
| IndexError
| ValueError
| TypeError
| RuntimeError
| FileNotFoundError (path : string).

Inductive result (A : Type) : Type :=
| Ok (a : A)
| Raise (e : exn).

Arguments Ok {A} a.
Arguments Raise {A} e.

Definition rbind {A B} (r : result A) (k : A -> result B) : result B :=
  match r with
  | Ok a => k a
  | Raise e => Raise e
  end.

Notation "'let*' x ':=' r 'in' k" := (rbind r (fun x => k))
  (at level 10, x pattern, r at level 100, k at level 200).

(** A computation over a mutable state [S] that may raise: the state
    reached when the exception is thrown is kept, as in Python. *)
Definition M (S A : Type) : Type := S -> result A * S.

Definition ret {S A} (a : A) : M S A := fun s => (Ok a, s).

Definition raise {S A} (e : exn) : M S A := fun s => (Raise e, s).

Definition bind {S A B} (m : M S A) (k : A -> M S B) : M S B :=
  fun s => match m s with
           | (Ok a, s') => k a s'
           | (Raise e, s') => (Raise e, s')
           end.

Definition lift {S A} (r : result A) : M S A := fun s => (r, s).

Definition get {S} : M S S := fun s => (Ok s, s).

Definition modify {S} (f : S -> S) : M S unit := fun s => (Ok tt, f s).

Notation "x <- m ;; k" := (bind m (fun x => k))
  (at level 100, m at next level, right associativity).
Notation "m ;;; k" := (bind m (fun _ => k))
  (at level 100, right associativity).

(** The part of the outside world the module touches: the position of the
    random generator, and the paths handed to [np.load] so far (most recent
    last). *)
Record World : Type := mkWorld {
  cursor : nat;
  reads : list string
}.

Definition advance (n : nat) (w : World) : World :=
  mkWorld (cursor w + n) (reads w).

Definition log_read (path : string) (w : World) : World :=
  mkWorld (cursor w) (reads w ++ [path]).

(** ** Lists *)

(** [chunks k n l]: the first [k] consecutive blocks of [n] elements. *)
Fixpoint chunks {A} (k n : nat) (l : list A) : list (list A) :=
  match k with
  | 0 => []
  | S k' => firstn n l :: chunks k' n (skipn n l)
  end.

(** Columns of a list of rows of width [cols]. *)
Fixpoint transpose_rows {A} (cols : nat) (rows : list (list A)) : list (list A) :=
  match cols with
  | 0 => []
  | S c => flat_map (firstn 1) rows :: transpose_rows c (map (skipn 1) rows)
  end.

Fixpoint shape_eqb (s1 s2 : list nat) : bool :=
  match s1, s2 with
  | [], [] => true
  | a :: r1, b :: r2 => (a =? b) && shape_eqb r1 r2
  | _, _ => false
  end.

Definition numel (s : list nat) : nat := fold_right Nat.mul 1 s.

(** [Tensor.max(-1)] on a row of booleans: the maximum, and the index of
    its first occurrence. *)
Fixpoint index_of_first (b : bool) (l : list bool) : nat :=
  match l with
  | [] => 0
  | x :: r => if Bool.eqb x b then 0 else S (index_of_first b r)
  end.

Definition max_values (l : list bool) : bool := existsb (fun b => b) l.

Definition max_indices (l : list bool) : nat := index_of_first (max_values l) l.

(** Target ensembles: the module only reads [n_cells]. *)
Record Ensemble : Type := mkEnsemble { n_cells : nat }.

(** ** Tensors and the library operations the module calls *)

Section Model.

Context {F : Type} `{Scalar F}.

(** A (contiguous) tensor or NumPy array: its shape and its elements in
    row-major order. *)
Record Tensor : Type := mkTensor {
  shape : list nat;
  data : list F
}.

(** The random generator: what a draw made at a given position of the
    generator yields, for each distribution the module samples.  The mask
    of [nn.Dropout] is a Bernoulli draw that depends on the rate. *)
Record Entropy : Type := mkEntropy {
  normal_at : nat -> F;
  uniform_at : nat -> F;
  bernoulli_at : F -> nat -> bool
}.

Definition fneg (a : F) : F := fsub (fconst 0) a.

(** [x.shape[i]] *)
Definition shape_at (x : Tensor) (i : nat) : result nat :=
  match nth_error (shape x) i with
  | Some d => Ok d
  | None => Raise IndexError
  end.

(** [t.unsqueeze(0)] *)
Definition unsqueeze0 (t : Tensor) : Tensor :=
  mkTensor (1 :: shape t) (data t).

(** [t.squeeze()]: every dimension of size 1 is removed. *)
Definition squeeze (t : Tensor) : Tensor :=
  mkTensor (filter (fun d => negb (d =? 1)) (shape t)) (data t).

(** [t.view(1, b, -1)] *)
Definition view_1_b_infer (t : Tensor) (b : nat) : result Tensor :=
  let n := numel (shape t) in
  if b =? 0 then Raise RuntimeError
  else if n mod b =? 0 then Ok (mkTensor [1; b; n / b] (data t))
  else Raise RuntimeError.

(** [for t in x]: the slices of [x] along its first dimension. *)
Definition iterate (x : Tensor) : result (list Tensor) :=
  match shape x with
  | [] => Raise TypeError
  | d :: s => Ok (map (mkTensor s) (chunks d (numel s) (data x)))
  end.

(** [torch.cat(ts, dim=1)] *)
Definition cat1 (ts : list Tensor) : result Tensor :=
  match ts with
  | [] => Raise RuntimeError
  | t0 :: _ =>
    match shape t0 with
    | d0 :: _ :: rest =>
      let fits t := match shape t with
                    | d :: _ :: r => (d =? d0) && shape_eqb r rest
                    | _ => false
                    end in
      let width t := nth 1 (shape t) 0 in
      let block t i := nth i (chunks d0 (width t * numel rest) (data t)) [] in
      if forallb fits ts
      then Ok (mkTensor (d0 :: list_sum (map width ts) :: rest)
                 (flat_map (fun i => flat_map (fun t => block t i) ts) (seq 0 d0)))
      else Raise RuntimeError
    | _ => Raise IndexError
    end
  end.

(** [torch.stack(ts)] *)
Definition stack (ts : list Tensor) : result Tensor :=
  match ts with
  | [] => Raise RuntimeError
  | t0 :: _ =>
    if forallb (fun t => shape_eqb (shape t) (shape t0)) ts
    then Ok (mkTensor (length ts :: shape t0) (flat_map data ts))
    else Raise RuntimeError
  end.

Definition dot (u v : list F) : F :=
  fold_left fadd (map (fun p => fmul (fst p) (snd p)) (combine u v)) (fconst 0).

(** [F.linear(x, W, b)]: [x] of shape [(..., in)], [W] of shape [(out, in)],
    [b] of shape [(out,)]. *)
Definition linear (x W : Tensor) (b : option Tensor) : result Tensor :=
  match shape W, rev (shape x) with
  | [o; i], k :: lead =>
    if k =? i then
      let rows := chunks (numel lead) i (data x) in
      let cols := chunks o i (data W) in
      match b with
      | None =>
        Ok (mkTensor (rev (o :: lead))
              (flat_map (fun r => map (dot r) cols) rows))
      | Some bt =>
        if shape_eqb (shape bt) [o]
        then Ok (mkTensor (rev (o :: lead))
                   (flat_map (fun r => map (fun cb => fadd (dot r (fst cb)) (snd cb))
                                           (combine cols (data bt))) rows))
        else Raise RuntimeError
      end
    else Raise RuntimeError
  | _, _ => Raise RuntimeError
  end.

(** NumPy's [a.T]: all axes reversed. *)
Fixpoint T_data (s : list nat) (d : list F) : list F :=
  match s with
  | [] => d
  | d0 :: rest =>
    let n := numel rest in
    concat (transpose_rows n (map (T_data rest) (chunks d0 n d)))
  end.

Definition T (a : Tensor) : Tensor :=
  mkTensor (rev (shape a)) (T_data (shape a) (data a)).

(** [torch.Tensor(a)] for an array [a]: the tensor of the default element
    type, single precision, with the shape of [a] and its elements
    converted. *)
Definition torch_Tensor (a : Tensor) : Tensor :=
  mkTensor (shape a) (map ffloat32 (data a)).

(** [t.transpose(1, 0)] *)
Definition transpose_1_0 (t : Tensor) : result Tensor :=
  match shape t with
  | d0 :: d1 :: rest =>
    let n := numel rest in
    let blocks := chunks (d0 * d1) n (data t) in
    Ok (mkTensor (d1 :: d0 :: rest)
          (concat (concat (transpose_rows d1 (chunks d0 d1 blocks)))))
  | _ => Raise IndexError
  end.

(** [nn.init.zeros_(t)] *)
Definition zeros_ (t : Tensor) : Tensor :=
  mkTensor (shape t) (map (fun _ => fconst 0) (data t)).

(** [t.norm(2)]: the 2-norm of the flattened tensor. *)
Definition norm2 (t : Tensor) : F :=
  fsqrt (fold_left fadd (map (fun v => fmul v v) (data t)) (fconst 0)).

(** *** Sampling *)

(** [t.normal_()] on a fresh tensor of shape [s] *)
Definition normal_ (E : Entropy) (s : list nat) : M World Tensor :=
  fun w => (Ok (mkTensor s (map (normal_at E) (seq (cursor w) (numel s)))),
            advance (numel s) w).

(** [t.uniform_(lo, hi)] on a tensor of shape [s] *)
Definition uniform_ (E : Entropy) (s : list nat) (lo hi : F) : M World Tensor :=
  fun w => (Ok (mkTensor s (map (fun i => fadd lo (fmul (fsub hi lo) (uniform_at E i)))
                               (seq (cursor w) (numel s)))),
            advance (numel s) w).

(** The bound of [nn.init.kaiming_uniform_(t, a)] for fan-in [fan]. *)
Definition kaiming_bound (a : F) (fan : nat) : F :=
  let gain := fsqrt (fdiv (fconst 2) (fadd (fconst 1) (fmul a a))) in
  let std := fdiv gain (fsqrt (fconst (Z.of_nat fan))) in
  fmul (fsqrt (fconst 3)) std.

(** [nn.init.kaiming_uniform_(t)] for a 2-D [t] (fan-in is [t.size(1)]). *)
Definition kaiming_uniform_ (E : Entropy) (t : Tensor) : M World Tensor :=
  match shape t with
  | [_; fan] =>
    let b := kaiming_bound (fconst 0) fan in
    uniform_ E (shape t) (fneg b) b
  | _ => raise ValueError
  end.


(** *** [nn.Linear], [nn.LSTM], [nn.Dropout] *)

Record Linear : Type := mkLinear {
  in_features : nat;
  out_features : nat;
  weight : Tensor;
  bias : option Tensor
}.

(** [nn.Linear(i, o, bias=has_bias)], with its default initialisation. *)
Definition Linear_new (E : Entropy) (i o : nat) (has_bias : bool) : M World Linear :=
  let wb := kaiming_bound (fsqrt (fconst 5)) i in
  w <- uniform_ E [o; i] (fneg wb) wb ;;
  b <- (if has_bias
        then
          let bb := if 0 <? i
                    then fdiv (fconst 1) (fsqrt (fconst (Z.of_nat i)))
                    else fconst 0 in
          t <- uniform_ E [o] (fneg bb) bb ;; ret (Some t)
        else ret None) ;;
  ret (mkLinear i o w b).

Definition Linear_forward (l : Linear) (x : Tensor) : result Tensor :=
  linear x (weight l) (bias l).

Definition set_weight (w : Tensor) (l : Linear) : Linear :=
  mkLinear (in_features l) (out_features l) w (bias l).

Definition set_bias (b : Tensor) (l : Linear) : Linear :=
  mkLinear (in_features l) (out_features l) (weight l) (Some b).

(** The attribute [bias] of an [nn.LSTM]: the flag [True] its constructor
    stores there (the module builds its [nn.LSTM] with the default
    [bias=True]), or the tensor a later assignment puts in its place. *)
Inductive bias_attr : Type :=
| bias_True
| bias_Parameter (t : Tensor).

(** A single-layer, unidirectional [nn.LSTM].  The four tensors its
    forward pass computes with are the attributes [weight_ih_l0],
    [weight_hh_l0], [bias_ih_l0] and [bias_hh_l0].  [lstm_bias] is the
    attribute [bias], which the forward pass hands to the kernel as its
    flag; [lstm_weight] is the attribute [weight], absent until something
    assigns it. *)
Record LSTM : Type := mkLSTM {
  input_size : nat;
  hidden_size : nat;
  weight_ih_l0 : Tensor;
  weight_hh_l0 : Tensor;
  bias_ih_l0 : Tensor;
  bias_hh_l0 : Tensor;
  lstm_weight : option Tensor;
  lstm_bias : bias_attr
}.

(** [nn.LSTM(input_size=i, hidden_size=h)], with its default initialisation. *)
Definition LSTM_new (E : Entropy) (i h : nat) : M World LSTM :=
  let stdv := if 0 <? h
              then fdiv (fconst 1) (fsqrt (fconst (Z.of_nat h)))
              else fconst 0 in
  wih <- uniform_ E [4 * h; i] (fneg stdv) stdv ;;
  whh <- uniform_ E [4 * h; h] (fneg stdv) stdv ;;
  bih <- uniform_ E [4 * h] (fneg stdv) stdv ;;
  bhh <- uniform_ E [4 * h] (fneg stdv) stdv ;;
  ret (mkLSTM i h wih whh bih bhh None bias_True).

(** One time step for one batch element: [g] holds the four gate
    pre-activations (input, forget, cell, output), [c] the cell state. *)
Definition lstm_row (hid : nat) (g c : list F) : list F * list F :=
  let gi := firstn hid g in
  let gf := firstn hid (skipn hid g) in
  let gg := firstn hid (skipn (2 * hid) g) in
  let go := firstn hid (skipn (3 * hid) g) in
  let c' := map (fun q => fadd (fmul (fsigmoid (snd (fst (fst q)))) (snd q))
                               (fmul (fsigmoid (fst (fst (fst q)))) (ftanh (snd (fst q)))))
                (combine (combine (combine gi gf) gg) c) in
  let h' := map (fun q => fmul (fsigmoid (fst q)) (ftanh (snd q))) (combine go c') in
  (h', c').

(** One time step for a batch: [x] of shape [(B, I)], [h] and [c] the
    contents of states of shape [(B, H)]. *)
Definition lstm_cell (l : LSTM) (B : nat) (x : Tensor) (h c : list F)
  : result (list F * list F) :=
  let hid := hidden_size l in
  let* gx := linear x (weight_ih_l0 l) (Some (bias_ih_l0 l)) in
  let* gh := linear (mkTensor [B; hid] h) (weight_hh_l0 l) (Some (bias_hh_l0 l)) in
  if shape_eqb (shape gx) [B; 4 * hid] && shape_eqb (shape gh) [B; 4 * hid]
  then
    let gates := map (fun q => fadd (fst q) (snd q)) (combine (data gx) (data gh)) in
    let rows := map (fun q => lstm_row hid (fst q) (snd q))
                    (combine (chunks B (4 * hid) gates) (chunks B hid c)) in
    Ok (flat_map fst rows, flat_map snd rows)
  else Raise RuntimeError.

Fixpoint lstm_steps (l : LSTM) (B isz : nat) (xs : list (list F)) (h c out : list F)
  : result (list F * (list F * list F)) :=
  match xs with
  | [] => Ok (out, (h, c))
  | x :: rest =>
    let* hc := lstm_cell l B (mkTensor [B; isz] x) h c in
    lstm_steps l B isz rest (fst hc) (snd hc) (out ++ fst hc)
  end.

(** [lstm(input, (hx, cx))] for a batched, time-major [input] of shape
    [(len, B, isz)]; the result is [(output, (h_n, c_n))].  The shapes
    are checked first; the kernel is then called with [self.bias] for its
    boolean flag and refuses a tensor there. *)
Definition LSTM_forward (l : LSTM) (input hx cx : Tensor)
  : result (Tensor * (Tensor * Tensor)) :=
  match shape input with
  | [len; B; isz] =>
    let hid := hidden_size l in
    if negb (shape_eqb (shape hx) [1; B; hid] && shape_eqb (shape cx) [1; B; hid])
    then Raise RuntimeError
    else if negb (isz =? input_size l) then Raise RuntimeError
    else
      match lstm_bias l with
      | bias_Parameter _ => Raise TypeError
      | bias_True =>
        let* r := lstm_steps l B isz (chunks len (B * isz) (data input))
                    (data hx) (data cx) [] in
        Ok (mkTensor [len; B; hid] (fst r),
            (mkTensor [1; B; hid] (fst (snd r)), mkTensor [1; B; hid] (snd (snd r))))
      end
  | _ => Raise RuntimeError
  end.

Record Dropout : Type := mkDropout { rate : F }.

(** [nn.Dropout(p)] *)
Definition Dropout_new (p : F) : result Dropout :=
  if fltb p (fconst 0) || fltb (fconst 1) p then Raise ValueError
  else Ok (mkDropout p).

(** [dropout(t)]: the identity in evaluation mode; in training mode each
    element is kept with probability [1 - p] and rescaled. *)
Definition Dropout_forward (E : Entropy) (d : Dropout) (training : bool) (t : Tensor)
  : M World Tensor :=
  let p := rate d in
  if negb training || negb (fltb (fconst 0) p) || (numel (shape t) =? 0) then ret t
  else if negb (fltb p (fconst 1))
  then ret (mkTensor (shape t) (map (fun v => fmul v (fconst 0)) (data t)))
  else fun w =>
    let n := numel (shape t) in
    let noise := map (fun i => fdiv (if bernoulli_at E (fsub (fconst 1) p) i
                                     then fconst 1 else fconst 0)
                                    (fsub (fconst 1) p))
                     (seq (cursor w) n) in
    (Ok (mkTensor (shape t) (map (fun q => fmul (fst q) (snd q)) (combine (data t) noise))),
     advance n w).

(** ** The module *)

(** [(v < 2) & (v > -2)] *)
Definition in_range (v : F) : bool := fltb v (fconst 2) && fltb (fconst (-2)) v.

(** [truncated_normal_(tensor, mean, std)] *)
Definition truncated_normal_ (E : Entropy) (tensor : Tensor) (mean std : F)
  : M World Tensor :=
  let size := shape tensor in
  tmp <- normal_ E (size ++ [4]) ;;
  let valid := map in_range (data tmp) in
  let ind := map max_indices (chunks (numel size) 4 valid) in
  let gathered := map (fun q => nth (snd q) (fst q) (fconst 0))
                      (combine (chunks (numel size) 4 (data tmp)) ind) in
  ret (mkTensor size (map (fun v => fadd (fmul v std) mean) gathered)).

(** [init_trunc_normal(t, size)] *)
Definition init_trunc_normal (E : Entropy) (t : Tensor) (size : Z) : M World Tensor :=
  let std := fdiv (fconst 1) (fsqrt (fconst size)) in
  truncated_normal_ E t (fconst 0) std.

(** The weight directory: what [np.load] finds at a path, if anything. *)
Definition Files : Type := string -> option Tensor.

(** [np.load(path)] *)
Definition np_load (fs : Files) (path : string) : M World Tensor :=
  fun w => (match fs path with
            | Some a => Ok a
            | None => Raise (FileNotFoundError path)
            end, log_read path w).

(** [load_tf_param(loc)], and every [nn.Parameter(torch.Tensor(np.load(..).T))] *)
Definition load_tf_param (fs : Files) (loc : string) : M World Tensor :=
  a <- np_load fs loc ;; ret (torch_Tensor (T a)).

Record GridTorch : Type := mkGridTorch {
  self_target_ensembles : list Ensemble;
  state_embed : Linear;
  cell_embed : Linear;
  lstm : LSTM;
  bottleneck : Linear;
  pc_logits : Linear;
  hd_logits : Linear;
  dropout : Dropout;
  training : bool
}.

(** The arguments of the constructor. *)
Record Args : Type := mkArgs {
  target_ensembles : list Ensemble;
  nh_lstm : nat;
  nh_bottleneck : nat;
  n_pcs : nat;
  n_hdcs : nat;
  dropoutrates_bottleneck : F;
  bottleneck_has_bias : bool;
  weights_loc : option string
}.

Definition default_args (te : list Ensemble) : Args :=
  mkArgs te 128 256 256 12 (fdiv (fconst 1) (fconst 2)) false None.

(** [l[i]] for a non-negative literal [i] *)
Definition getitem {A} (l : list A) (i : nat) : result A :=
  match nth_error l i with
  | Some a => Ok a
  | None => Raise IndexError
  end.

(** The truth value of [weights_loc]: [None] and the empty string are false. *)
Definition truthy (loc : option string) : option string :=
  match loc with
  | Some s => if String.eqb s EmptyString then None else Some s
  | None => None
  end.

(** Attribute assignments on [self]. *)
Definition on_state_embed (f : Linear -> Linear) (g : GridTorch) : GridTorch :=
  mkGridTorch (self_target_ensembles g) (f (state_embed g)) (cell_embed g) (lstm g)
    (bottleneck g) (pc_logits g) (hd_logits g) (dropout g) (training g).

Definition on_cell_embed (f : Linear -> Linear) (g : GridTorch) : GridTorch :=
  mkGridTorch (self_target_ensembles g) (state_embed g) (f (cell_embed g)) (lstm g)
    (bottleneck g) (pc_logits g) (hd_logits g) (dropout g) (training g).

Definition on_lstm (f : LSTM -> LSTM) (g : GridTorch) : GridTorch :=
  mkGridTorch (self_target_ensembles g) (state_embed g) (cell_embed g) (f (lstm g))
    (bottleneck g) (pc_logits g) (hd_logits g) (dropout g) (training g).

Definition on_bottleneck (f : Linear -> Linear) (g : GridTorch) : GridTorch :=
  mkGridTorch (self_target_ensembles g) (state_embed g) (cell_embed g) (lstm g)
    (f (bottleneck g)) (pc_logits g) (hd_logits g) (dropout g) (training g).

Definition on_pc_logits (f : Linear -> Linear) (g : GridTorch) : GridTorch :=
  mkGridTorch (self_target_ensembles g) (state_embed g) (cell_embed g) (lstm g)
    (bottleneck g) (f (pc_logits g)) (hd_logits g) (dropout g) (training g).

Definition on_hd_logits (f : Linear -> Linear) (g : GridTorch) : GridTorch :=
  mkGridTorch (self_target_ensembles g) (state_embed g) (cell_embed g) (lstm g)
    (bottleneck g) (pc_logits g) (f (hd_logits g)) (dropout g) (training g).

(** [self.lstm.weight = w] adds an attribute to the [nn.LSTM] object,
    next to the four tensors it computes with; [self.lstm.bias = b]
    replaces its flag. *)
Definition set_lstm_weight (w : Tensor) (l : LSTM) : LSTM :=
  mkLSTM (input_size l) (hidden_size l) (weight_ih_l0 l) (weight_hh_l0 l)
    (bias_ih_l0 l) (bias_hh_l0 l) (Some w) (lstm_bias l).

Definition set_lstm_bias (b : Tensor) (l : LSTM) : LSTM :=
  mkLSTM (input_size l) (hidden_size l) (weight_ih_l0 l) (weight_hh_l0 l)
    (bias_ih_l0 l) (bias_hh_l0 l) (lstm_weight l) (bias_Parameter b).

(** Computations on [self] and the world together. *)
Definition Self : Type := (GridTorch * World)%type.

Definition in_world {A} (m : M World A) : M Self A :=
  fun s => let (r, w) := m (snd s) in (r, (fst s, w)).

Definition assign (f : GridTorch -> GridTorch) : M Self unit :=
  modify (fun s => (f (fst s), snd s)).

(** The files [init_weights_from_file] loads, in the order it loads them. *)
Definition weight_files (loc : string) : list string :=
  map (String.append loc)
    [ "grid_cells_core_pc_logits_w_0.npy";
      "grid_cells_core_pc_logits_b_0.npy";
      "grid_cells_core_pc_logits_1_w_0.npy";
      "grid_cells_core_pc_logits_1_b_0.npy";
      "grid_cells_core_bottleneck_w_0.npy";
      "grid_cell_supervised_state_init_w_0.npy";
      "grid_cell_supervised_state_init_b_0.npy";
      "grid_cell_supervised_cell_init_w_0.npy";
      "grid_cell_supervised_cell_init_b_0.npy";
      "grid_cells_core_lstm_w_gates_0.npy";
      "grid_cells_core_lstm_b_gates_0.npy" ]%string.

(** [nn.Parameter(torch.Tensor(np.load(f"{loc}{name}").T))] *)
Definition param (fs : Files) (loc name : string) : M Self Tensor :=
  in_world (load_tf_param fs (String.append loc name)).

(** [self.init_weights_from_file(loc)] *)
Definition init_weights_from_file (fs : Files) (loc : string) : M Self unit :=
  (t <- param fs loc "grid_cells_core_pc_logits_w_0.npy" ;;
   assign (on_pc_logits (set_weight t))) ;;;
  (t <- param fs loc "grid_cells_core_pc_logits_b_0.npy" ;;
   assign (on_pc_logits (set_bias t))) ;;;
  (t <- param fs loc "grid_cells_core_pc_logits_1_w_0.npy" ;;
   assign (on_hd_logits (set_weight t))) ;;;
  (t <- param fs loc "grid_cells_core_pc_logits_1_b_0.npy" ;;
   assign (on_hd_logits (set_bias t))) ;;;
  (t <- param fs loc "grid_cells_core_bottleneck_w_0.npy" ;;
   assign (on_bottleneck (set_weight t))) ;;;
  (t <- param fs loc "grid_cell_supervised_state_init_w_0.npy" ;;
   assign (on_state_embed (set_weight t))) ;;;
  (t <- param fs loc "grid_cell_supervised_state_init_b_0.npy" ;;
   assign (on_state_embed (set_bias t))) ;;;
  (t <- param fs loc "grid_cell_supervised_cell_init_w_0.npy" ;;
   assign (on_cell_embed (set_weight t))) ;;;
  (t <- param fs loc "grid_cell_supervised_cell_init_b_0.npy" ;;
   assign (on_cell_embed (set_bias t))) ;;;
  lstm_ws <- param fs loc "grid_cells_core_lstm_w_gates_0.npy" ;;
  lstm_bs <- param fs loc "grid_cells_core_lstm_b_gates_0.npy" ;;
  (w <- lift (transpose_1_0 lstm_ws) ;; assign (on_lstm (set_lstm_weight w))) ;;;
  assign (on_lstm (set_lstm_bias lstm_bs)).

(** [GridTorch(target_ensembles, ...)]: the constructor. *)
Definition __init__ (E : Entropy) (fs : Files) (a : Args) : M World GridTorch :=
  state_embed <- Linear_new E (n_pcs a + n_hdcs a) (nh_lstm a) true ;;
  cell_embed <- Linear_new E (n_pcs a + n_hdcs a) (nh_lstm a) true ;;
  lstm <- LSTM_new E 3 (nh_lstm a) ;;
  bottleneck <- Linear_new E (nh_lstm a) (nh_bottleneck a) (bottleneck_has_bias a) ;;
  te0 <- lift (getitem (target_ensembles a) 0) ;;
  pc_logits <- Linear_new E (nh_bottleneck a) (n_cells te0) true ;;
  te1 <- lift (getitem (target_ensembles a) 1) ;;
  hd_logits <- Linear_new E (nh_bottleneck a) (n_cells te1) true ;;
  dropout <- lift (Dropout_new (dropoutrates_bottleneck a)) ;;
  se_w <- init_trunc_normal E (weight state_embed) 128 ;;
  ce_w <- init_trunc_normal E (weight cell_embed) 128 ;;
  bn_w <- init_trunc_normal E (weight bottleneck) 256 ;;
  pc_w <- init_trunc_normal E (weight pc_logits) 256 ;;
  hd_w <- init_trunc_normal E (weight hd_logits) 12 ;;
  w_ih <- kaiming_uniform_ E (weight_ih_l0 lstm) ;;
  w_hh <- kaiming_uniform_ E (weight_hh_l0 lstm) ;;
  let zero_bias l := mkLinear (in_features l) (out_features l) (weight l)
                              (option_map zeros_ (bias l)) in
  let self :=
    mkGridTorch (target_ensembles a)
      (zero_bias (set_weight se_w state_embed))
      (zero_bias (set_weight ce_w cell_embed))
      (mkLSTM (input_size lstm) (hidden_size lstm) w_ih w_hh
         (zeros_ (bias_ih_l0 lstm)) (zeros_ (bias_hh_l0 lstm))
         (lstm_weight lstm) (lstm_bias lstm))
      (set_weight bn_w bottleneck)
      (zero_bias (set_weight pc_w pc_logits))
      (zero_bias (set_weight hd_w hd_logits))
      dropout true in
  match truthy (weights_loc a) with
  | Some loc =>
    fun w => let (r, s) := init_weights_from_file fs loc (self, w) in
             (match r with Ok _ => Ok (fst s) | Raise e => Raise e end, snd s)
  | None => ret self
  end.

(** [self.l2_loss] *)
Definition l2_loss : M GridTorch F :=
  self <- get ;;
  ret (fadd (fadd (norm2 (weight (bottleneck self))) (norm2 (weight (pc_logits self))))
            (norm2 (weight (hd_logits self)))).

(** The five lists [forward] fills, with the running states. *)
Record Loop : Type := mkLoop {
  h_t : Tensor;
  c_t : Tensor;
  logits_hd : list Tensor;
  logits_pc : list Tensor;
  bottleneck_acts : list Tensor;
  rnn_states : list Tensor;
  cell_states : list Tensor
}.

(** The body of [for t in x]. *)
Definition step (E : Entropy) (self : GridTorch) (batch_size : nat) (t : Tensor) (s : Loop)
  : M World Loop :=
  inp <- lift (view_1_b_infer t batch_size) ;;
  r <- lift (LSTM_forward (lstm self) inp (unsqueeze0 (h_t s)) (unsqueeze0 (c_t s))) ;;
  let h := squeeze (fst (snd r)) in
  let c := squeeze (snd (snd r)) in
  b <- lift (Linear_forward (bottleneck self) h) ;;
  bottleneck_activations <- Dropout_forward E (dropout self) (training self) b ;;
  pc_preds <- lift (Linear_forward (pc_logits self) bottleneck_activations) ;;
  hd_preds <- lift (Linear_forward (hd_logits self) bottleneck_activations) ;;
  ret (mkLoop h c
         (logits_hd s ++ [hd_preds])
         (logits_pc s ++ [pc_preds])
         (bottleneck_acts s ++ [bottleneck_activations])
         (rnn_states s ++ [h])
         (cell_states s ++ [c])).

Fixpoint loop (E : Entropy) (self : GridTorch) (batch_size : nat) (xs : list Tensor) (s : Loop)
  : M World Loop :=
  match xs with
  | [] => ret s
  | t :: rest => s' <- step E self batch_size t s ;; loop E self batch_size rest s'
  end.

(** The value [forward] returns: the five stacked sequences, in the order
    of the returned tuple. *)
Record Outs : Type := mkOuts {
  out_logits_hd : Tensor;
  out_logits_pc : Tensor;
  out_bottleneck_acts : Tensor;
  out_rnn_states : Tensor;
  out_cell_states : Tensor
}.

(** [self.forward(x, initial_conds)] *)
Definition forward (E : Entropy) (self : GridTorch) (x : Tensor) (initial_conds : list Tensor)
  : M World Outs :=
  batch_size <- lift (shape_at x 1) ;;
  init <- lift (cat1 initial_conds) ;;
  init_state <- lift (Linear_forward (state_embed self) init) ;;
  init_cell <- lift (Linear_forward (cell_embed self) init) ;;
  xs <- lift (iterate x) ;;
  s <- loop E self batch_size xs (mkLoop init_state init_cell [] [] [] [] []) ;;
  o1 <- lift (stack (logits_hd s)) ;;
  o2 <- lift (stack (logits_pc s)) ;;
  o3 <- lift (stack (bottleneck_acts s)) ;;
  o4 <- lift (stack (rnn_states s)) ;;
  o5 <- lift (stack (cell_states s)) ;;
  ret (mkOuts o1 o2 o3 o4 o5).

(** ** Vocabulary of the statements *)

(** The four candidate draws of element [i] of a tensor sampled by
    [truncated_normal_] when the generator is at position [c]. *)
Definition candidates (E : Entropy) (c i : nat) : list F :=
  map (normal_at E) (seq (c + 4 * i) 4).

(** The first candidate inside [(-2, 2)]; the first candidate when there
    is none. *)
Definition selected (ds : list F) : F :=
  match find in_range ds with
  | Some d => d
  | None => hd (fconst 0) ds
  end.

(** The tensor [init_trunc_normal] leaves in a tensor of shape [s]. *)
Definition trunc_weight (E : Entropy) (c : nat) (s : list nat) (size : Z) : Tensor :=
  mkTensor s
    (map (fun i => fadd (fmul (selected (candidates E c i))
                              (fdiv (fconst 1) (fsqrt (fconst size))))
                        (fconst 0))
         (seq 0 (numel s))).

(** The candidate of least magnitude, for a non-empty list. *)
Fixpoint nearest (d : F) (ds : list F) : F :=
  match ds with
  | [] => d
  | x :: r =>
    let magnitude v := if fltb v (fconst 0) then fneg v else v in
    if fltb (magnitude x) (magnitude d) then nearest x r else nearest d r
  end.

Definition all_zero (t : Tensor) : Prop :=
  Forall (fun v => v = fconst 0) (data t).

(** [|v| <= 2 * std], as two comparisons. *)
Definition within_two_std (std v : F) : Prop :=
  fltb (fmul (fconst 2) std) v = false /\ fltb v (fmul (fconst (-2)) std) = false.

(** A file is missing from the weight directory. *)
Definition absent (fs : Files) (p : string) : bool :=
  match fs p with
  | Some _ => false
  | None => true
  end.

(** The prefix of [l] that ends with the first element satisfying [f]. *)
Fixpoint through {A} (f : A -> bool) (l : list A) : list A :=
  match l with
  | [] => []
  | x :: r => if f x then [x] else x :: through f r
  end.

(** The parameter made from the file [name] of the directory. *)
Definition file_T (fs : Files) (loc name : string) : Tensor :=
  match fs (String.append loc name) with
  | Some a => torch_Tensor (T a)
  | None => mkTensor [] []
  end.

(** [self] after the nine assignments to the linear layers. *)
Definition loaded_linear (fs : Files) (loc : string) (self : GridTorch) : GridTorch :=
  on_cell_embed (set_bias (file_T fs loc "grid_cell_supervised_cell_init_b_0.npy"))
  (on_cell_embed (set_weight (file_T fs loc "grid_cell_supervised_cell_init_w_0.npy"))
  (on_state_embed (set_bias (file_T fs loc "grid_cell_supervised_state_init_b_0.npy"))
  (on_state_embed (set_weight (file_T fs loc "grid_cell_supervised_state_init_w_0.npy"))
  (on_bottleneck (set_weight (file_T fs loc "grid_cells_core_bottleneck_w_0.npy"))
  (on_hd_logits (set_bias (file_T fs loc "grid_cells_core_pc_logits_1_b_0.npy"))
  (on_hd_logits (set_weight (file_T fs loc "grid_cells_core_pc_logits_1_w_0.npy"))
  (on_pc_logits (set_bias (file_T fs loc "grid_cells_core_pc_logits_b_0.npy"))
  (on_pc_logits (set_weight (file_T fs loc "grid_cells_core_pc_logits_w_0.npy"))
     self)))))))).

(** [self] after all thirteen assignments, [wt] being the transposed gate
    weights. *)
Definition loaded (fs : Files) (loc : string) (wt : Tensor) (self : GridTorch) : GridTorch :=
  on_lstm (set_lstm_bias (file_T fs loc "grid_cells_core_lstm_b_gates_0.npy"))
  (on_lstm (set_lstm_weight wt) (loaded_linear fs loc self)).

(** Two recurrent modules agree on their sizes and on the four tensors
    their forward pass computes with. *)
Definition same_recurrence (l l' : LSTM) : Prop :=
  input_size l = input_size l' /\ hidden_size l = hidden_size l' /\
  weight_ih_l0 l = weight_ih_l0 l' /\ weight_hh_l0 l = weight_hh_l0 l' /\
  bias_ih_l0 l = bias_ih_l0 l' /\ bias_hh_l0 l = bias_hh_l0 l'.

(** [self] with another list stored in [self.target_ensembles]. *)
Definition retarget (te : list Ensemble) (g : GridTorch) : GridTorch :=
  mkGridTorch te (state_embed g) (cell_embed g) (lstm g) (bottleneck g)
    (pc_logits g) (hd_logits g) (dropout g) (training g).

Definition with_ensembles (te : list Ensemble) (a : Args) : Args :=
  mkArgs te (nh_lstm a) (nh_bottleneck a) (n_pcs a) (n_hdcs a)
    (dropoutrates_bottleneck a) (bottleneck_has_bias a) (weights_loc a).

(** Input widths every release of PyTorch builds layers for: with an input
    width of zero the default initialisation divides by zero in some
    releases and is skipped or rejected in others. *)
Definition positive_widths (a : Args) : Prop :=
  0 < n_pcs a + n_hdcs a /\ 0 < nh_lstm a /\ 0 < nh_bottleneck a.

(** A dropout rate [nn.Dropout] accepts. *)
Definition valid_rate (p : F) : Prop :=
  fltb p (fconst 0) || fltb (fconst 1) p = false.

(** A layer as [nn.Linear(i, o, bias=hb)] shapes it. *)
Definition Linear_fresh (i o : nat) (hb : bool) (l : Linear) : Prop :=
  in_features l = i /\ out_features l = o /\ shape (weight l) = [o; i] /\
  match bias l with
  | Some b => hb = true /\ shape b = [o]
  | None => hb = false
  end.

Definition LSTM_fresh (i h : nat) (l : LSTM) : Prop :=
  input_size l = i /\ hidden_size l = h /\
  shape (weight_ih_l0 l) = [4 * h; i] /\ shape (weight_hh_l0 l) = [4 * h; h] /\
  shape (bias_ih_l0 l) = [4 * h] /\ shape (bias_hh_l0 l) = [4 * h] /\
  lstm_weight l = None /\ lstm_bias l = bias_True.

(** What the constructor has built when it reaches [if weights_loc:],
    [e0] and [e1] being the first two target ensembles. *)
Record Fresh (E : Entropy) (a : Args) (e0 e1 : Ensemble) (m : GridTorch) : Prop := {
  fresh_state_embed : Linear_fresh (n_pcs a + n_hdcs a) (nh_lstm a) true (state_embed m);
  fresh_cell_embed : Linear_fresh (n_pcs a + n_hdcs a) (nh_lstm a) true (cell_embed m);
  fresh_lstm : LSTM_fresh 3 (nh_lstm a) (lstm m);
  fresh_bottleneck :
    Linear_fresh (nh_lstm a) (nh_bottleneck a) (bottleneck_has_bias a) (bottleneck m);
  fresh_pc_logits : Linear_fresh (nh_bottleneck a) (n_cells e0) true (pc_logits m);
  fresh_hd_logits : Linear_fresh (nh_bottleneck a) (n_cells e1) true (hd_logits m);
  fresh_state_embed_w : exists c,
    weight (state_embed m) = trunc_weight E c [nh_lstm a; n_pcs a + n_hdcs a] 128;
  fresh_cell_embed_w : exists c,
    weight (cell_embed m) = trunc_weight E c [nh_lstm a; n_pcs a + n_hdcs a] 128;
  fresh_bottleneck_w : exists c,
    weight (bottleneck m) = trunc_weight E c [nh_bottleneck a; nh_lstm a] 256;
  fresh_pc_logits_w : exists c,
    weight (pc_logits m) = trunc_weight E c [n_cells e0; nh_bottleneck a] 256;
  fresh_hd_logits_w : exists c,
    weight (hd_logits m) = trunc_weight E c [n_cells e1; nh_bottleneck a] 12;
  fresh_state_embed_b : exists b, bias (state_embed m) = Some b /\ all_zero b;
  fresh_cell_embed_b : exists b, bias (cell_embed m) = Some b /\ all_zero b;
  fresh_pc_logits_b : exists b, bias (pc_logits m) = Some b /\ all_zero b;
  fresh_hd_logits_b : exists b, bias (hd_logits m) = Some b /\ all_zero b;
  fresh_bias_ih : all_zero (bias_ih_l0 (lstm m));
  fresh_bias_hh : all_zero (bias_hh_l0 (lstm m));
  fresh_dropout : rate (dropout m) = dropoutrates_bottleneck a;
  fresh_training : training m = true;
  fresh_ensembles : self_target_ensembles m = target_ensembles a
}.

(** The draws [nn.Linear(i, o, bias=hb)] and [nn.LSTM(i, h)] make for
    their default initialisation, and the position of the generator when
    the constructor, called at position [c], starts on the truncated
    normals: the six modules have been built by then. *)
Definition Linear_draws (i o : nat) (hb : bool) : nat :=
  numel [o; i] + (if hb then numel [o] else 0).

Definition LSTM_draws (i h : nat) : nat :=
  numel [4 * h; i] + numel [4 * h; h] + numel [4 * h] + numel [4 * h].

Definition trunc_start (a : Args) (e0 e1 : Ensemble) (c : nat) : nat :=
  c + Linear_draws (n_pcs a + n_hdcs a) (nh_lstm a) true
    + Linear_draws (n_pcs a + n_hdcs a) (nh_lstm a) true
    + LSTM_draws 3 (nh_lstm a)
    + Linear_draws (nh_lstm a) (nh_bottleneck a) (bottleneck_has_bias a)
    + Linear_draws (nh_bottleneck a) (n_cells e0) true
    + Linear_draws (nh_bottleneck a) (n_cells e1) true.

(** [W] is the tensor of shape [s] that [init_trunc_normal] samples at
    position [c] of the generator with [std = 1 / sqrt size]: every
    element that has a candidate inside [(-2, 2)] lies within two
    standard deviations, and an element that has none is its first
    candidate times [std]. *)
Definition truncated_at (E : Entropy) (c : nat) (s : list nat) (size : Z) (W : Tensor)
  : Prop :=
  let std := fdiv (fconst 1) (fsqrt (fconst size)) in
  W = trunc_weight E c s size /\
  forall i,
    i < numel s ->
    (existsb in_range (candidates E c i) = true ->
     within_two_std std (nth i (data W) (fconst 0))) /\
    (existsb in_range (candidates E c i) = false ->
     nth i (data W) (fconst 0) =
     fadd (fmul (normal_at E (c + 4 * i)) std) (fconst 0)).

(** Parameter shapes [forward] can work with: [P] the width of the
    concatenated initial conditions, [H] the recurrent width, [NB] the
    bottleneck width, [n0] and [n1] the widths of the two heads. *)
Definition Linear_shaped (i o : nat) (l : Linear) : Prop :=
  shape (weight l) = [o; i] /\
  match bias l with
  | Some b => shape b = [o]
  | None => True
  end.

Definition LSTM_shaped (i h : nat) (l : LSTM) : Prop :=
  input_size l = i /\ hidden_size l = h /\
  shape (weight_ih_l0 l) = [4 * h; i] /\ shape (weight_hh_l0 l) = [4 * h; h] /\
  shape (bias_ih_l0 l) = [4 * h] /\ shape (bias_hh_l0 l) = [4 * h].

Record well_shaped (P H NB n0 n1 : nat) (m : GridTorch) : Prop := {
  ws_state_embed : Linear_shaped P H (state_embed m);
  ws_cell_embed : Linear_shaped P H (cell_embed m);
  ws_lstm : LSTM_shaped 3 H (lstm m);
  ws_bottleneck : Linear_shaped H NB (bottleneck m);
  ws_pc_logits : Linear_shaped NB n0 (pc_logits m);
  ws_hd_logits : Linear_shaped NB n1 (hd_logits m)
}.

(** The shape [squeeze] leaves. *)
Definition squeezed (s : list nat) : list nat := filter (fun d => negb (d =? 1)) s.


(** [self.eval()] *)
Definition eval (g : GridTorch) : GridTorch :=
  mkGridTorch (self_target_ensembles g) (state_embed g) (cell_embed g) (lstm g)
    (bottleneck g) (pc_logits g) (hd_logits g) (dropout g) false.

(** ** Vocabulary of the further properties *)

(** The number of leading elements of [l] that do not satisfy [f]. *)
Fixpoint before {A} (f : A -> bool) (l : list A) : nat :=
  match l with
  | [] => 0
  | x :: r => if f x then 0 else S (before f r)
  end.

(** The nine assignments [init_weights_from_file] makes to the linear
    layers, in the order it makes them, each with the file its tensor is
    read from. *)
Definition linear_assignments : list (string * (Tensor -> GridTorch -> GridTorch)) :=
  [ ("grid_cells_core_pc_logits_w_0.npy"%string, fun t => on_pc_logits (set_weight t));
    ("grid_cells_core_pc_logits_b_0.npy"%string, fun t => on_pc_logits (set_bias t));
    ("grid_cells_core_pc_logits_1_w_0.npy"%string, fun t => on_hd_logits (set_weight t));
    ("grid_cells_core_pc_logits_1_b_0.npy"%string, fun t => on_hd_logits (set_bias t));
    ("grid_cells_core_bottleneck_w_0.npy"%string, fun t => on_bottleneck (set_weight t));
    ("grid_cell_supervised_state_init_w_0.npy"%string,
     fun t => on_state_embed (set_weight t));
    ("grid_cell_supervised_state_init_b_0.npy"%string,
     fun t => on_state_embed (set_bias t));
    ("grid_cell_supervised_cell_init_w_0.npy"%string,
     fun t => on_cell_embed (set_weight t));
    ("grid_cell_supervised_cell_init_b_0.npy"%string,
     fun t => on_cell_embed (set_bias t)) ].

(** [self] after the first [n] of those assignments. *)
Definition assigned (fs : Files) (loc : string) (n : nat) (self : GridTorch) : GridTorch :=
  fold_left (fun g e => snd e (file_T fs loc (fst e)) g) (firstn n linear_assignments) self.

(** The arguments with [weights_loc=None]. *)
Definition without_weights (a : Args) : Args :=
  mkArgs (target_ensembles a) (nh_lstm a) (nh_bottleneck a) (n_pcs a) (n_hdcs a)
    (dropoutrates_bottleneck a) (bottleneck_has_bias a) None.

(** [x[:k]]: the first [k] slices of [x] along its first dimension. *)
Definition narrow (k : nat) (x : Tensor) : Tensor :=
  let n := Nat.min k (hd 0 (shape x)) in
  mkTensor (n :: tl (shape x)) (firstn (n * numel (tl (shape x))) (data x)).

(** A tensor holds as many elements as its shape says. *)
Definition sized (t : Tensor) : Prop := length (data t) = numel (shape t).

(** Two outcomes agree: both are values, related by [R], or both raise
    the same exception. *)
Definition agree {A B} (R : A -> B -> Prop) (r1 : result A) (r2 : result B) : Prop :=
  match r1, r2 with
  | Ok a, Ok b => R a b
  | Raise e1, Raise e2 => e1 = e2
  | _, _ => False
  end.

(** Two runs of the loop of [forward] that agree on the states, and on
    the shapes of the other tensors they have collected. *)
Definition same_states (s s' : Loop) : Prop :=
  h_t s = h_t s' /\ c_t s = c_t s' /\
  rnn_states s = rnn_states s' /\ cell_states s = cell_states s' /\
  map shape (logits_hd s) = map shape (logits_hd s') /\
  map shape (logits_pc s) = map shape (logits_pc s') /\
  map shape (bottleneck_acts s) = map shape (bottleneck_acts s').

(** The bias of a layer, when it has one, and the biases of a model hold
    as many elements as their shapes say. *)
Definition bias_sized (l : Linear) : Prop :=
  match bias l with
  | Some b => sized b
  | None => True
  end.

Record biases_sized (m : GridTorch) : Prop := {
  bs_state_embed : bias_sized (state_embed m);
  bs_cell_embed : bias_sized (cell_embed m);
  bs_bottleneck : bias_sized (bottleneck m);
  bs_pc_logits : bias_sized (pc_logits m);
  bs_hd_logits : bias_sized (hd_logits m);
  bs_bias_ih : sized (bias_ih_l0 (lstm m));
  bs_bias_hh : sized (bias_hh_l0 (lstm m))
}.

(** Everything the loop of [forward] holds has as many elements as its
    shape says. *)
Record all_sized (s : Loop) : Prop := {
  as_h : sized (h_t s);
  as_c : sized (c_t s);
  as_hd : Forall sized (logits_hd s);
  as_pc : Forall sized (logits_pc s);
  as_ba : Forall sized (bottleneck_acts s);
  as_hs : Forall sized (rnn_states s);
  as_cs : Forall sized (cell_states s)
}.

(** What the loop of [forward] has collected is consistent: the logits of
    a step are the two heads applied to the bottleneck activation
    collected for that step and, when [dropped] is false, that activation
    is the bottleneck layer applied to the hidden state of the step. *)
Record consistent (self : GridTorch) (dropped : bool)
  (hs bs ps ds : list Tensor) : Prop := {
  co_pc : Forall2 (fun b p => Linear_forward (pc_logits self) b = Ok p) bs ps;
  co_hd : Forall2 (fun b d => Linear_forward (hd_logits self) b = Ok d) bs ds;
  co_ba : dropped = false ->
          Forall2 (fun h b => Linear_forward (bottleneck self) h = Ok b) hs bs
}.



(** The transpose of an [r] by [c] matrix stored row by row in [d]:
    entry [(j, i)] of the result is entry [(i, j)] of [d]. *)
Definition transposed (r c : nat) (d : list F) : list F :=
  flat_map (fun j => map (fun i => nth (i * c + j) d (fconst 0)) (seq 0 r)) (seq 0 c).

(** A tensor of shape [s] of uniform draws scaled to [(-b, b)], the first
    one made at position [c] of the generator. *)
Definition uniform_tensor (E : Entropy) (c : nat) (s : list nat) (b : F) : Tensor :=
  mkTensor s (map (fun i => fadd (fneg b) (fmul (fsub b (fneg b)) (uniform_at E i)))
                  (seq c (numel s))).

End Model.

(** ** Rational scalars and concrete inputs *)

(** Exact rational arithmetic as an instance of the scalar interface, used
    to run the model on concrete inputs.  The square root is exact on the
    squares of rationals and rounded down to 20 binary digits elsewhere;
    the sigmoid and the hyperbolic tangent are rational stand-ins with the
    sign, monotonicity and range of the real functions; the conversion to
    single precision rounds to 24 binary digits.  None of the statements
    below depends on their values. *)
Definition Qsqrt (q : Q) : Q :=
  Qred (Z.sqrt (Qnum q * Zpos (Qden q) * 2 ^ 40) # (Qden q * 2 ^ 20)).

Definition Qsoftsign (q : Q) : Q := Qred (q / (1 + Qabs q)).

(** Rounding to the nearest number with a significand of 24 binary
    digits, ties to the even significand: single precision without its
    exponent range. *)
Definition Qfloat32 (q : Q) : Q :=
  let n := Z.abs (Qnum q) in
  let d := Zpos (Qden q) in
  if (n =? 0)%Z then 0%Q
  else
    let up z := (2 ^ Z.max 0 z)%Z in
    let e0 := (Z.log2 n - Z.log2 d)%Z in
    let e := (if (d * up e0 <=? n * up (- e0))%Z then e0 else e0 - 1)%Z in
    let k := (23 - e)%Z in
    let num := (n * up k)%Z in
    let den := (d * up (- k))%Z in
    let m := (num / den)%Z in
    let r := (num mod den)%Z in
    let m' := (if (den <? 2 * r)%Z then m + 1
               else if (2 * r =? den)%Z then (if Z.even m then m else m + 1)
               else m)%Z in
    Qred (inject_Z (Z.sgn (Qnum q) * m' * up (- k))%Z / inject_Z (up k)).

#[export] Instance Q_scalar : Scalar Q := {
  fconst z := inject_Z z;
  fadd a b := Qred (a + b);
  fsub a b := Qred (a - b);
  fmul a b := Qred (a * b);
  fdiv a b := Qred (a / b);
  fsqrt := Qsqrt;
  fsigmoid a := Qred ((1 + Qsoftsign (a / 2)) / 2);
  ftanh := Qsoftsign;
  ffloat32 := Qfloat32;
  fltb a b := negb (Qle_bool b a)
}.

Definition filled (s : list nat) (v : Q) : Tensor := mkTensor s (repeat v (numel s)).

(** A generator whose normal draws cycle through -2, -1, 0, 1, 2. *)
Definition E0 : Entropy :=
  mkEntropy (fun n => Qred (inject_Z (Z.of_nat (n mod 5)) - 2))
            (fun n => Qred (inject_Z (Z.of_nat (n mod 4)) / 4))
            (fun _ n => Nat.even n).

(** A generator whose normal draws are 5, 3, 4, 6 and then 0. *)
Definition E_far : Entropy :=
  mkEntropy (fun n => nth n [5; 3; 4; 6]%Q 0%Q) (fun _ => 0%Q) (fun _ _ => true).

(** A generator whose normal draws are all 3. *)
Definition E_three : Entropy :=
  mkEntropy (fun _ => 3%Q) (fun _ => 0%Q) (fun _ _ => true).

Definition w0 : World := mkWorld 0 [].

Definition no_files : Files (F := Q) := fun _ => None.

Definition files_of (l : list (string * Tensor (F := Q))) : Files :=
  fun p => option_map snd (find (fun e => String.eqb (fst e) p) l).

(** The scenario of the specification: ensembles of 4 and 2 cells,
    recurrent width 8, bottleneck width 8, initial conditions of width 4
    and 2. *)
Definition small_args : Args :=
  mkArgs [mkEnsemble 4; mkEnsemble 2] 8 8 4 2 (1 # 2)%Q false None.

Definition small_args_from (loc : string) : Args :=
  mkArgs [mkEnsemble 4; mkEnsemble 2] 8 8 4 2 (1 # 2)%Q false (Some loc).

(** The default configuration, for ensembles of 256 and 12 cells. *)
Definition standard_args : Args := default_args [mkEnsemble 256; mkEnsemble 12].

(** One-cell ensembles behind a bottleneck of width 256. *)
Definition wide_args : Args :=
  mkArgs [mkEnsemble 1; mkEnsemble 1] 1 256 1 1 (1 # 2)%Q false None.

Definition empty_linear : Linear (F := Q) := mkLinear 0 0 (mkTensor [] []) None.

Definition or_blank (r : result (GridTorch (F := Q))) : GridTorch :=
  match r with
  | Ok m => m
  | Raise _ =>
    mkGridTorch [] empty_linear empty_linear
      (mkLSTM 0 0 (mkTensor [] []) (mkTensor [] []) (mkTensor [] []) (mkTensor [] [])
         None bias_True)
      empty_linear empty_linear empty_linear (mkDropout 0%Q) true
  end.

(** The model the constructor builds for the scenario. *)
Definition small_model : GridTorch :=
  or_blank (fst (__init__ E0 no_files small_args w0)).

(** A length-5 sequence of batch size 1, and initial conditions of width
    4 and 2. *)
Definition x5 : Tensor := filled [5; 1; 3] 0%Q.
Definition initial_4_2 : list Tensor := [filled [1; 4] 0%Q; filled [1; 2] 0%Q].

(** The same with batch size 2. *)
Definition x5_pair : Tensor := filled [5; 2; 3] 0%Q.
Definition initial_4_2_pair : list Tensor := [filled [2; 4] 0%Q; filled [2; 2] 0%Q].

Definition half : Q := (1 # 2)%Q.

(** A weight directory for the scenario, every array filled with 1/2. *)
Definition small_dir : Files :=
  files_of
    [ ("w/grid_cells_core_pc_logits_w_0.npy", filled [8; 4] half);
      ("w/grid_cells_core_pc_logits_b_0.npy", filled [4] half);
      ("w/grid_cells_core_pc_logits_1_w_0.npy", filled [8; 2] half);
      ("w/grid_cells_core_pc_logits_1_b_0.npy", filled [2] half);
      ("w/grid_cells_core_bottleneck_w_0.npy", filled [8; 8] half);
      ("w/grid_cell_supervised_state_init_w_0.npy", filled [6; 8] half);
      ("w/grid_cell_supervised_state_init_b_0.npy", filled [8] half);
      ("w/grid_cell_supervised_cell_init_w_0.npy", filled [6; 8] half);
      ("w/grid_cell_supervised_cell_init_b_0.npy", filled [8] half);
      ("w/grid_cells_core_lstm_w_gates_0.npy", filled [11; 32] half);
      ("w/grid_cells_core_lstm_b_gates_0.npy", filled [32] half) ]%string.

Definition scenario_loc : string := "w/".

Definition bottleneck_file : string := "w/grid_cells_core_bottleneck_w_0.npy".

(** The same directory without the bottleneck file. *)
Definition holed_dir : Files :=
  fun p => if String.eqb p bottleneck_file then None else small_dir p.

(** The sequences of a forward call that returned. *)
Definition or_outs (r : result (Outs (F := Q))) : Outs :=
  match r with
  | Ok o => o
  | Raise _ =>
    mkOuts (mkTensor [] []) (mkTensor [] []) (mkTensor [] []) (mkTensor [] [])
      (mkTensor [] [])
  end.


(** Five steps of width 4, and initial conditions of widths 4 and 3. *)
Definition x5_wide : Tensor := filled [5; 2; 4] 0%Q.
Definition initial_4_3_pair : list Tensor := [filled [2; 4] 0%Q; filled [2; 3] 0%Q].

(** The scenario with other settings: no dropout, a rate [nn.Dropout]
    refuses, a bottleneck with a bias, an empty weights location. *)
Definition small_args_with (p : Q) (has_bias : bool) (loc : option string) : Args :=
  mkArgs [mkEnsemble 4; mkEnsemble 2] 8 8 4 2 p has_bias loc.

Definition sure_model : GridTorch :=
  or_blank (fst (__init__ E0 no_files (small_args_with 0%Q false None) w0)).

(** A 2 by 3 matrix, alone in a directory.  Two of its values are
    double-precision numbers that single precision does not hold:
    2^24 + 1 and (2^24 + 1) / 2^25. *)
Definition m23 : Tensor :=
  mkTensor [2; 3] [16777217; 2; 3; 16777217 # 33554432; 5; 6]%Q.

Definition m23_path : string := "m.npy".

Definition m23_dir : Files := files_of [(m23_path, m23)].

Definition gates_file : string := "w/grid_cells_core_lstm_w_gates_0.npy".

(** A directory in which every path holds the same 2 by 3 matrix. *)
Definition odd_dir : Files := fun _ => Some m23.

(** * Properties *)

Unset Implicit Arguments.

Section Facts.
Context {F : Type} {SF : Scalar F}.
Local Abbreviation Tensor := (@Tensor F).
Local Abbreviation Files := (@Files F).
Local Abbreviation GridTorch := (@GridTorch F).
Local Abbreviation Entropy := (@Entropy F).
Local Abbreviation Args := (@Args F).
Local Abbreviation Linear := (@Linear F).
Local Abbreviation LSTM := (@LSTM F).
Local Abbreviation Loop := (@Loop F).
Local Abbreviation Outs := (@Outs F).
Local Abbreviation Dropout := (@Dropout F).

Lemma chunks_map {A B} (f : A -> B) k n (l : list A) :
  chunks k n (map f l) = map (map f) (chunks k n l).
Proof.
  revert l. induction k as [|k IH]; intros l; simpl; [reflexivity|].
  rewrite firstn_map, skipn_map, IH. reflexivity.
Qed.

Lemma chunks_seq k n c :
  chunks k n (seq c (k * n)) = map (fun i => seq (c + n * i) n) (seq 0 k).
Proof.
  revert c. induction k as [|k IH]; intros c; simpl; [reflexivity|].
  rewrite seq_app, firstn_app, firstn_all2, skipn_app, skipn_all2
    by (rewrite length_seq; lia).
  rewrite length_seq, Nat.sub_diag. simpl. rewrite app_nil_r.
  rewrite IH. rewrite <- seq_shift, map_map. f_equal.
  - f_equal. lia.
  - apply map_ext. intros i. f_equal. lia.
Qed.

Lemma numel_app s1 s2 : numel (s1 ++ s2) = numel s1 * numel s2.
Proof.
  induction s1 as [|d s IH]; simpl; [lia|]. unfold numel in *. simpl. rewrite IH. lia.
Qed.

Lemma combine_map_r {A B} (g : A -> B) (l : list A) :
  combine l (map g l) = map (fun x => (x, g x)) l.
Proof. induction l; simpl; [reflexivity|]. rewrite IHl. reflexivity. Qed.

Lemma index_of_first_true {A} (f : A -> bool) (l : list A) (d : A) :
  existsb (fun b => b) (map f l) = true ->
  nth (index_of_first true (map f l)) l d =
  match find f l with Some x => x | None => d end.
Proof.
  induction l as [|x r IH]; simpl; [discriminate|].
  destruct (f x) eqn:Hx; simpl; [reflexivity|]. exact IH.
Qed.

Lemma selected_gather (l : list F) :
  nth (max_indices (map in_range l)) l (fconst 0) = selected l.
Proof.
  unfold max_indices, max_values, selected.
  destruct (existsb (fun b => b) (map in_range l)) eqn:Hex.
  - rewrite index_of_first_true by exact Hex.
    destruct (find in_range l) eqn:Hf; [reflexivity|].
    exfalso. apply existsb_exists in Hex as (b & Hb & ->).
    apply in_map_iff in Hb as (x & Hx & Hin).
    rewrite (find_none _ _ Hf x Hin) in Hx. discriminate.
  - assert (Hnone : find in_range l = None).
    { destruct (find in_range l) eqn:Hf; [|reflexivity].
      apply find_some in Hf as [Hin Ht].
      assert (existsb (fun b => b) (map in_range l) = true).
      { apply existsb_exists. exists true. split; [|reflexivity].
        apply in_map_iff. eauto. }
      congruence. }
    rewrite Hnone. destruct l as [|x r]; simpl; [reflexivity|].
    simpl in Hex. destruct (in_range x); [discriminate|]. reflexivity.
Qed.

Lemma truncated_normal_run (E : Entropy) (t : Tensor) (mean std : F) (w : World) :
  truncated_normal_ E t mean std w =
  (Ok (mkTensor (shape t)
         (map (fun i => fadd (fmul (selected (candidates E (cursor w) i)) std) mean)
              (seq 0 (numel (shape t))))),
   advance (numel (shape t) * 4) w).
Proof.
  unfold truncated_normal_, bind, normal_, ret. cbn [data shape].
  rewrite numel_app. change (numel [4]) with 4.
  f_equal. f_equal. f_equal.
  rewrite (chunks_map in_range), (map_map (map in_range)), combine_map_r, !map_map.
  rewrite chunks_map, chunks_seq, !map_map.
  apply map_ext. intros i. cbn [fst snd].
  rewrite selected_gather. reflexivity.
Qed.

Lemma init_trunc_normal_run (E : Entropy) (t : Tensor) (size : Z) (w : World) :
  init_trunc_normal E t size w =
  (Ok (trunc_weight E (cursor w) (shape t) size), advance (numel (shape t) * 4) w).
Proof. unfold init_trunc_normal. rewrite truncated_normal_run. reflexivity. Qed.

(** ** Construction *)

Lemma bind_ok {S A B} (m : M S A) (k : A -> M S B) s a s' :
  m s = (Ok a, s') -> bind m k s = k a s'.
Proof. unfold bind. intros ->. reflexivity. Qed.

Lemma Linear_new_run (E : Entropy) i o hb w :
  exists l w',
    Linear_new E i o hb w = (Ok l, w') /\ Linear_fresh i o hb l /\ reads w' = reads w.
Proof.
  unfold Linear_new, bind, uniform_, ret. destruct hb; cbv beta iota.
  - eexists. eexists. split; [reflexivity|]. repeat split.
  - eexists. eexists. split; [reflexivity|]. repeat split.
Qed.

Lemma LSTM_new_run (E : Entropy) i h w :
  exists l w', LSTM_new E i h w = (Ok l, w') /\ LSTM_fresh i h l /\ reads w' = reads w.
Proof.
  unfold LSTM_new, bind, uniform_, ret. cbv beta iota.
  eexists. eexists. split; [reflexivity|]. repeat split.
Qed.

Lemma kaiming_uniform_run (E : Entropy) (t : Tensor) r c w :
  shape t = [r; c] ->
  exists t' w',
    kaiming_uniform_ E t w = (Ok t', w') /\ shape t' = [r; c] /\ reads w' = reads w.
Proof.
  intros Hs. unfold kaiming_uniform_. rewrite Hs. unfold uniform_.
  eexists. eexists. split; [reflexivity|]. split; reflexivity.
Qed.

Lemma all_zero_zeros (t : Tensor) : all_zero (zeros_ t).
Proof.
  unfold all_zero, zeros_. cbn [data]. apply Forall_forall.
  intros v Hv. apply in_map_iff in Hv as (x & <- & _). reflexivity.
Qed.

Lemma Dropout_new_valid (p : F) : valid_rate p -> Dropout_new p = Ok (mkDropout p).
Proof. unfold valid_rate, Dropout_new. intros ->. reflexivity. Qed.

Lemma init_fresh (E : Entropy) (fs : Files) (a : Args) w e0 e1 rest :
  target_ensembles a = e0 :: e1 :: rest ->
  valid_rate (dropoutrates_bottleneck a) ->
  exists m w1,
    Fresh E a e0 e1 m /\ reads w1 = reads w /\
    __init__ E fs a w =
    (match truthy (weights_loc a) with
     | Some loc =>
       fun w => let (r, s) := init_weights_from_file fs loc (m, w) in
                (match r with Ok _ => Ok (fst s) | Raise e => Raise e end, snd s)
     | None => ret m
     end) w1.
Proof.
  intros Hte Hd. apply Dropout_new_valid in Hd.
  unfold __init__. rewrite Hte, Hd.
  destruct (Linear_new_run E (n_pcs a + n_hdcs a) (nh_lstm a) true w)
    as (se & w1 & R1 & Hse & Q1).
  rewrite (bind_ok _ _ _ _ _ R1).
  destruct (Linear_new_run E (n_pcs a + n_hdcs a) (nh_lstm a) true w1)
    as (ce & w2 & R2 & Hce & Q2).
  rewrite (bind_ok _ _ _ _ _ R2).
  destruct (LSTM_new_run E 3 (nh_lstm a) w2) as (l & w3 & R3 & Hl & Q3).
  rewrite (bind_ok _ _ _ _ _ R3).
  destruct (Linear_new_run E (nh_lstm a) (nh_bottleneck a) (bottleneck_has_bias a) w3)
    as (bn & w4 & R4 & Hbn & Q4).
  rewrite (bind_ok _ _ _ _ _ R4).
  unfold getitem at 1. cbn [nth_error]. unfold lift at 1, bind at 1.
  destruct (Linear_new_run E (nh_bottleneck a) (n_cells e0) true w4)
    as (pc & w5 & R5 & Hpc & Q5).
  rewrite (bind_ok _ _ _ _ _ R5).
  unfold getitem at 1. cbn [nth_error]. unfold lift at 1, bind at 1.
  destruct (Linear_new_run E (nh_bottleneck a) (n_cells e1) true w5)
    as (hd & w6 & R6 & Hhd & Q6).
  rewrite (bind_ok _ _ _ _ _ R6).
  unfold lift at 1, bind at 1.
  rewrite (bind_ok _ _ _ _ _ (init_trunc_normal_run E (weight se) 128 w6)).
  rewrite (bind_ok _ _ _ _ _ (init_trunc_normal_run E (weight ce) 128 _)).
  rewrite (bind_ok _ _ _ _ _ (init_trunc_normal_run E (weight bn) 256 _)).
  rewrite (bind_ok _ _ _ _ _ (init_trunc_normal_run E (weight pc) 256 _)).
  rewrite (bind_ok _ _ _ _ _ (init_trunc_normal_run E (weight hd) 12 _)).
  destruct Hse as (Hse1 & Hse2 & Hse3 & Hse4).
  destruct Hce as (Hce1 & Hce2 & Hce3 & Hce4).
  destruct Hbn as (Hbn1 & Hbn2 & Hbn3 & Hbn4).
  destruct Hpc as (Hpc1 & Hpc2 & Hpc3 & Hpc4).
  destruct Hhd as (Hhd1 & Hhd2 & Hhd3 & Hhd4).
  destruct Hl as (Hl1 & Hl2 & Hl3 & Hl4 & Hl5 & Hl6 & Hl7 & Hl8).
  match goal with
  | |- context [bind (kaiming_uniform_ E (weight_ih_l0 l)) _ ?w] =>
    destruct (kaiming_uniform_run E (weight_ih_l0 l) _ _ w Hl3) as (wih & w7 & R7 & Hwih & Q7)
  end.
  rewrite (bind_ok _ _ _ _ _ R7).
  destruct (kaiming_uniform_run E (weight_hh_l0 l) _ _ w7 Hl4) as (whh & w8 & R8 & Hwhh & Q8).
  rewrite (bind_ok _ _ _ _ _ R8).
  assert (Hreads : reads w8 = reads w).
  { rewrite Q8, Q7. cbn [advance reads]. congruence. }
  destruct (bias se) as [bse|] eqn:Ebse; [|discriminate Hse4].
  destruct (bias ce) as [bce|] eqn:Ebce; [|discriminate Hce4].
  destruct (bias pc) as [bpc|] eqn:Ebpc; [|discriminate Hpc4].
  destruct (bias hd) as [bhd|] eqn:Ebhd; [|discriminate Hhd4].
  eexists. exists w8. split; [|split; [exact Hreads|reflexivity]].
  constructor; cbn [state_embed cell_embed lstm bottleneck pc_logits hd_logits
                    dropout training self_target_ensembles];
    unfold Linear_fresh, LSTM_fresh, set_weight;
    cbn [in_features out_features weight bias input_size hidden_size weight_ih_l0
         weight_hh_l0 bias_ih_l0 bias_hh_l0 lstm_weight lstm_bias shape option_map];
    rewrite ?Ebse, ?Ebce, ?Ebpc, ?Ebhd; cbn [option_map].
  all: try (rewrite ?Hse3, ?Hce3, ?Hbn3, ?Hpc3, ?Hhd3; eexists; reflexivity).
  all: try (eexists; split; [reflexivity|apply all_zero_zeros]).
  all: try apply all_zero_zeros.
  all: try (repeat split; first [assumption | reflexivity | symmetry; assumption]).
  all: unfold trunc_weight, zeros_; cbn [shape]; intuition auto.
Qed.

Lemma param_run (fs : Files) (loc name : string) (g : GridTorch) (w : World) :
  param fs loc name (g, w) =
  (match fs (String.append loc name) with
   | Some a => Ok (torch_Tensor (T a))
   | None => Raise (FileNotFoundError (String.append loc name))
   end, (g, log_read (String.append loc name) w)).
Proof.
  unfold param, in_world, load_tf_param, np_load, bind, ret. simpl.
  destruct (fs (String.append loc name)); reflexivity.
Qed.

Ltac lookup fs :=
  match goal with
  | Hq : fs ?p = _ |- context [fs ?p] => rewrite Hq
  | |- context [fs ?p] => destruct (fs p) eqn:?
  end.

Ltac next_file fs :=
  rewrite param_run;
  match goal with
  | |- context [fs ?p] => destruct (fs p) eqn:?
  end; cbv beta iota; unfold assign, modify; cbv beta iota; cbn [fst snd].

Lemma load_run_present (fs : Files) loc (self : GridTorch) w :
  (forall p, In p (weight_files loc) -> absent fs p = false) ->
  init_weights_from_file fs loc (self, w) =
  match transpose_1_0 (file_T fs loc "grid_cells_core_lstm_w_gates_0.npy") with
  | Ok wt =>
    (Ok tt, (loaded fs loc wt self, mkWorld (cursor w) (reads w ++ weight_files loc)))
  | Raise e =>
    (Raise e,
     (loaded_linear fs loc self, mkWorld (cursor w) (reads w ++ weight_files loc)))
  end.
Proof.
  intros Hall.
  unfold init_weights_from_file, bind.
  do 11 (next_file fs;
    [ | exfalso;
        match goal with
        | Hq : fs ?p = None |- _ =>
          specialize (Hall p); unfold absent in Hall; rewrite Hq in Hall;
          discriminate Hall; unfold weight_files; simpl; tauto
        end ]).
  unfold lift, loaded, loaded_linear, file_T.
  repeat match goal with Hq : fs _ = Some _ |- _ => rewrite Hq; clear Hq end.
  destruct (transpose_1_0 _); cbv beta iota; cbn [fst snd];
    unfold log_read, weight_files; cbn [cursor reads map];
    repeat rewrite <- app_assoc; reflexivity.
Qed.

Lemma load_run_missing (fs : Files) loc (self : GridTorch) w q :
  find (absent fs) (weight_files loc) = Some q ->
  exists self',
    init_weights_from_file fs loc (self, w) =
    (Raise (FileNotFoundError q),
     (self', mkWorld (cursor w) (reads w ++ through (absent fs) (weight_files loc)))).
Proof.
  unfold init_weights_from_file, bind, weight_files.
  cbn [map find through]. unfold absent.
  do 11 (next_file fs;
    [ | intros Hq; injection Hq as <-; eexists;
        unfold log_read; cbn [cursor reads];
        repeat rewrite <- app_assoc; reflexivity ]).
  discriminate.
Qed.

Lemma load_ok_inv (fs : Files) loc (self : GridTorch) w self1 w1 :
  init_weights_from_file fs loc (self, w) = (Ok tt, (self1, w1)) ->
  (forall p, In p (weight_files loc) -> absent fs p = false) /\
  exists wt,
    transpose_1_0 (file_T fs loc "grid_cells_core_lstm_w_gates_0.npy") = Ok wt /\
    self1 = loaded fs loc wt self /\
    w1 = mkWorld (cursor w) (reads w ++ weight_files loc).
Proof.
  intros Hrun.
  destruct (find (absent fs) (weight_files loc)) as [q|] eqn:Hfind.
  - destruct (load_run_missing fs loc self w q Hfind) as [self' Hq].
    rewrite Hq in Hrun. discriminate Hrun.
  - assert (Hall : forall p, In p (weight_files loc) -> absent fs p = false).
    { intros p Hp. exact (find_none _ _ Hfind p Hp). }
    split; [exact Hall|].
    rewrite (load_run_present fs loc self w Hall) in Hrun.
    destruct (transpose_1_0 _) as [wt|e]; [|discriminate Hrun].
    exists wt. injection Hrun as <- <-. auto.
Qed.

(** ** Shapes *)

Lemma shape_eqb_eq (s1 s2 : list nat) : shape_eqb s1 s2 = true <-> s1 = s2.
Proof.
  revert s2. induction s1 as [|a r IH]; intros [|b r2]; simpl; split;
    try discriminate; try reflexivity.
  - intros Hq. apply andb_true_iff in Hq as [Hab Hr].
    apply Nat.eqb_eq in Hab. apply IH in Hr. congruence.
  - intros Hq. injection Hq as -> ->. rewrite Nat.eqb_refl. simpl. apply IH. reflexivity.
Qed.

Lemma shape_eqb_refl (s : list nat) : shape_eqb s s = true.
Proof. apply shape_eqb_eq. reflexivity. Qed.

Lemma LSTM_forward_ok (l : LSTM) (inp hx cx : Tensor) r :
  LSTM_forward l inp hx cx = Ok r ->
  exists len B isz,
    shape inp = [len; B; isz] /\
    shape hx = [1; B; hidden_size l] /\
    shape cx = [1; B; hidden_size l] /\
    shape (fst (snd r)) = [1; B; hidden_size l] /\
    shape (snd (snd r)) = [1; B; hidden_size l].
Proof.
  unfold LSTM_forward.
  destruct (shape inp) as [|len [|B [|isz [|? ?]]]]; try discriminate.
  destruct (shape_eqb (shape hx) [1; B; hidden_size l]) eqn:Hh; [|discriminate].
  destruct (shape_eqb (shape cx) [1; B; hidden_size l]) eqn:Hc; [|discriminate].
  cbn [andb negb].
  destruct (negb (isz =? input_size l)); [discriminate|].
  destruct (lstm_bias l); [|discriminate].
  destruct (lstm_steps _ _ _ _ _ _ _) as [q|e]; [|discriminate].
  cbn [rbind]. intros Hr. injection Hr as <-.
  exists len, B, isz. cbn [fst snd shape].
  apply shape_eqb_eq in Hh, Hc. auto.
Qed.

(** The kernel runs only while the flag is the one the constructor
    stored. *)
Lemma LSTM_forward_flag (l : LSTM) (inp hx cx : Tensor) r :
  LSTM_forward l inp hx cx = Ok r -> lstm_bias l = bias_True.
Proof.
  unfold LSTM_forward.
  destruct (shape inp) as [|len [|B [|isz [|? ?]]]]; try discriminate.
  destruct (negb _); [discriminate|].
  destruct (negb _); [discriminate|].
  destruct (lstm_bias l); [reflexivity|discriminate].
Qed.

Lemma LSTM_forward_replaced (l : LSTM) (t inp hx cx : Tensor) :
  lstm_bias l = bias_Parameter t ->
  LSTM_forward l inp hx cx = Raise RuntimeError \/
  LSTM_forward l inp hx cx = Raise TypeError.
Proof.
  intros Hb. unfold LSTM_forward. rewrite Hb.
  destruct (shape inp) as [|len [|B [|isz [|? ?]]]]; auto.
  destruct (negb _); [auto|]. destruct (negb _); auto.
Qed.

Lemma LSTM_forward_TypeError (l : LSTM) (t inp hx cx : Tensor) len B :
  lstm_bias l = bias_Parameter t ->
  shape inp = [len; B; input_size l] ->
  shape hx = [1; B; hidden_size l] -> shape cx = [1; B; hidden_size l] ->
  LSTM_forward l inp hx cx = Raise TypeError.
Proof.
  intros Hb Hi Hh Hc. unfold LSTM_forward.
  rewrite Hb, Hi, Hh, Hc, !shape_eqb_refl, Nat.eqb_refl. reflexivity.
Qed.

Lemma view_ok (t : Tensor) b inp :
  view_1_b_infer t b = Ok inp -> exists k, shape inp = [1; b; k].
Proof.
  unfold view_1_b_infer. destruct (b =? 0); [discriminate|].
  destruct (_ mod _ =? 0); [|discriminate].
  intros Hq. injection Hq as <-. eexists. reflexivity.
Qed.

Lemma step_ok (E : Entropy) (self : GridTorch) B (t : Tensor) (s s' : Loop) w w' :
  step E self B t s w = (Ok s', w') ->
  shape (h_t s) = [B; hidden_size (lstm self)] /\
  shape (h_t s') = squeezed [1; B; hidden_size (lstm self)].
Proof.
  unfold step, bind, lift.
  destruct (view_1_b_infer t B) as [inp|e] eqn:Hv; [|discriminate].
  destruct (LSTM_forward _ _ _ _) as [r|e] eqn:Hl; [|discriminate].
  destruct (Linear_forward (bottleneck self) _) as [b|e]; [|discriminate].
  destruct (Dropout_forward _ _ _ _ _) as [[ba|e] w1]; [|discriminate].
  destruct (Linear_forward (pc_logits self) _) as [pc|e]; [|discriminate].
  destruct (Linear_forward (hd_logits self) _) as [hd|e]; [|discriminate].
  unfold ret. intros Hq. injection Hq as <- <-. cbn [h_t].
  apply view_ok in Hv as [k Hk].
  apply LSTM_forward_ok in Hl as (len & B' & isz & Hi & Hh & _ & Hh' & _).
  rewrite Hk in Hi. injection Hi as <- <- <-.
  unfold unsqueeze0 in Hh. cbn [shape] in Hh. injection Hh as Hh.
  split; [exact Hh|]. unfold squeeze, squeezed. cbn [shape]. rewrite Hh'. reflexivity.
Qed.

Lemma linear_shape (x W : Tensor) (b : option Tensor) B i o :
  shape W = [o; i] -> shape x = [B; i] ->
  match b with Some bt => shape bt = [o] | None => True end ->
  exists y, linear x W b = Ok y /\ shape y = [B; o].
Proof.
  intros HW Hx Hb. unfold linear. rewrite HW, Hx. cbn [rev app].
  rewrite Nat.eqb_refl. destruct b as [bt|].
  - rewrite Hb, shape_eqb_refl. eexists. split; reflexivity.
  - eexists. split; reflexivity.
Qed.

Lemma Linear_forward_shape (l : Linear) (x : Tensor) B i o :
  Linear_shaped i o l -> shape x = [B; i] ->
  exists y, Linear_forward l x = Ok y /\ shape y = [B; o].
Proof.
  intros [HW Hb] Hx. unfold Linear_forward. eapply linear_shape; eauto.
Qed.

Lemma cat1_two (t0 t1 : Tensor) B p0 p1 :
  shape t0 = [B; p0] -> shape t1 = [B; p1] ->
  exists y, cat1 [t0; t1] = Ok y /\ shape y = [B; p0 + p1].
Proof.
  intros H0 H1. unfold cat1. rewrite H0. cbn [forallb]. rewrite H0, H1.
  rewrite Nat.eqb_refl. cbn [shape_eqb andb map nth list_sum].
  rewrite H0, H1. cbn [nth].
  eexists. split; [reflexivity|]. cbn [shape list_sum fold_right]. rewrite Nat.add_0_r. reflexivity.
Qed.


Lemma view_shape (t : Tensor) B k :
  shape t = [B; k] -> B <> 0 ->
  exists inp, view_1_b_infer t B = Ok inp /\ shape inp = [1; B; k].
Proof.
  intros Ht HB. unfold view_1_b_infer. rewrite Ht.
  destruct (B =? 0) eqn:HB0; [apply Nat.eqb_eq in HB0; contradiction|].
  assert (Hn : numel [B; k] = k * B) by (unfold numel; simpl; lia).
  rewrite Hn, Nat.Div0.mod_mul, Nat.div_mul by exact HB. cbn [Nat.eqb].
  eexists. split; reflexivity.
Qed.

Lemma Dropout_forward_shape (E : Entropy) (d : Dropout) tr (t : Tensor) w :
  exists y w', Dropout_forward E d tr t w = (Ok y, w') /\ shape y = shape t.
Proof.
  unfold Dropout_forward.
  destruct (negb tr || negb (fltb (fconst 0) (rate d)) || (numel (shape t) =? 0)).
  - eexists. eexists. split; reflexivity.
  - destruct (negb (fltb (rate d) (fconst 1))).
    + eexists. eexists. split; reflexivity.
    + eexists. eexists. split; reflexivity.
Qed.






Lemma chunks_length {A} k n (l : list A) : length (chunks k n l) = k.
Proof. revert l. induction k; intros l; simpl; [reflexivity|]. rewrite IHk. reflexivity. Qed.


(** ** Evaluation mode *)

Lemma Dropout_forward_eval (E : Entropy) (d : Dropout) (t : Tensor) w :
  Dropout_forward E d false t w = (Ok t, w).
Proof. reflexivity. Qed.

Lemma step_eval (E1 E2 : Entropy) (self : GridTorch) B (t : Tensor) (s : Loop) w1 w2 :
  training self = false ->
  fst (step E1 self B t s w1) = fst (step E2 self B t s w2) /\
  snd (step E1 self B t s w1) = w1.
Proof.
  intros Htr. unfold step, bind, lift. rewrite Htr.
  destruct (view_1_b_infer t B) as [inp|e]; [|split; reflexivity].
  destruct (LSTM_forward _ _ _ _) as [r|e]; [|split; reflexivity].
  destruct (Linear_forward (bottleneck self) _) as [b|e]; [|split; reflexivity].
  rewrite !Dropout_forward_eval.
  destruct (Linear_forward (pc_logits self) _) as [pc|e]; [|split; reflexivity].
  destruct (Linear_forward (hd_logits self) _) as [hd|e]; split; reflexivity.
Qed.

Lemma loop_eval (E1 E2 : Entropy) (self : GridTorch) B (xs : list Tensor) :
  training self = false ->
  forall s w1 w2,
    fst (loop E1 self B xs s w1) = fst (loop E2 self B xs s w2) /\
    snd (loop E1 self B xs s w1) = w1.
Proof.
  intros Htr. induction xs as [|t xs IH]; intros s w1 w2; cbn [loop].
  - split; reflexivity.
  - unfold bind.
    destruct (step_eval E1 E2 self B t s w1 w2 Htr) as [Hf Hs].
    destruct (step E1 self B t s w1) as [r1 w1'].
    destruct (step E2 self B t s w2) as [r2 w2'].
    cbn [fst snd] in Hf, Hs. subst r2 w1'.
    destruct r1 as [s'|e]; [apply IH|split; reflexivity].
Qed.

Lemma forward_eval (E1 E2 : Entropy) (self : GridTorch) (x : Tensor)
  (ics : list Tensor) w1 w2 :
  training self = false ->
  fst (forward E1 self x ics w1) = fst (forward E2 self x ics w2) /\
  snd (forward E1 self x ics w1) = w1.
Proof.
  intros Htr. unfold forward, bind, lift.
  destruct (shape_at x 1) as [B|e]; [|split; reflexivity].
  destruct (cat1 ics) as [init|e]; [|split; reflexivity].
  destruct (Linear_forward (state_embed self) init) as [h0|e]; [|split; reflexivity].
  destruct (Linear_forward (cell_embed self) init) as [c0|e]; [|split; reflexivity].
  destruct (iterate x) as [xs|e]; [|split; reflexivity].
  destruct (loop_eval E1 E2 self B xs Htr (mkLoop h0 c0 [] [] [] [] []) w1 w2) as [Hf Hs].
  destruct (loop E1 self B xs _ w1) as [r1 w1'].
  destruct (loop E2 self B xs _ w2) as [r2 w2'].
  cbn [fst snd] in Hf, Hs. subst r2 w1'.
  destruct r1 as [s|e]; [|split; reflexivity].
  destruct (stack (logits_hd s)); [|split; reflexivity].
  destruct (stack (logits_pc s)); [|split; reflexivity].
  destruct (stack (bottleneck_acts s)); [|split; reflexivity].
  destruct (stack (rnn_states s)); [|split; reflexivity].
  destruct (stack (cell_states s)); split; reflexivity.
Qed.

(** ** The target ensembles *)

Lemma load_retarget (fs : Files) loc te (g : GridTorch) w :
  init_weights_from_file fs loc (retarget te g, w) =
  (fst (init_weights_from_file fs loc (g, w)),
   (retarget te (fst (snd (init_weights_from_file fs loc (g, w)))),
    snd (snd (init_weights_from_file fs loc (g, w))))).
Proof.
  unfold init_weights_from_file, bind.
  do 11 (rewrite ?param_run;
         match goal with |- context [fs ?p] => destruct (fs p) end;
         cbv beta iota; unfold assign, modify; cbv beta iota; cbn [fst snd];
         [|reflexivity]).
  unfold lift. destruct (transpose_1_0 _); reflexivity.
Qed.

Lemma init_retarget (E : Entropy) (fs : Files) (a : Args) w e0 e1 rest rest' :
  target_ensembles a = e0 :: e1 :: rest ->
  __init__ E fs (with_ensembles (e0 :: e1 :: rest') a) w =
  (match fst (__init__ E fs a w) with
   | Ok m => Ok (retarget (e0 :: e1 :: rest') m)
   | Raise e => Raise e
   end, snd (__init__ E fs a w)).
Proof.
  intros Hte. unfold __init__.
  cbn [with_ensembles target_ensembles nh_lstm nh_bottleneck n_pcs n_hdcs
       dropoutrates_bottleneck bottleneck_has_bias weights_loc].
  rewrite Hte. unfold getitem. cbn [nth_error]. unfold bind, lift.
  repeat match goal with
         | |- context [match ?X with pair _ _ => _ end] =>
           match X with
           | init_weights_from_file _ _ _ => fail 1
           | _ => destruct X as [[?|?] ?]; [|reflexivity]
           end
         end.
  destruct (Dropout_new (dropoutrates_bottleneck a)) as [d|?]; [|reflexivity].
  repeat match goal with
         | |- context [match ?X with pair _ _ => _ end] =>
           match X with
           | init_weights_from_file _ _ _ => fail 1
           | _ => destruct X as [[?|?] ?]; [|reflexivity]
           end
         end.
  destruct (truthy (weights_loc a)) as [loc|]; [|reflexivity].
  match goal with
  | |- _ = (match fst (let (_, _) := init_weights_from_file fs loc (?g0, ?w0) in _)
            with Ok _ => _ | Raise _ => _ end, _) =>
    match goal with
    | |- (let (_, _) := init_weights_from_file fs loc (?g, w0) in _) = _ =>
      change g with (retarget (e0 :: e1 :: rest') g0);
      rewrite load_retarget;
      destruct (init_weights_from_file fs loc (g0, w0)) as [[[]|?] [g' w']]
    end
  end; reflexivity.
Qed.

(** Whatever its outcome, the load leaves the sizes and the four tensors
    of the recurrence as they were. *)
Lemma load_same_recurrence (fs : Files) (loc : string) (self : GridTorch) (w : World) :
  same_recurrence (lstm (fst (snd (init_weights_from_file fs loc (self, w))))) (lstm self).
Proof.
  unfold init_weights_from_file, bind.
  repeat (rewrite ?param_run;
          match goal with |- context [fs ?p] => destruct (fs p) end;
          cbv beta iota; unfold assign, modify; cbv beta iota; cbn [fst snd]).
  all: unfold lift.
  all: try (destruct (transpose_1_0 _); cbv beta iota; cbn [fst snd]).
  all: repeat split.
Qed.



(** ** Main results *)

(** C1 (failing path).  A forward call on a sequence of two or more steps
    with batch size 1 raises, whatever the parameters: [squeeze()] has
    removed the batch dimension from the state the second step hands to
    the recurrent cell. *)
Theorem forward_batch_size_one_raises (E : Entropy) (self : GridTorch) (x : Tensor)
  (initial_conds : list Tensor) (w : World) (T : nat) (rest : list nat) :
  shape x = T :: 1 :: rest -> 2 <= T ->
  exists e, fst (forward E self x initial_conds w) = Raise e.
Proof.
  intros Hx HT. unfold forward, shape_at. rewrite Hx. cbn [nth_error].
  unfold bind, lift.
  destruct (cat1 initial_conds) as [init|e]; [|eexists; reflexivity].
  destruct (Linear_forward (state_embed self) init) as [h0|e]; [|eexists; reflexivity].
  destruct (Linear_forward (cell_embed self) init) as [c0|e]; [|eexists; reflexivity].
  unfold iterate. rewrite Hx.
  destruct T as [|[|T]]; [lia|lia|]. cbn [chunks map loop]. unfold bind.
  match goal with
  | |- context [step E self 1 ?t ?s w] =>
    destruct (step E self 1 t s w) as [[s1|e] w1] eqn:H1
  end; [|eexists; reflexivity].
  apply step_ok in H1 as [_ Hs1].
  match goal with
  | |- context [step E self 1 ?t s1 w1] =>
    destruct (step E self 1 t s1 w1) as [[s2|e] w2] eqn:H2
  end; [|eexists; reflexivity].
  apply step_ok in H2 as [Hs2 _].
  rewrite Hs1 in Hs2. exfalso.
  unfold squeezed in Hs2. cbn [filter Nat.eqb negb] in Hs2.
  destruct (negb (hidden_size (lstm self) =? 1)); discriminate.
Qed.

(** C2 (failing path).  Whatever the files hold, the load leaves the
    four tensors the recurrence computes with as they were.  A successful
    load has put the gate weights in a new attribute [weight] of the
    recurrent module, which its forward pass does not use, and the gate
    biases in its attribute [bias], in place of the flag the forward pass
    hands to the kernel: from then on every call of the recurrent module
    raises, a [TypeError] when the shapes of its arguments are right.
    The nine parameters of the linear layers are the transposed files,
    converted to single precision; the bias of the bottleneck is not
    loaded. *)
Theorem load_leaves_recurrence_weights (fs : Files) (loc : string)
  (self : GridTorch) (w : World) :
  let self1 := fst (snd (init_weights_from_file fs loc (self, w))) in
  (weight_ih_l0 (lstm self1) = weight_ih_l0 (lstm self) /\
   weight_hh_l0 (lstm self1) = weight_hh_l0 (lstm self) /\
   bias_ih_l0 (lstm self1) = bias_ih_l0 (lstm self) /\
   bias_hh_l0 (lstm self1) = bias_hh_l0 (lstm self)) /\
  (fst (init_weights_from_file fs loc (self, w)) = Ok tt ->
   lstm_bias (lstm self1) =
     bias_Parameter (file_T fs loc "grid_cells_core_lstm_b_gates_0.npy") /\
   (exists wt,
      transpose_1_0 (file_T fs loc "grid_cells_core_lstm_w_gates_0.npy") = Ok wt /\
      lstm_weight (lstm self1) = Some wt) /\
   weight (pc_logits self1) = file_T fs loc "grid_cells_core_pc_logits_w_0.npy" /\
   bias (pc_logits self1) = Some (file_T fs loc "grid_cells_core_pc_logits_b_0.npy") /\
   weight (hd_logits self1) = file_T fs loc "grid_cells_core_pc_logits_1_w_0.npy" /\
   bias (hd_logits self1) = Some (file_T fs loc "grid_cells_core_pc_logits_1_b_0.npy") /\
   weight (bottleneck self1) = file_T fs loc "grid_cells_core_bottleneck_w_0.npy" /\
   weight (state_embed self1) = file_T fs loc "grid_cell_supervised_state_init_w_0.npy" /\
   bias (state_embed self1) =
     Some (file_T fs loc "grid_cell_supervised_state_init_b_0.npy") /\
   weight (cell_embed self1) = file_T fs loc "grid_cell_supervised_cell_init_w_0.npy" /\
   bias (cell_embed self1) =
     Some (file_T fs loc "grid_cell_supervised_cell_init_b_0.npy") /\
   bias (bottleneck self1) = bias (bottleneck self) /\
   (forall inp hx cx, exists e, LSTM_forward (lstm self1) inp hx cx = Raise e) /\
   (forall inp hx cx len B,
      shape inp = [len; B; input_size (lstm self)] ->
      shape hx = [1; B; hidden_size (lstm self)] ->
      shape cx = [1; B; hidden_size (lstm self)] ->
      LSTM_forward (lstm self1) inp hx cx = Raise TypeError)).
Proof.
  cbv zeta. split.
  - pose proof (load_same_recurrence fs loc self w) as (_ & _ & Hwi & Hwh & Hbi & Hbh).
    repeat (split; [assumption|]). assumption.
  - intros Hok.
    destruct (init_weights_from_file fs loc (self, w)) as [r [self1 w1]] eqn:Hrun.
    cbn [fst snd] in *. subst r.
    apply load_ok_inv in Hrun as (_ & wt & Hwt & -> & _).
    split; [reflexivity|].
    split; [exists wt; split; [exact Hwt|reflexivity]|].
    do 10 (split; [reflexivity|]).
    split.
    + intros inp hx cx.
      destruct (LSTM_forward_replaced (lstm (loaded fs loc wt self))
                  (file_T fs loc "grid_cells_core_lstm_b_gates_0.npy") inp hx cx eq_refl)
        as [Hq|Hq]; rewrite Hq; eexists; reflexivity.
    + intros inp hx cx len B Hi Hh Hc.
      apply (LSTM_forward_TypeError _ (file_T fs loc "grid_cells_core_lstm_b_gates_0.npy")
               _ _ _ len B); [reflexivity|exact Hi|exact Hh|exact Hc].
Qed.

(** C3 (as amended).  [truncated_normal_] draws four standard-normal
    candidates per element and keeps the first one strictly inside
    [(-2, 2)]; when none of the four is in range it keeps the first
    candidate.  The kept value is multiplied by [std] and [mean] is added;
    [init_trunc_normal] calls it with mean 0 and [std = 1 / sqrt size]. *)
Theorem truncated_normal_keeps_first_in_range (E : Entropy) (t : Tensor)
  (mean std : F) (size : Z) (w : World) :
  truncated_normal_ E t mean std w =
    (Ok (mkTensor (shape t)
           (map (fun i => fadd (fmul (selected (candidates E (cursor w) i)) std) mean)
                (seq 0 (numel (shape t))))),
     advance (numel (shape t) * 4) w) /\
  init_trunc_normal E t size w =
    truncated_normal_ E t (fconst 0) (fdiv (fconst 1) (fsqrt (fconst size))) w /\
  (forall i, length (candidates E (cursor w) i) = 4) /\
  (forall ds pre d post,
     ds = pre ++ d :: post -> forallb (fun v => negb (in_range v)) pre = true ->
     in_range d = true -> selected ds = d) /\
  (forall d ds,
     forallb (fun v => negb (in_range v)) (d :: ds) = true -> selected (d :: ds) = d).
Proof.
  split; [apply truncated_normal_run|].
  split; [reflexivity|].
  split; [intros i; unfold candidates; rewrite length_map, length_seq; reflexivity|].
  split.
  - intros ds pre d post -> Hpre Hd. unfold selected.
    assert (Hfind : find in_range (pre ++ d :: post) = Some d).
    { induction pre as [|x pre IH]; cbn [app find].
      - rewrite Hd. reflexivity.
      - cbn [forallb] in Hpre. apply andb_true_iff in Hpre as [Hx Hpre].
        apply negb_true_iff in Hx. rewrite Hx. apply IH. exact Hpre. }
    rewrite Hfind. reflexivity.
  - intros d ds Hall. unfold selected.
    assert (Hnone : find in_range (d :: ds) = None).
    { revert Hall. generalize (d :: ds). intros l.
      induction l as [|x l IH]; cbn [forallb find]; [reflexivity|].
      intros Hq. apply andb_true_iff in Hq as [Hx Hl].
      apply negb_true_iff in Hx. rewrite Hx. apply IH. exact Hl. }
    rewrite Hnone. reflexivity.
Qed.

(** C4 (as amended).  For every valid configuration built without
    pretrained weights, the five weight tensors are sampled with the fixed
    sizes 128, 128, 256, 256 and 12, whatever the configuration, while the
    input widths of the five layers are [n_pcs + n_hdcs], [n_pcs + n_hdcs],
    [nh_lstm], [nh_bottleneck] and [nh_bottleneck]. *)
Theorem init_trunc_normal_sizes_are_fixed (E : Entropy) (fs : Files) (a : Args)
  (w : World) (e0 e1 : Ensemble) (rest : list Ensemble) :
  target_ensembles a = e0 :: e1 :: rest ->
  positive_widths a ->
  valid_rate (dropoutrates_bottleneck a) ->
  truthy (weights_loc a) = None ->
  exists m w',
    __init__ E fs a w = (Ok m, w') /\
    (exists c, weight (state_embed m) =
               trunc_weight E c [nh_lstm a; n_pcs a + n_hdcs a] 128) /\
    (exists c, weight (cell_embed m) =
               trunc_weight E c [nh_lstm a; n_pcs a + n_hdcs a] 128) /\
    (exists c, weight (bottleneck m) =
               trunc_weight E c [nh_bottleneck a; nh_lstm a] 256) /\
    (exists c, weight (pc_logits m) =
               trunc_weight E c [n_cells e0; nh_bottleneck a] 256) /\
    (exists c, weight (hd_logits m) =
               trunc_weight E c [n_cells e1; nh_bottleneck a] 12) /\
    map (@in_features F)
        [state_embed m; cell_embed m; bottleneck m; pc_logits m; hd_logits m] =
    [n_pcs a + n_hdcs a; n_pcs a + n_hdcs a; nh_lstm a; nh_bottleneck a; nh_bottleneck a].
Proof.
  intros Hte _ Hp Hloc.
  destruct (init_fresh E fs a w e0 e1 rest Hte Hp) as (m & w1 & Hm & _ & Hrun).
  rewrite Hloc in Hrun. exists m, w1. split; [exact Hrun|].
  destruct Hm. repeat split; try assumption.
  cbn [map].
  destruct fresh_state_embed0 as (-> & _), fresh_cell_embed0 as (-> & _),
    fresh_bottleneck0 as (-> & _), fresh_pc_logits0 as (-> & _),
    fresh_hd_logits0 as (-> & _).
  reflexivity.
Qed.

Lemma existsb_find {A} (f : A -> bool) (l : list A) :
  existsb f l = true -> exists d, find f l = Some d /\ f d = true.
Proof.
  induction l as [|x l IH]; cbn [existsb find]; [discriminate|].
  destruct (f x) eqn:Hx; [intros _; exists x; auto|exact IH].
Qed.

Lemma existsb_none {A} (f : A -> bool) (l : list A) :
  existsb f l = false -> find f l = None.
Proof.
  induction l as [|x l IH]; cbn [existsb find]; [reflexivity|].
  destruct (f x); [discriminate|exact IH].
Qed.

Lemma trunc_weight_at (HO : ScalarOrder F) (E : Entropy) c s size :
  truncated_at E c s size (trunc_weight E c s size).
Proof.
  split; [reflexivity|]. intros i Hi.
  set (f := fun i => fadd (fmul (selected (candidates E c i))
                                (fdiv (fconst 1) (fsqrt (fconst size)))) (fconst 0)).
  assert (Hnth : nth i (data (trunc_weight E c s size)) (fconst 0) = f i).
  { unfold trunc_weight. cbn [data].
    rewrite (nth_indep _ (fconst 0) (f 0)) by (rewrite length_map, length_seq; exact Hi).
    fold f. rewrite map_nth, seq_nth by exact Hi. reflexivity. }
  rewrite Hnth. unfold f. split; intros Hex.
  - apply existsb_find in Hex as (d & Hfind & Hd).
    unfold selected. rewrite Hfind.
    unfold in_range in Hd. apply andb_true_iff in Hd as [Hup Hlo].
    split.
    + rewrite shift_zero_l. apply scale_upper; [exact Hup|apply inv_sqrt_nonneg].
    + rewrite shift_zero_r. apply scale_lower; [exact Hlo|apply inv_sqrt_nonneg].
  - unfold selected. rewrite (existsb_none _ _ Hex). reflexivity.
Qed.

Lemma Linear_new_cursor (E : Entropy) i o hb w :
  exists l w',
    Linear_new E i o hb w = (Ok l, w') /\ Linear_fresh i o hb l /\
    cursor w' = cursor w + Linear_draws i o hb.
Proof.
  unfold Linear_new, Linear_draws, bind, uniform_, ret. destruct hb; cbv beta iota.
  - eexists. eexists. split; [reflexivity|]. split; [repeat split|].
    cbn [advance cursor]. lia.
  - eexists. eexists. split; [reflexivity|]. split; [repeat split|].
    cbn [advance cursor]. lia.
Qed.

Lemma LSTM_new_cursor (E : Entropy) i h w :
  exists l w',
    LSTM_new E i h w = (Ok l, w') /\ LSTM_fresh i h l /\
    cursor w' = cursor w + LSTM_draws i h.
Proof.
  unfold LSTM_new, LSTM_draws, bind, uniform_, ret. cbv beta iota.
  eexists. eexists. split; [reflexivity|]. split; [repeat split|].
  cbn [advance cursor]. lia.
Qed.

(** Where the constructor samples the five truncated normals. *)
Lemma init_positions (E : Entropy) (fs : Files) (a : Args) w e0 e1 rest :
  target_ensembles a = e0 :: e1 :: rest ->
  valid_rate (dropoutrates_bottleneck a) ->
  truthy (weights_loc a) = None ->
  exists m w',
    __init__ E fs a w = (Ok m, w') /\
    let P := n_pcs a + n_hdcs a in
    let c1 := trunc_start a e0 e1 (cursor w) in
    let c2 := c1 + 4 * numel [nh_lstm a; P] in
    let c3 := c2 + 4 * numel [nh_lstm a; P] in
    let c4 := c3 + 4 * numel [nh_bottleneck a; nh_lstm a] in
    let c5 := c4 + 4 * numel [n_cells e0; nh_bottleneck a] in
    weight (state_embed m) = trunc_weight E c1 [nh_lstm a; P] 128 /\
    weight (cell_embed m) = trunc_weight E c2 [nh_lstm a; P] 128 /\
    weight (bottleneck m) = trunc_weight E c3 [nh_bottleneck a; nh_lstm a] 256 /\
    weight (pc_logits m) = trunc_weight E c4 [n_cells e0; nh_bottleneck a] 256 /\
    weight (hd_logits m) = trunc_weight E c5 [n_cells e1; nh_bottleneck a] 12.
Proof.
  intros Hte Hd Hloc. apply Dropout_new_valid in Hd.
  unfold __init__. rewrite Hte, Hd, Hloc.
  destruct (Linear_new_cursor E (n_pcs a + n_hdcs a) (nh_lstm a) true w)
    as (se & w1 & R1 & (_ & _ & Sse & _) & Q1).
  rewrite (bind_ok _ _ _ _ _ R1).
  destruct (Linear_new_cursor E (n_pcs a + n_hdcs a) (nh_lstm a) true w1)
    as (ce & w2 & R2 & (_ & _ & Sce & _) & Q2).
  rewrite (bind_ok _ _ _ _ _ R2).
  destruct (LSTM_new_cursor E 3 (nh_lstm a) w2) as (l & w3 & R3 & Hl & Q3).
  rewrite (bind_ok _ _ _ _ _ R3).
  destruct (Linear_new_cursor E (nh_lstm a) (nh_bottleneck a) (bottleneck_has_bias a) w3)
    as (bn & w4 & R4 & (_ & _ & Sbn & _) & Q4).
  rewrite (bind_ok _ _ _ _ _ R4).
  unfold getitem at 1. cbn [nth_error]. unfold lift at 1, bind at 1.
  destruct (Linear_new_cursor E (nh_bottleneck a) (n_cells e0) true w4)
    as (pc & w5 & R5 & (_ & _ & Spc & _) & Q5).
  rewrite (bind_ok _ _ _ _ _ R5).
  unfold getitem at 1. cbn [nth_error]. unfold lift at 1, bind at 1.
  destruct (Linear_new_cursor E (nh_bottleneck a) (n_cells e1) true w5)
    as (hd & w6 & R6 & (_ & _ & Shd & _) & Q6).
  rewrite (bind_ok _ _ _ _ _ R6).
  unfold lift at 1, bind at 1.
  rewrite (bind_ok _ _ _ _ _ (init_trunc_normal_run E (weight se) 128 w6)).
  rewrite (bind_ok _ _ _ _ _ (init_trunc_normal_run E (weight ce) 128 _)).
  rewrite (bind_ok _ _ _ _ _ (init_trunc_normal_run E (weight bn) 256 _)).
  rewrite (bind_ok _ _ _ _ _ (init_trunc_normal_run E (weight pc) 256 _)).
  rewrite (bind_ok _ _ _ _ _ (init_trunc_normal_run E (weight hd) 12 _)).
  destruct Hl as (_ & _ & Hl3 & Hl4 & _).
  match goal with
  | |- context [bind (kaiming_uniform_ E (weight_ih_l0 l)) _ ?w] =>
    destruct (kaiming_uniform_run E (weight_ih_l0 l) _ _ w Hl3) as (wih & w7 & R7 & _)
  end.
  rewrite (bind_ok _ _ _ _ _ R7).
  destruct (kaiming_uniform_run E (weight_hh_l0 l) _ _ w7 Hl4) as (whh & w8 & R8 & _).
  rewrite (bind_ok _ _ _ _ _ R8).
  unfold ret. eexists. eexists. split; [reflexivity|]. cbv zeta.
  cbn [state_embed cell_embed bottleneck pc_logits hd_logits set_weight weight
       advance cursor].
  rewrite Sse, Sce, Sbn, Spc, Shd. unfold trunc_start.
  repeat split; f_equal; lia.
Qed.

(** C5 (as amended).  Constructing the model without a pretrained-weights
    location yields five weight tensors that are the truncated normals
    sampled, one after the other, from the position the generator has
    when the six modules are built: every element that has at least one
    of its four candidates strictly inside [(-2, 2)] lies within
    [2 / sqrt size] of zero, [size] being 128, 128, 256, 256 and 12, and
    an element that has none is its first candidate times
    [1 / sqrt size].  The bias tensors of the state-embed, cell-embed,
    pc-logits and hd-logits layers and the two bias tensors of the
    recurrent cell are exactly zero. *)
Theorem fresh_weights_truncated_biases_zero (HO : ScalarOrder F) (E : Entropy)
  (fs : Files) (a : Args) (w : World) (e0 e1 : Ensemble) (rest : list Ensemble) :
  target_ensembles a = e0 :: e1 :: rest ->
  positive_widths a ->
  valid_rate (dropoutrates_bottleneck a) ->
  truthy (weights_loc a) = None ->
  exists m w',
    __init__ E fs a w = (Ok m, w') /\
    let P := n_pcs a + n_hdcs a in
    let c1 := trunc_start a e0 e1 (cursor w) in
    let c2 := c1 + 4 * numel [nh_lstm a; P] in
    let c3 := c2 + 4 * numel [nh_lstm a; P] in
    let c4 := c3 + 4 * numel [nh_bottleneck a; nh_lstm a] in
    let c5 := c4 + 4 * numel [n_cells e0; nh_bottleneck a] in
    truncated_at E c1 [nh_lstm a; P] 128 (weight (state_embed m)) /\
    truncated_at E c2 [nh_lstm a; P] 128 (weight (cell_embed m)) /\
    truncated_at E c3 [nh_bottleneck a; nh_lstm a] 256 (weight (bottleneck m)) /\
    truncated_at E c4 [n_cells e0; nh_bottleneck a] 256 (weight (pc_logits m)) /\
    truncated_at E c5 [n_cells e1; nh_bottleneck a] 12 (weight (hd_logits m)) /\
    (exists b, bias (state_embed m) = Some b /\ all_zero b) /\
    (exists b, bias (cell_embed m) = Some b /\ all_zero b) /\
    (exists b, bias (pc_logits m) = Some b /\ all_zero b) /\
    (exists b, bias (hd_logits m) = Some b /\ all_zero b) /\
    all_zero (bias_ih_l0 (lstm m)) /\
    all_zero (bias_hh_l0 (lstm m)).
Proof.
  intros Hte _ Hp Hloc.
  destruct (init_positions E fs a w e0 e1 rest Hte Hp Hloc)
    as (m & w1 & Hrun & W1 & W2 & W3 & W4 & W5).
  destruct (init_fresh E fs a w e0 e1 rest Hte Hp) as (m' & w1' & Hm & _ & Hrun').
  rewrite Hloc, Hrun in Hrun'. unfold ret in Hrun'. injection Hrun' as <- <-.
  exists m, w1. split; [exact Hrun|]. cbv zeta in *.
  rewrite W1, W2, W3, W4, W5. destruct Hm.
  repeat (split; [apply trunc_weight_at; exact HO|]).
  repeat (split; [assumption|]). assumption.
Qed.

(** C6.  In evaluation mode the result of a forward call does not depend
    on the random generator, neither on its draws nor on its position, and
    the call leaves the generator where it was: two calls on the same
    model with the same input sequence and the same initial conditions
    return the same five sequences (or raise the same exception). *)
Theorem forward_eval_deterministic (E1 E2 : Entropy) (self : GridTorch) (x : Tensor)
  (initial_conds : list Tensor) (w1 w2 : World) :
  training self = false ->
  fst (forward E1 self x initial_conds w1) = fst (forward E2 self x initial_conds w2) /\
  snd (forward E1 self x initial_conds w1) = w1 /\
  fst (forward E1 self x initial_conds (snd (forward E1 self x initial_conds w1))) =
  fst (forward E1 self x initial_conds w1).
Proof.
  intros Htr.
  destruct (forward_eval E1 E2 self x initial_conds w1 w2 Htr) as [Hf Hs].
  split; [exact Hf|]. split; [exact Hs|]. rewrite Hs. reflexivity.
Qed.

(** C7.  The [l2_loss] property returns the sum of the 2-norms (the square
    root of the sum of the squared elements) of the weight tensors of the
    bottleneck, pc-logits and hd-logits layers; reading it leaves the
    model as it was, and two models that agree on those three tensors
    have the same value, whatever their other parameters. *)
Theorem l2_loss_sum_of_norms (self self' : GridTorch) :
  let euclid (t : Tensor) :=
    fsqrt (fold_left fadd (map (fun v => fmul v v) (data t)) (fconst 0)) in
  l2_loss self =
    (Ok (fadd (fadd (euclid (weight (bottleneck self)))
                    (euclid (weight (pc_logits self))))
              (euclid (weight (hd_logits self)))),
     self) /\
  (weight (bottleneck self') = weight (bottleneck self) ->
   weight (pc_logits self') = weight (pc_logits self) ->
   weight (hd_logits self') = weight (hd_logits self) ->
   fst (l2_loss self') = fst (l2_loss self)).
Proof.
  cbv zeta. split.
  - unfold l2_loss, bind, get, ret, norm2. reflexivity.
  - intros Hb Hp Hh. unfold l2_loss, bind, get, ret. cbn [fst].
    rewrite Hb, Hp, Hh. reflexivity.
Qed.

(** C8.  Loading twice from the same directory gives the same result
    twice: the second load ends as the first did (both succeed, or both
    raise the same exception) and leaves every parameter of the model with
    the value the first load left it. *)
Theorem load_idempotent (fs : Files) (loc : string) (self : GridTorch) (w w2 : World) :
  let r1 := init_weights_from_file fs loc (self, w) in
  let r2 := init_weights_from_file fs loc (fst (snd r1), w2) in
  fst r2 = fst r1 /\ fst (snd r2) = fst (snd r1).
Proof.
  cbv zeta. unfold init_weights_from_file, bind.
  repeat (rewrite ?param_run; lookup fs;
          cbv beta iota; unfold assign, modify; cbv beta iota; cbn [fst snd]).
  all: unfold lift.
  all: try (destruct (transpose_1_0 _) eqn:Ht; cbv beta iota; cbn [fst snd]).
  all: repeat (rewrite ?param_run; lookup fs;
               cbv beta iota; unfold assign, modify; cbv beta iota; cbn [fst snd]).
  all: rewrite ?Ht; cbv beta iota; cbn [fst snd].
  all: split; reflexivity.
Qed.

Lemma append_inj (loc a b : string) :
  String.append loc a = String.append loc b -> a = b.
Proof.
  induction loc as [|ch loc IH]; cbn [String.append]; intros Hq; [exact Hq|].
  injection Hq as Hq. apply IH. exact Hq.
Qed.

Lemma weight_files_NoDup (loc : string) : NoDup (weight_files loc).
Proof.
  unfold weight_files. apply Injective_map_NoDup.
  - intros a b. apply append_inj.
  - repeat (constructor; [cbn [In]; intuition discriminate|]). constructor.
Qed.

(** C9 (as amended).  When the constructor is given a weights location
    and one of the eleven files the load reads is absent, construction
    raises the file-not-found error of the first absent file: no model is
    returned, and the files requested are the expected files up to that
    one, each once.  A construction that succeeds has requested exactly
    the eleven files, each once. *)
Theorem missing_file_fails_construction (E : Entropy) (fs : Files) (a : Args)
  (w : World) (loc : string) (e0 e1 : Ensemble) (rest : list Ensemble) :
  target_ensembles a = e0 :: e1 :: rest ->
  positive_widths a ->
  valid_rate (dropoutrates_bottleneck a) ->
  truthy (weights_loc a) = Some loc ->
  (forall p, In p (weight_files loc) -> fs p = None ->
     exists q,
       find (absent fs) (weight_files loc) = Some q /\
       fst (__init__ E fs a w) = Raise (FileNotFoundError q) /\
       reads (snd (__init__ E fs a w)) =
       reads w ++ through (absent fs) (weight_files loc)) /\
  (forall m w', __init__ E fs a w = (Ok m, w') ->
     reads w' = reads w ++ weight_files loc) /\
  length (weight_files loc) = 11 /\
  NoDup (weight_files loc).
Proof.
  intros Hte _ Hp Hloc.
  destruct (init_fresh E fs a w e0 e1 rest Hte Hp) as (m0 & w1 & _ & Hreads & Hrun).
  rewrite Hloc in Hrun. rewrite Hrun. clear Hrun.
  split; [|split; [|split; [reflexivity|apply weight_files_NoDup]]].
  - intros p Hin Hnone.
    destruct (find (absent fs) (weight_files loc)) as [q|] eqn:Hfind.
    + exists q. split; [reflexivity|].
      destruct (load_run_missing fs loc m0 w1 q Hfind) as [self' Hq].
      rewrite Hq. cbn [fst snd reads]. rewrite Hreads. split; reflexivity.
    + exfalso. pose proof (find_none _ _ Hfind p Hin) as Hq.
      unfold absent in Hq. rewrite Hnone in Hq. discriminate.
  - intros m w' Hq.
    destruct (init_weights_from_file fs loc (m0, w1)) as [r [g' w'']] eqn:Hload.
    cbn [fst snd] in Hq. destruct r as [[]|e]; [|discriminate].
    injection Hq as <- <-.
    apply load_ok_inv in Hload as (_ & wt & _ & _ & ->). cbn [reads].
    rewrite Hreads. reflexivity.
Qed.

(** C10.  The constructor reads elements 0 and 1 of [target_ensembles]
    and nothing else of the list: with fewer than two elements it raises
    an index error; replacing the elements after the first two changes
    nothing in what it builds but the list stored in the model; and
    without pretrained weights the widths of the two output heads are the
    cell counts of elements 0 and 1. *)
Theorem init_reads_two_ensembles (E : Entropy) (fs : Files) (a : Args) (w : World) :
  (positive_widths a -> length (target_ensembles a) < 2 ->
   fst (__init__ E fs a w) = Raise IndexError) /\
  (forall e0 e1 rest rest',
     target_ensembles a = e0 :: e1 :: rest ->
     __init__ E fs (with_ensembles (e0 :: e1 :: rest') a) w =
     (match fst (__init__ E fs a w) with
      | Ok m => Ok (retarget (e0 :: e1 :: rest') m)
      | Raise e => Raise e
      end, snd (__init__ E fs a w))) /\
  (forall e0 e1 rest,
     target_ensembles a = e0 :: e1 :: rest ->
     positive_widths a ->
     valid_rate (dropoutrates_bottleneck a) ->
     truthy (weights_loc a) = None ->
     exists m w',
       __init__ E fs a w = (Ok m, w') /\
       out_features (pc_logits m) = n_cells e0 /\
       out_features (hd_logits m) = n_cells e1 /\
       shape (weight (pc_logits m)) = [n_cells e0; nh_bottleneck a] /\
       shape (weight (hd_logits m)) = [n_cells e1; nh_bottleneck a]).
Proof.
  split; [|split].
  - intros _ Hlen. unfold __init__.
    destruct (Linear_new_run E (n_pcs a + n_hdcs a) (nh_lstm a) true w)
      as (se & w1 & R1 & _).
    rewrite (bind_ok _ _ _ _ _ R1).
    destruct (Linear_new_run E (n_pcs a + n_hdcs a) (nh_lstm a) true w1)
      as (ce & w2 & R2 & _).
    rewrite (bind_ok _ _ _ _ _ R2).
    destruct (LSTM_new_run E 3 (nh_lstm a) w2) as (l & w3 & R3 & _).
    rewrite (bind_ok _ _ _ _ _ R3).
    destruct (Linear_new_run E (nh_lstm a) (nh_bottleneck a) (bottleneck_has_bias a) w3)
      as (bn & w4 & R4 & _).
    rewrite (bind_ok _ _ _ _ _ R4).
    destruct (target_ensembles a) as [|e0 [|e1 rest]]; cbn [length] in Hlen.
    + reflexivity.
    + unfold getitem at 1. cbn [nth_error]. unfold lift at 1, bind at 1.
      destruct (Linear_new_run E (nh_bottleneck a) (n_cells e0) true w4)
        as (pc & w5 & R5 & _).
      rewrite (bind_ok _ _ _ _ _ R5). reflexivity.
    + lia.
  - intros e0 e1 rest rest' Hte. apply init_retarget with (rest := rest). exact Hte.
  - intros e0 e1 rest Hte _ Hp Hloc.
    destruct (init_fresh E fs a w e0 e1 rest Hte Hp) as (m & w1 & Hm & _ & Hrun).
    rewrite Hloc in Hrun. exists m, w1. split; [exact Hrun|].
    destruct Hm.
    destruct fresh_pc_logits0 as (_ & Hpo & Hps & _), fresh_hd_logits0 as (_ & Hho & Hhs & _).
    auto.
Qed.

(** ** Further properties: the forward pass *)

Lemma forward_ok_inv (E : Entropy) (self : GridTorch) (x : Tensor) (ics : list Tensor)
  (w w' : World) (o : Outs) :
  forward E self x ics w = (Ok o, w') ->
  exists B init h0 c0 xs s,
    shape_at x 1 = Ok B /\ cat1 ics = Ok init /\
    Linear_forward (state_embed self) init = Ok h0 /\
    Linear_forward (cell_embed self) init = Ok c0 /\
    iterate x = Ok xs /\
    loop E self B xs (mkLoop h0 c0 [] [] [] [] []) w = (Ok s, w') /\
    stack (logits_hd s) = Ok (out_logits_hd o) /\
    stack (logits_pc s) = Ok (out_logits_pc o) /\
    stack (bottleneck_acts s) = Ok (out_bottleneck_acts o) /\
    stack (rnn_states s) = Ok (out_rnn_states o) /\
    stack (cell_states s) = Ok (out_cell_states o).
Proof.
  unfold forward, bind, lift.
  destruct (shape_at x 1) as [B|e] eqn:H1; [|discriminate].
  destruct (cat1 ics) as [init|e] eqn:H2; [|discriminate].
  destruct (Linear_forward (state_embed self) init) as [h0|e] eqn:H3; [|discriminate].
  destruct (Linear_forward (cell_embed self) init) as [c0|e] eqn:H4; [|discriminate].
  destruct (iterate x) as [xs|e] eqn:H5; [|discriminate].
  destruct (loop E self B xs _ w) as [[s|e] w1] eqn:H6; [|discriminate].
  destruct (stack (logits_hd s)) as [o1|e] eqn:S1; [|discriminate].
  destruct (stack (logits_pc s)) as [o2|e] eqn:S2; [|discriminate].
  destruct (stack (bottleneck_acts s)) as [o3|e] eqn:S3; [|discriminate].
  destruct (stack (rnn_states s)) as [o4|e] eqn:S4; [|discriminate].
  destruct (stack (cell_states s)) as [o5|e] eqn:S5; [|discriminate].
  unfold ret. intros Hq. injection Hq as <- <-.
  exists B, init, h0, c0, xs, s.
  cbn [out_logits_hd out_logits_pc out_bottleneck_acts out_rnn_states out_cell_states].
  repeat split; assumption.
Qed.

Lemma loop_cons_ok (E : Entropy) (self : GridTorch) B (t : Tensor) xs (s s' : Loop) w w' :
  loop E self B (t :: xs) s w = (Ok s', w') ->
  exists s1 w1,
    step E self B t s w = (Ok s1, w1) /\ loop E self B xs s1 w1 = (Ok s', w').
Proof.
  cbn [loop]. unfold bind.
  destruct (step E self B t s w) as [[s1|e] w1]; [|discriminate].
  intros Hq. exists s1, w1. split; [reflexivity|exact Hq].
Qed.

Lemma shape_at_1_ok (x : Tensor) B :
  shape_at x 1 = Ok B -> exists T d, shape x = T :: B :: d.
Proof.
  unfold shape_at. destruct (shape x) as [|T [|B' d]]; cbn [nth_error]; try discriminate.
  intros Hq. injection Hq as <-. eauto.
Qed.

Lemma step_needs (E : Entropy) (self : GridTorch) B (t : Tensor) (s s' : Loop) w w' :
  step E self B t s w = (Ok s', w') ->
  B <> 0 /\ numel (shape t) / B = input_size (lstm self) /\
  shape (h_t s) = [B; hidden_size (lstm self)] /\
  shape (h_t s') = squeezed [1; B; hidden_size (lstm self)].
Proof.
  intros Hrun. destruct (step_ok E self B t s s' w w' Hrun) as [Hh Hh'].
  revert Hrun. unfold step, bind, lift, view_1_b_infer.
  destruct (B =? 0) eqn:HB; [discriminate|].
  destruct (_ mod _ =? 0); [|discriminate].
  unfold LSTM_forward. cbn [shape].
  destruct (negb (_ && _)); [discriminate|].
  destruct (numel (shape t) / B =? input_size (lstm self)) eqn:Hi; [|discriminate].
  intros _. apply Nat.eqb_neq in HB. apply Nat.eqb_eq in Hi. auto.
Qed.

Lemma squeezed_inv (B H : nat) : squeezed [1; B; H] = [B; H] -> B <> 1 /\ H <> 1.
Proof.
  unfold squeezed. cbn [filter Nat.eqb negb].
  destruct (B =? 1) eqn:E1, (H =? 1) eqn:E2; cbn [negb]; intros Hq.
  - discriminate Hq.
  - injection Hq as _ Hq. discriminate Hq.
  - injection Hq as Hq. discriminate Hq.
  - apply Nat.eqb_neq in E1, E2. auto.
Qed.

(** X2.  What a successful forward call needs: an input of at least two
    dimensions whose first two sizes [T] and [B] are at least 1 and whose
    remaining sizes multiply to the input width of the recurrent module
    ([view(1, batch_size, -1)] flattens them); and, for more than one
    step, a batch size of at least 2 and a recurrent width other than 1,
    since [squeeze()] removes every dimension of size 1 from the states
    the next step receives. *)
Theorem forward_ok_needs (E : Entropy) (self : GridTorch) (x : Tensor)
  (initial_conds : list Tensor) (w w' : World) (o : Outs) :
  forward E self x initial_conds w = (Ok o, w') ->
  exists T B d,
    shape x = T :: B :: d /\ 1 <= T /\ 1 <= B /\
    numel d = input_size (lstm self) /\
    (2 <= T -> 2 <= B /\ hidden_size (lstm self) <> 1).
Proof.
  intros Hrun.
  apply forward_ok_inv in Hrun
    as (B & init & h0 & c0 & xs & s & HB & _ & _ & _ & Hxs & Hloop & Hst & _).
  apply shape_at_1_ok in HB as (T & d & Hx).
  exists T, B, d. split; [exact Hx|].
  unfold iterate in Hxs. rewrite Hx in Hxs. injection Hxs as <-.
  destruct T as [|T].
  - cbn [chunks map loop] in Hloop. unfold ret in Hloop. injection Hloop as <- <-.
    discriminate Hst.
  - cbn [chunks map] in Hloop.
    apply loop_cons_ok in Hloop as (s1 & w1 & Hstep & Hloop).
    destruct (step_needs _ _ _ _ _ _ _ _ Hstep) as (HB0 & Hin & _ & Hh1).
    cbn [shape] in Hin.
    assert (Hnum : numel (B :: d) = numel d * B) by (unfold numel; simpl; lia).
    rewrite Hnum, Nat.div_mul in Hin by exact HB0.
    split; [lia|]. split; [lia|]. split; [exact Hin|].
    intros HT. destruct T as [|T]; [lia|].
    cbn [chunks map] in Hloop.
    apply loop_cons_ok in Hloop as (s2 & w2 & Hstep2 & _).
    destruct (step_needs _ _ _ _ _ _ _ _ Hstep2) as (_ & _ & Hh2 & _).
    rewrite Hh2 in Hh1. symmetry in Hh1. apply squeezed_inv in Hh1 as [HB1 HH].
    split; [lia|exact HH].
Qed.

(** X3.  Initial conditions whose widths do not add up to the input width
    of the state embedding make the forward call raise the shape error of
    the linear map, before the sequence is looked at and without a draw
    from the generator. *)
Theorem forward_rejects_initial_width (E : Entropy) (self : GridTorch)
  (x ic0 ic1 : Tensor) (w : World) (T B Bi p0 p1 H P : nat) (d : list nat) :
  shape x = T :: B :: d ->
  shape ic0 = [Bi; p0] -> shape ic1 = [Bi; p1] ->
  shape (weight (state_embed self)) = [H; P] ->
  p0 + p1 <> P ->
  forward E self x [ic0; ic1] w = (Raise RuntimeError, w).
Proof.
  intros Hx H0 H1 HW Hne.
  unfold forward, shape_at. rewrite Hx. cbn [nth_error]. unfold bind, lift.
  destruct (cat1_two ic0 ic1 Bi p0 p1 H0 H1) as (init & -> & Hinit).
  unfold Linear_forward, linear. rewrite HW, Hinit. cbn [rev app].
  destruct (p0 + p1 =? P) eqn:Hq; [apply Nat.eqb_eq in Hq; contradiction|].
  reflexivity.
Qed.

(** X4.  On a model with consistent parameter shapes, step inputs whose
    width is not 3, or initial conditions whose batch size is not the one
    of the sequence, make the forward call raise the shape error of the
    recurrent module at the first step, without a draw from the
    generator. *)
Theorem forward_rejects_step_width (E : Entropy) (self : GridTorch)
  (x ic0 ic1 : Tensor) (w : World) (P H NB n0 n1 T B k Bi p0 p1 : nat) :
  well_shaped P H NB n0 n1 self -> P = p0 + p1 ->
  shape x = [T; B; k] -> 1 <= T ->
  shape ic0 = [Bi; p0] -> shape ic1 = [Bi; p1] ->
  k <> 3 \/ Bi <> B ->
  forward E self x [ic0; ic1] w = (Raise RuntimeError, w).
Proof.
  intros Hws -> Hx HT H0 H1 Hbad.
  unfold forward, shape_at. rewrite Hx. cbn [nth_error]. unfold bind, lift.
  destruct (cat1_two ic0 ic1 Bi p0 p1 H0 H1) as (init & -> & Hinit).
  destruct (Linear_forward_shape (state_embed self) init Bi _ H (ws_state_embed Hws) Hinit)
    as (h0 & -> & Hh0).
  destruct (Linear_forward_shape (cell_embed self) init Bi _ H (ws_cell_embed Hws) Hinit)
    as (c0 & -> & Hc0).
  unfold iterate. rewrite Hx.
  destruct T as [|T]; [lia|]. cbn [chunks map loop]. unfold bind at 1.
  unfold step at 1. unfold bind at 1, lift at 1.
  destruct (Nat.eq_dec B 0) as [->|HB].
  - reflexivity.
  - match goal with
    | |- context [view_1_b_infer ?t B] =>
      destruct (view_shape t B k eq_refl HB) as (inp & -> & Hinp)
    end.
    unfold bind at 1, lift at 1.
    unfold LSTM_forward. rewrite Hinp. unfold unsqueeze0. cbn [shape h_t c_t].
    rewrite Hh0, Hc0.
    destruct (ws_lstm Hws) as (Hi & Hh & _). rewrite Hi, Hh.
    cbn [shape_eqb Nat.eqb andb]. rewrite !Nat.eqb_refl. cbn [andb].
    destruct (Bi =? B) eqn:HBi; cbn [andb negb]; [|reflexivity].
    destruct Hbad as [Hk|Hb]; [|apply Nat.eqb_eq in HBi; contradiction].
    destruct (k =? 3) eqn:Hk3; [apply Nat.eqb_eq in Hk3; contradiction|].
    reflexivity.
Qed.




(** *** Dropout and the recurrence *)

Lemma Dropout_forward_no_mask (E1 E2 : Entropy) (d : Dropout) tr (t : Tensor) w1 w2 :
  fltb (fconst 0) (rate d) && fltb (rate d) (fconst 1) = false ->
  fst (Dropout_forward E1 d tr t w1) = fst (Dropout_forward E2 d tr t w2) /\
  snd (Dropout_forward E1 d tr t w1) = w1.
Proof.
  intros Hp. unfold Dropout_forward.
  destruct (negb tr || negb (fltb (fconst 0) (rate d)) || (numel (shape t) =? 0)) eqn:Hq.
  - split; reflexivity.
  - apply orb_false_iff in Hq as [Hq _]. apply orb_false_iff in Hq as [_ Hq].
    apply negb_false_iff in Hq. rewrite Hq in Hp. cbn [andb] in Hp. rewrite Hp.
    split; reflexivity.
Qed.

Lemma step_no_mask (E1 E2 : Entropy) (self : GridTorch) B (t : Tensor) (s : Loop) w1 w2 :
  fltb (fconst 0) (rate (dropout self)) && fltb (rate (dropout self)) (fconst 1) = false ->
  fst (step E1 self B t s w1) = fst (step E2 self B t s w2) /\
  snd (step E1 self B t s w1) = w1.
Proof.
  intros Hp. unfold step, bind, lift.
  destruct (view_1_b_infer t B) as [inp|e]; [|split; reflexivity].
  destruct (LSTM_forward _ _ _ _) as [r|e]; [|split; reflexivity].
  destruct (Linear_forward (bottleneck self) _) as [b|e]; [|split; reflexivity].
  destruct (Dropout_forward_no_mask E1 E2 (dropout self) (training self) b w1 w2 Hp)
    as [Hf Hs].
  destruct (Dropout_forward E1 _ _ b w1) as [r1 w1'].
  destruct (Dropout_forward E2 _ _ b w2) as [r2 w2'].
  cbn [fst snd] in Hf, Hs. subst r2 w1'.
  destruct r1 as [ba|e]; [|split; reflexivity].
  destruct (Linear_forward (pc_logits self) _) as [pc|e]; [|split; reflexivity].
  destruct (Linear_forward (hd_logits self) _) as [hd|e]; split; reflexivity.
Qed.

Lemma loop_no_mask (E1 E2 : Entropy) (self : GridTorch) B (xs : list Tensor) :
  fltb (fconst 0) (rate (dropout self)) && fltb (rate (dropout self)) (fconst 1) = false ->
  forall s w1 w2,
    fst (loop E1 self B xs s w1) = fst (loop E2 self B xs s w2) /\
    snd (loop E1 self B xs s w1) = w1.
Proof.
  intros Hp. induction xs as [|t xs IH]; intros s w1 w2; cbn [loop].
  - split; reflexivity.
  - unfold bind.
    destruct (step_no_mask E1 E2 self B t s w1 w2 Hp) as [Hf Hs].
    destruct (step E1 self B t s w1) as [r1 w1'].
    destruct (step E2 self B t s w2) as [r2 w2'].
    cbn [fst snd] in Hf, Hs. subst r2 w1'.
    destruct r1 as [s'|e]; [apply IH|split; reflexivity].
Qed.

(** X6.  A dropout rate that is not strictly between 0 and 1 -- for the
    rates [nn.Dropout] accepts, 0 or 1 -- makes the forward call of a
    model in training mode as reproducible as one in evaluation mode: no
    mask is drawn, so the result does not depend on the generator, and
    the generator is left where it was. *)
Theorem forward_without_mask_deterministic (E1 E2 : Entropy) (self : GridTorch)
  (x : Tensor) (initial_conds : list Tensor) (w1 w2 : World) :
  fltb (fconst 0) (rate (dropout self)) && fltb (rate (dropout self)) (fconst 1) = false ->
  fst (forward E1 self x initial_conds w1) = fst (forward E2 self x initial_conds w2) /\
  snd (forward E1 self x initial_conds w1) = w1.
Proof.
  intros Hp. unfold forward, bind, lift.
  destruct (shape_at x 1) as [B|e]; [|split; reflexivity].
  destruct (cat1 initial_conds) as [init|e]; [|split; reflexivity].
  destruct (Linear_forward (state_embed self) init) as [h0|e]; [|split; reflexivity].
  destruct (Linear_forward (cell_embed self) init) as [c0|e]; [|split; reflexivity].
  destruct (iterate x) as [xs|e]; [|split; reflexivity].
  destruct (loop_no_mask E1 E2 self B xs Hp (mkLoop h0 c0 [] [] [] [] []) w1 w2)
    as [Hf Hs].
  destruct (loop E1 self B xs _ w1) as [r1 w1'].
  destruct (loop E2 self B xs _ w2) as [r2 w2'].
  cbn [fst snd] in Hf, Hs. subst r2 w1'.
  destruct r1 as [s|e]; [|split; reflexivity].
  destruct (stack (logits_hd s)); [|split; reflexivity].
  destruct (stack (logits_pc s)); [|split; reflexivity].
  destruct (stack (bottleneck_acts s)); [|split; reflexivity].
  destruct (stack (rnn_states s)); [|split; reflexivity].
  destruct (stack (cell_states s)); split; reflexivity.
Qed.

Lemma linear_shape_only (x x' W : Tensor) (b : option Tensor) :
  shape x = shape x' ->
  agree (fun y y' => shape y = shape y') (linear x W b) (linear x' W b).
Proof.
  intros Hs. unfold linear. rewrite <- Hs.
  destruct (shape W) as [|o [|i [|? ?]]]; try reflexivity.
  destruct (rev (shape x)) as [|k lead]; [reflexivity|].
  destruct (k =? i); [|reflexivity].
  destruct b as [bt|]; [|reflexivity].
  destruct (shape_eqb (shape bt) [o]); reflexivity.
Qed.

Lemma forallb_shapes (f : list nat -> bool) (l l' : list Tensor) :
  map shape l = map shape l' ->
  forallb (fun t => f (shape t)) l = forallb (fun t => f (shape t)) l'.
Proof.
  revert l'. induction l as [|t l IH]; intros [|t' l'] Hs; try discriminate Hs.
  - reflexivity.
  - cbn [map] in Hs. injection Hs as Ht Hl. cbn [forallb]. rewrite Ht, (IH l' Hl).
    reflexivity.
Qed.

Lemma stack_shape_only (l l' : list Tensor) :
  map shape l = map shape l' ->
  agree (fun y y' => shape y = shape y') (stack l) (stack l').
Proof.
  intros Hs. unfold stack.
  destruct l as [|t0 ts], l' as [|t0' ts']; try discriminate Hs; [reflexivity|].
  assert (Hlen : length (t0 :: ts) = length (t0' :: ts')).
  { rewrite <- (length_map shape (t0 :: ts)), Hs, length_map. reflexivity. }
  rewrite (forallb_shapes (fun s => shape_eqb s (shape t0)) _ _ Hs).
  cbn [map] in Hs. injection Hs as Hs0 _. rewrite Hs0.
  destruct (forallb _ _); cbn [agree shape]; [|reflexivity].
  rewrite Hlen. reflexivity.
Qed.

Lemma step_same_states (E1 E2 : Entropy) (self : GridTorch) B (t : Tensor)
  (s s' : Loop) w1 w2 :
  same_states s s' ->
  agree same_states (fst (step E1 self B t s w1)) (fst (step E2 (eval self) B t s' w2)).
Proof.
  intros (Hh & Hc & Hrs & Hcs & Hhd & Hpc & Hba).
  unfold step, bind, lift. cbn [eval lstm bottleneck pc_logits hd_logits dropout training].
  rewrite <- Hh, <- Hc.
  destruct (view_1_b_infer t B) as [inp|e]; [|reflexivity].
  destruct (LSTM_forward _ _ _ _) as [r|e]; [|reflexivity].
  destruct (Linear_forward (bottleneck self) _) as [b|e]; [|reflexivity].
  rewrite Dropout_forward_eval.
  destruct (Dropout_forward_shape E1 (dropout self) (training self) b w1)
    as (ba & w1' & -> & Hbas).
  pose proof (linear_shape_only ba b (weight (pc_logits self)) (bias (pc_logits self)) Hbas)
    as Hp.
  pose proof (linear_shape_only ba b (weight (hd_logits self)) (bias (hd_logits self)) Hbas)
    as Hd.
  unfold Linear_forward.
  destruct (linear ba (weight (pc_logits self)) _) as [pc|e1],
           (linear b (weight (pc_logits self)) _) as [pc'|e1'];
    cbn [agree] in Hp; try contradiction; [|cbn; exact Hp].
  destruct (linear ba (weight (hd_logits self)) _) as [hd|e2],
           (linear b (weight (hd_logits self)) _) as [hd'|e2'];
    cbn [agree] in Hd; try contradiction; [|cbn; exact Hd].
  unfold ret. cbn [fst agree]. unfold same_states.
  cbn [h_t c_t rnn_states cell_states logits_hd logits_pc bottleneck_acts].
  rewrite !map_app, Hrs, Hcs, Hhd, Hpc, Hba. cbn [map]. rewrite Hp, Hd, Hbas.
  repeat split; reflexivity.
Qed.

Lemma loop_same_states (E1 E2 : Entropy) (self : GridTorch) B (xs : list Tensor) :
  forall s s' w1 w2,
    same_states s s' ->
    agree same_states (fst (loop E1 self B xs s w1))
                      (fst (loop E2 (eval self) B xs s' w2)).
Proof.
  induction xs as [|t xs IH]; intros s s' w1 w2 Hs; cbn [loop].
  - exact Hs.
  - unfold bind.
    pose proof (step_same_states E1 E2 self B t s s' w1 w2 Hs) as Hstep.
    destruct (step E1 self B t s w1) as [[a|e] w1'],
             (step E2 (eval self) B t s' w2) as [[a'|e'] w2'];
      cbn [fst agree] in Hstep; try contradiction.
    + apply IH. exact Hstep.
    + exact Hstep.
Qed.

(** X7.  Dropout never feeds back into the recurrence: the hidden and cell
    state sequences a forward call returns in training mode are the ones
    it returns in evaluation mode, whatever the generator, the other
    three sequences have the same shapes in both modes, and a call that
    raises raises the same exception in both. *)
Theorem recurrent_states_ignore_dropout (E1 E2 : Entropy) (self : GridTorch)
  (x : Tensor) (initial_conds : list Tensor) (w1 w2 : World) :
  agree (fun o o' =>
           out_rnn_states o = out_rnn_states o' /\
           out_cell_states o = out_cell_states o' /\
           shape (out_logits_hd o) = shape (out_logits_hd o') /\
           shape (out_logits_pc o) = shape (out_logits_pc o') /\
           shape (out_bottleneck_acts o) = shape (out_bottleneck_acts o'))
        (fst (forward E1 self x initial_conds w1))
        (fst (forward E2 (eval self) x initial_conds w2)).
Proof.
  unfold forward, bind, lift. cbn [eval state_embed cell_embed].
  destruct (shape_at x 1) as [B|e]; [|reflexivity].
  destruct (cat1 initial_conds) as [init|e]; [|reflexivity].
  destruct (Linear_forward (state_embed self) init) as [h0|e]; [|reflexivity].
  destruct (Linear_forward (cell_embed self) init) as [c0|e]; [|reflexivity].
  destruct (iterate x) as [xs|e]; [|reflexivity].
  pose proof (loop_same_states E1 E2 self B xs (mkLoop h0 c0 [] [] [] [] [])
                (mkLoop h0 c0 [] [] [] [] []) w1 w2) as Hloop.
  change (mkGridTorch (self_target_ensembles self) (state_embed self) (cell_embed self)
            (lstm self) (bottleneck self) (pc_logits self) (hd_logits self)
            (dropout self) false) with (eval self).
  destruct (loop E1 self B xs _ w1) as [[s|e] w1'],
           (loop E2 (eval self) B xs _ w2) as [[s'|e'] w2'];
    cbn [fst agree] in Hloop.
  - destruct Hloop as (_ & _ & Hrs & Hcs & Hhd & Hpc & Hba); [repeat split; reflexivity|].
    pose proof (stack_shape_only _ _ Hhd) as A1.
    pose proof (stack_shape_only _ _ Hpc) as A2.
    pose proof (stack_shape_only _ _ Hba) as A3.
    rewrite <- Hrs, <- Hcs.
    destruct (stack (logits_hd s)) as [o1|?], (stack (logits_hd s')) as [o1'|?];
      cbn [agree] in A1; try contradiction; [|exact A1].
    destruct (stack (logits_pc s)) as [o2|?], (stack (logits_pc s')) as [o2'|?];
      cbn [agree] in A2; try contradiction; [|exact A2].
    destruct (stack (bottleneck_acts s)) as [o3|?], (stack (bottleneck_acts s')) as [o3'|?];
      cbn [agree] in A3; try contradiction; [|exact A3].
    destruct (stack (rnn_states s)) as [o4|?]; [|reflexivity].
    destruct (stack (cell_states s)) as [o5|?]; [|reflexivity].
    cbn. auto.
  - exfalso. apply Hloop. repeat split; reflexivity.
  - exfalso. apply Hloop. repeat split; reflexivity.
  - apply Hloop. repeat split; reflexivity.
Qed.

(** *** Element counts *)

Lemma chunks_sized {A} k n (l : list A) :
  k * n <= length l -> Forall (fun c => length c = n) (chunks k n l).
Proof.
  revert l. induction k as [|k IH]; intros l Hl; cbn [chunks]; constructor.
  - rewrite length_firstn. simpl in Hl. lia.
  - apply IH. rewrite length_skipn. simpl in Hl. lia.
Qed.

Lemma flat_map_sized {A B} (f : A -> list B) n (l : list A) :
  Forall (fun a => length (f a) = n) l -> length (flat_map f l) = length l * n.
Proof.
  induction 1 as [|a l Ha _ IH]; cbn [flat_map length]; [reflexivity|].
  rewrite length_app, Ha, IH. simpl. reflexivity.
Qed.

Lemma numel_rev (s : list nat) : numel (rev s) = numel s.
Proof.
  induction s as [|d s IH]; [reflexivity|].
  cbn [rev]. rewrite numel_app, IH. unfold numel. simpl. lia.
Qed.

Lemma linear_sized (x W : Tensor) (b : option Tensor) (y : Tensor) :
  linear x W b = Ok y ->
  match b with Some bt => sized bt | None => True end ->
  sized y.
Proof.
  unfold linear, sized.
  destruct (shape W) as [|o [|i [|? ?]]]; try discriminate.
  destruct (rev (shape x)) as [|k lead]; [discriminate|].
  destruct (k =? i); [|discriminate].
  destruct b as [bt|].
  - destruct (shape_eqb (shape bt) [o]) eqn:Hb; [|discriminate].
    apply shape_eqb_eq in Hb. intros Hq Hbt. injection Hq as <-. cbn [shape data].
    rewrite Hb in Hbt. unfold numel in Hbt. simpl in Hbt.
    rewrite (flat_map_sized _ o).
    + rewrite chunks_length, numel_app, numel_rev. unfold numel. simpl. lia.
    + apply Forall_forall. intros r _.
      rewrite length_map, length_combine, chunks_length. lia.
  - intros Hq _. injection Hq as <-. cbn [shape data].
    rewrite (flat_map_sized _ o).
    + rewrite chunks_length, numel_app, numel_rev. unfold numel. simpl. lia.
    + apply Forall_forall. intros r _. rewrite length_map, chunks_length. reflexivity.
Qed.

Lemma Linear_forward_sized (l : Linear) (x y : Tensor) :
  Linear_forward l x = Ok y -> bias_sized l -> sized y.
Proof. unfold Linear_forward, bias_sized. apply linear_sized. Qed.

Lemma lstm_row_sized (hid : nat) (g c : list F) :
  length g = 4 * hid -> length c = hid ->
  length (fst (lstm_row hid g c)) = hid /\ length (snd (lstm_row hid g c)) = hid.
Proof.
  intros Hg Hc. unfold lstm_row. cbn [fst snd].
  rewrite !length_map, !length_combine, !length_map, !length_combine,
    !length_firstn, !length_skipn.
  lia.
Qed.

Lemma combine_Forall {A B} (P : A -> Prop) (Q : B -> Prop) (l : list A) (l' : list B) :
  Forall P l -> Forall Q l' -> Forall (fun q => P (fst q) /\ Q (snd q)) (combine l l').
Proof.
  intros Hl. revert l'. induction Hl as [|a l Ha _ IH]; intros l' Hl'; cbn [combine].
  - constructor.
  - destruct Hl' as [|b l' Hb Hl']; constructor; [split; assumption|apply IH; exact Hl'].
Qed.

Lemma lstm_cell_sized (l : LSTM) B (x : Tensor) (h c h' c' : list F) :
  lstm_cell l B x h c = Ok (h', c') ->
  sized (bias_ih_l0 l) -> sized (bias_hh_l0 l) ->
  length c = B * hidden_size l ->
  length h' = B * hidden_size l /\ length c' = B * hidden_size l.
Proof.
  unfold lstm_cell. intros Hrun Hbi Hbh Hc.
  destruct (linear x (weight_ih_l0 l) (Some (bias_ih_l0 l))) as [gx|e] eqn:Hgx;
    [|discriminate].
  destruct (linear (mkTensor [B; hidden_size l] h) (weight_hh_l0 l)
              (Some (bias_hh_l0 l))) as [gh|e] eqn:Hgh; [|discriminate].
  cbn [rbind] in Hrun.
  destruct (shape_eqb (shape gx) [B; 4 * hidden_size l]) eqn:Sx; [|discriminate].
  destruct (shape_eqb (shape gh) [B; 4 * hidden_size l]) eqn:Sh; [|discriminate].
  cbn [andb] in Hrun. injection Hrun as <- <-.
  apply shape_eqb_eq in Sx, Sh.
  apply linear_sized in Hgx; [|exact Hbi]. apply linear_sized in Hgh; [|exact Hbh].
  unfold sized in Hgx, Hgh. rewrite Sx in Hgx. rewrite Sh in Hgh.
  assert (Hn : numel [B; 4 * hidden_size l] = B * (4 * hidden_size l))
    by (unfold numel; simpl; lia).
  rewrite Hn in Hgx, Hgh.
  set (gates := map _ (combine (data gx) (data gh))).
  assert (Hgates : length gates = B * (4 * hidden_size l)).
  { unfold gates. rewrite length_map, length_combine. lia. }
  assert (Hrows : Forall (fun q => length (fst q) = 4 * hidden_size l /\
                                   length (snd q) = hidden_size l)
                         (combine (chunks B (4 * hidden_size l) gates)
                                  (chunks B (hidden_size l) c))).
  { apply (combine_Forall (fun g => length g = 4 * hidden_size l)
             (fun c => length c = hidden_size l)); apply chunks_sized; lia. }
  assert (Hlen : length (combine (chunks B (4 * hidden_size l) gates)
                                 (chunks B (hidden_size l) c)) = B).
  { rewrite length_combine, !chunks_length. lia. }
  rewrite !flat_map_concat_map, !map_map, <- !flat_map_concat_map.
  change (hidden_size l + (hidden_size l + (hidden_size l + (hidden_size l + 0))))
    with (4 * hidden_size l).
  rewrite (flat_map_sized _ (hidden_size l)), (flat_map_sized _ (hidden_size l)), Hlen.
  - split; reflexivity.
  - eapply Forall_impl; [|exact Hrows]. intros q [Hq1 Hq2].
    apply lstm_row_sized; assumption.
  - eapply Forall_impl; [|exact Hrows]. intros q [Hq1 Hq2].
    apply lstm_row_sized; assumption.
Qed.

Lemma lstm_steps_sized (l : LSTM) B isz (xs : list (list F)) :
  sized (bias_ih_l0 l) -> sized (bias_hh_l0 l) ->
  forall h c out r,
    lstm_steps l B isz xs h c out = Ok r ->
    length h = B * hidden_size l -> length c = B * hidden_size l ->
    length (fst (snd r)) = B * hidden_size l /\ length (snd (snd r)) = B * hidden_size l.
Proof.
  intros Hbi Hbh. induction xs as [|x xs IH]; intros h c out r; cbn [lstm_steps].
  - intros Hq Hh Hc. injection Hq as <-. cbn [fst snd]. auto.
  - destruct (lstm_cell l B (mkTensor [B; isz] x) h c) as [[h' c']|e] eqn:Hcell;
      [|discriminate].
    cbn [rbind fst snd]. intros Hq Hh Hc.
    destruct (lstm_cell_sized _ _ _ _ _ _ _ Hcell Hbi Hbh Hc) as [Hh' Hc'].
    exact (IH _ _ _ _ Hq Hh' Hc').
Qed.

Lemma LSTM_forward_sized (l : LSTM) (inp hx cx : Tensor) r :
  LSTM_forward l inp hx cx = Ok r ->
  sized (bias_ih_l0 l) -> sized (bias_hh_l0 l) -> sized hx -> sized cx ->
  sized (fst (snd r)) /\ sized (snd (snd r)).
Proof.
  unfold LSTM_forward. intros Hrun Hbi Hbh Hhx Hcx.
  destruct (shape inp) as [|len [|B [|isz [|? ?]]]]; try discriminate.
  destruct (shape_eqb (shape hx) [1; B; hidden_size l]) eqn:Sh; [|discriminate].
  destruct (shape_eqb (shape cx) [1; B; hidden_size l]) eqn:Sc; [|discriminate].
  cbn [andb negb] in Hrun.
  destruct (negb (isz =? input_size l)); [discriminate|].
  destruct (lstm_bias l); [|discriminate].
  destruct (lstm_steps _ _ _ _ _ _ _) as [q|e] eqn:Hsteps; [|discriminate].
  cbn [rbind] in Hrun. injection Hrun as <-. cbn [fst snd].
  apply shape_eqb_eq in Sh, Sc. unfold sized in *. rewrite Sh in Hhx. rewrite Sc in Hcx.
  assert (Hn : numel [1; B; hidden_size l] = B * hidden_size l)
    by (unfold numel; simpl; lia).
  rewrite Hn in Hhx, Hcx. cbn [shape data]. rewrite Hn.
  exact (lstm_steps_sized _ _ _ _ Hbi Hbh _ _ _ _ Hsteps Hhx Hcx).
Qed.

Lemma Dropout_forward_sized (E : Entropy) (d : Dropout) tr (t y : Tensor) w w' :
  Dropout_forward E d tr t w = (Ok y, w') -> sized t -> sized y.
Proof.
  unfold Dropout_forward, sized, ret.
  destruct (negb tr || negb (fltb (fconst 0) (rate d)) || (numel (shape t) =? 0)).
  - intros Hq. injection Hq as <- _. auto.
  - destruct (negb (fltb (rate d) (fconst 1))).
    + intros Hq Ht. injection Hq as <- _. cbn [shape data]. rewrite length_map. exact Ht.
    + intros Hq Ht. injection Hq as <- _. cbn [shape data].
      rewrite length_map, length_combine, length_map, length_seq. lia.
Qed.

Lemma step_inv (E : Entropy) (self : GridTorch) B (t : Tensor) (s s' : Loop) w w' :
  step E self B t s w = (Ok s', w') ->
  exists inp r b ba pc hd,
    view_1_b_infer t B = Ok inp /\
    LSTM_forward (lstm self) inp (unsqueeze0 (h_t s)) (unsqueeze0 (c_t s)) = Ok r /\
    Linear_forward (bottleneck self) (squeeze (fst (snd r))) = Ok b /\
    Dropout_forward E (dropout self) (training self) b w = (Ok ba, w') /\
    Linear_forward (pc_logits self) ba = Ok pc /\
    Linear_forward (hd_logits self) ba = Ok hd /\
    s' = mkLoop (squeeze (fst (snd r))) (squeeze (snd (snd r)))
           (logits_hd s ++ [hd]) (logits_pc s ++ [pc]) (bottleneck_acts s ++ [ba])
           (rnn_states s ++ [squeeze (fst (snd r))])
           (cell_states s ++ [squeeze (snd (snd r))]).
Proof.
  unfold step, bind, lift.
  destruct (view_1_b_infer t B) as [inp|e] eqn:H1; [|discriminate].
  destruct (LSTM_forward _ _ _ _) as [r|e] eqn:H2; [|discriminate].
  destruct (Linear_forward (bottleneck self) _) as [b|e] eqn:H3; [|discriminate].
  destruct (Dropout_forward _ _ _ _ _) as [[ba|e] w1] eqn:H4; [|discriminate].
  destruct (Linear_forward (pc_logits self) _) as [pc|e] eqn:H5; [|discriminate].
  destruct (Linear_forward (hd_logits self) _) as [hd|e] eqn:H6; [|discriminate].
  unfold ret. intros Hq. injection Hq as <- <-.
  exists inp, r, b, ba, pc, hd. repeat split; assumption.
Qed.

Lemma numel_squeezed (s : list nat) : numel (squeezed s) = numel s.
Proof.
  induction s as [|d s IH]; [reflexivity|].
  unfold squeezed in *. cbn [filter].
  destruct (d =? 1) eqn:Hd; cbn [negb].
  - apply Nat.eqb_eq in Hd. subst d. rewrite IH. unfold numel. simpl. lia.
  - unfold numel in *. cbn [fold_right]. rewrite IH. reflexivity.
Qed.

Lemma squeeze_sized (t : Tensor) : sized t -> sized (squeeze t).
Proof.
  unfold sized, squeeze. cbn [shape data]. intros ->.
  symmetry. apply numel_squeezed.
Qed.

Lemma unsqueeze0_sized (t : Tensor) : sized t -> sized (unsqueeze0 t).
Proof.
  unfold sized, unsqueeze0. cbn [shape data]. intros ->. unfold numel. simpl. lia.
Qed.

Lemma Forall_snoc {A} (P : A -> Prop) (l : list A) (a : A) :
  Forall P l -> P a -> Forall P (l ++ [a]).
Proof. intros Hl Ha. apply Forall_app. split; [exact Hl|]. constructor; [exact Ha|constructor]. Qed.

Lemma step_sized (E : Entropy) (self : GridTorch) B (t : Tensor) (s s' : Loop) w w' :
  step E self B t s w = (Ok s', w') ->
  biases_sized self -> all_sized s -> all_sized s'.
Proof.
  intros Hrun Hb Hs.
  apply step_inv in Hrun as (inp & r & b & ba & pc & hd & _ & Hr & Hbn & Hdr & Hpc & Hhd & ->).
  destruct Hb as [_ _ Bbn Bpc Bhd Bih Bhh]. destruct Hs as [Sh Sc Shd Spc Sba Shs Scs].
  destruct (LSTM_forward_sized _ _ _ _ _ Hr Bih Bhh (unsqueeze0_sized _ Sh)
              (unsqueeze0_sized _ Sc)) as [Hh' Hc'].
  apply squeeze_sized in Hh', Hc'.
  pose proof (Linear_forward_sized _ _ _ Hbn Bbn) as Hbs.
  pose proof (Dropout_forward_sized _ _ _ _ _ _ _ Hdr Hbs) as Hbas.
  pose proof (Linear_forward_sized _ _ _ Hpc Bpc) as Hpcs.
  pose proof (Linear_forward_sized _ _ _ Hhd Bhd) as Hhds.
  constructor; cbn [h_t c_t logits_hd logits_pc bottleneck_acts rnn_states cell_states];
    auto using Forall_snoc.
Qed.

Lemma loop_sized (E : Entropy) (self : GridTorch) B (xs : list Tensor) :
  biases_sized self ->
  forall s s' w w',
    loop E self B xs s w = (Ok s', w') -> all_sized s -> all_sized s'.
Proof.
  intros Hb. induction xs as [|t xs IH]; intros s s' w w' Hrun Hs.
  - cbn [loop] in Hrun. unfold ret in Hrun. injection Hrun as <- _. exact Hs.
  - apply loop_cons_ok in Hrun as (s1 & w1 & Hstep & Hloop).
    exact (IH _ _ _ _ Hloop (step_sized _ _ _ _ _ _ _ _ Hstep Hb Hs)).
Qed.

Lemma step_consistent (E : Entropy) (self : GridTorch) B (t : Tensor) (s s' : Loop) w w' :
  step E self B t s w = (Ok s', w') ->
  consistent self (training self) (rnn_states s) (bottleneck_acts s)
    (logits_pc s) (logits_hd s) ->
  consistent self (training self) (rnn_states s') (bottleneck_acts s')
    (logits_pc s') (logits_hd s').
Proof.
  intros Hrun [Cpc Chd Cba].
  apply step_inv in Hrun as (inp & r & b & ba & pc & hd & _ & Hr & Hbn & Hdr & Hpc & Hhd & ->).
  constructor; cbn [logits_hd logits_pc bottleneck_acts rnn_states].
  - apply Forall2_app; [exact Cpc|]. constructor; [exact Hpc|constructor].
  - apply Forall2_app; [exact Chd|]. constructor; [exact Hhd|constructor].
  - intros Htr. apply Forall2_app; [exact (Cba Htr)|].
    rewrite Htr, Dropout_forward_eval in Hdr. injection Hdr as <- _.
    constructor; [exact Hbn|constructor].
Qed.

Lemma loop_consistent (E : Entropy) (self : GridTorch) B (xs : list Tensor) :
  forall s s' w w',
    loop E self B xs s w = (Ok s', w') ->
    consistent self (training self) (rnn_states s) (bottleneck_acts s)
      (logits_pc s) (logits_hd s) ->
    consistent self (training self) (rnn_states s') (bottleneck_acts s')
      (logits_pc s') (logits_hd s').
Proof.
  induction xs as [|t xs IH]; intros s s' w w' Hrun Hs.
  - cbn [loop] in Hrun. unfold ret in Hrun. injection Hrun as <- _. exact Hs.
  - apply loop_cons_ok in Hrun as (s1 & w1 & Hstep & Hloop).
    exact (IH _ _ _ _ Hloop (step_consistent _ _ _ _ _ _ _ _ Hstep Hs)).
Qed.

Lemma chunks_flat_map {A} (f : A -> list F) n (l : list A) (rest : list F) :
  Forall (fun a => length (f a) = n) l ->
  chunks (length l) n (flat_map f l ++ rest) = map f l.
Proof.
  induction 1 as [|a l Ha _ IH]; cbn [length chunks flat_map map]; [reflexivity|].
  rewrite <- app_assoc.
  rewrite firstn_app, firstn_all2, skipn_app, skipn_all2 by lia.
  rewrite Ha, Nat.sub_diag. cbn [firstn skipn app]. rewrite app_nil_r, IH. reflexivity.
Qed.

Lemma stack_inv (ts : list Tensor) (y : Tensor) :
  stack ts = Ok y ->
  exists t0 sh,
    hd_error ts = Some t0 /\ sh = shape t0 /\
    Forall (fun t => shape t = sh) ts /\
    y = mkTensor (length ts :: sh) (flat_map data ts).
Proof.
  unfold stack. destruct ts as [|t0 ts]; [discriminate|].
  destruct (forallb _ _) eqn:Hall; [|discriminate].
  intros Hq. injection Hq as <-.
  exists t0, (shape t0). split; [reflexivity|]. split; [reflexivity|].
  split; [|reflexivity].
  apply Forall_forall. intros t Ht. rewrite forallb_forall in Hall.
  apply shape_eqb_eq. exact (Hall t Ht).
Qed.

Lemma iterate_stack (ts : list Tensor) (y : Tensor) :
  stack ts = Ok y -> Forall sized ts -> iterate y = Ok ts.
Proof.
  intros Hst Hsz. apply stack_inv in Hst as (t0 & sh & _ & _ & Hsh & ->).
  unfold iterate. cbn [shape data]. f_equal.
  rewrite <- (app_nil_r (flat_map data ts)), (chunks_flat_map data (numel sh)).
  - rewrite map_map. rewrite <- (map_id ts) at 2. apply map_ext_in.
    intros t Ht. rewrite Forall_forall in Hsh. rewrite <- (Hsh t Ht).
    destruct t; reflexivity.
  - apply Forall_forall. intros t Ht. rewrite Forall_forall in Hsh, Hsz.
    rewrite <- (Hsh t Ht). exact (Hsz t Ht).
Qed.

Lemma initial_sized (self : GridTorch) (init h0 c0 : Tensor) :
  biases_sized self ->
  Linear_forward (state_embed self) init = Ok h0 ->
  Linear_forward (cell_embed self) init = Ok c0 ->
  all_sized (mkLoop h0 c0 [] [] [] [] []).
Proof.
  intros [Bse Bce _ _ _ _ _] Hh Hc.
  constructor; cbn [h_t c_t logits_hd logits_pc bottleneck_acts rnn_states cell_states];
    try constructor.
  - exact (Linear_forward_sized _ _ _ Hh Bse).
  - exact (Linear_forward_sized _ _ _ Hc Bce).
Qed.

(** X8.  The five sequences a forward call returns are consistent with
    each other: taken apart step by step, the logits of a step are the
    two heads applied to the bottleneck activation returned for that
    step -- the activation after dropout, so both heads see the same
    mask -- and in evaluation mode that activation is the bottleneck
    layer applied to the hidden state returned for the step. *)
Theorem forward_outputs_consistent (E : Entropy) (self : GridTorch) (x : Tensor)
  (initial_conds : list Tensor) (w w' : World) (o : Outs) :
  forward E self x initial_conds w = (Ok o, w') ->
  biases_sized self ->
  exists hs bs ps ds,
    iterate (out_rnn_states o) = Ok hs /\
    iterate (out_bottleneck_acts o) = Ok bs /\
    iterate (out_logits_pc o) = Ok ps /\
    iterate (out_logits_hd o) = Ok ds /\
    consistent self (training self) hs bs ps ds.
Proof.
  intros Hrun Hb.
  apply forward_ok_inv in Hrun
    as (B & init & h0 & c0 & xs & s & _ & _ & Hh0 & Hc0 & _ & Hloop & S1 & S2 & S3 & S4 & _).
  pose proof (loop_sized E self B xs Hb _ _ _ _ Hloop (initial_sized _ _ _ _ Hb Hh0 Hc0))
    as [_ _ Shd Spc Sba Shs _].
  exists (rnn_states s), (bottleneck_acts s), (logits_pc s), (logits_hd s).
  split; [exact (iterate_stack _ _ S4 Shs)|].
  split; [exact (iterate_stack _ _ S3 Sba)|].
  split; [exact (iterate_stack _ _ S2 Spc)|].
  split; [exact (iterate_stack _ _ S1 Shd)|].
  apply (loop_consistent E self B xs _ _ _ _ Hloop).
  constructor; cbn [logits_hd logits_pc bottleneck_acts rnn_states]; constructor.
Qed.

(** *** Prefixes of a sequence *)

Lemma chunks_firstn {A} k T n (l : list A) :
  k <= T -> chunks k n (firstn (k * n) l) = firstn k (chunks T n l).
Proof.
  revert T l. induction k as [|k IH]; intros T l HT; [reflexivity|].
  destruct T as [|T]; [lia|]. cbn [chunks firstn].
  rewrite firstn_firstn.
  replace (Nat.min n (S k * n)) with n by (simpl; lia).
  f_equal.
  replace (S k * n) with (n + k * n) by (simpl; lia).
  rewrite skipn_firstn_comm. replace (n + k * n - n) with (k * n) by lia.
  apply IH. lia.
Qed.

Lemma loop_app (E : Entropy) (self : GridTorch) B (xs1 xs2 : list Tensor) :
  forall s w,
    loop E self B (xs1 ++ xs2) s w =
    match loop E self B xs1 s w with
    | (Ok s1, w1) => loop E self B xs2 s1 w1
    | (Raise e, w1) => (Raise e, w1)
    end.
Proof.
  induction xs1 as [|t xs1 IH]; intros s w; cbn [app loop].
  - reflexivity.
  - unfold bind. destruct (step E self B t s w) as [[s1|e] w1]; [apply IH|reflexivity].
Qed.

Lemma loop_extends (E : Entropy) (self : GridTorch) B (xs : list Tensor) :
  forall s s' w w',
    loop E self B xs s w = (Ok s', w') ->
    exists d1 d2 d3 d4 d5,
      logits_hd s' = logits_hd s ++ d1 /\ logits_pc s' = logits_pc s ++ d2 /\
      bottleneck_acts s' = bottleneck_acts s ++ d3 /\
      rnn_states s' = rnn_states s ++ d4 /\ cell_states s' = cell_states s ++ d5.
Proof.
  induction xs as [|t xs IH]; intros s s' w w' Hrun.
  - cbn [loop] in Hrun. unfold ret in Hrun. injection Hrun as <- _.
    exists [], [], [], [], []. rewrite !app_nil_r. repeat split; reflexivity.
  - apply loop_cons_ok in Hrun as (s1 & w1 & Hstep & Hloop).
    apply step_inv in Hstep as (inp & r & b & ba & pc & hd & _ & _ & _ & _ & _ & _ & ->).
    apply IH in Hloop as (d1 & d2 & d3 & d4 & d5 & H1 & H2 & H3 & H4 & H5).
    cbn [logits_hd logits_pc bottleneck_acts rnn_states cell_states] in *.
    rewrite <- app_assoc in H1, H2, H3, H4, H5. eauto 10.
Qed.

Lemma loop_length (E : Entropy) (self : GridTorch) B (xs : list Tensor) :
  forall s s' w w',
    loop E self B xs s w = (Ok s', w') ->
    length (logits_hd s') = length (logits_hd s) + length xs /\
    length (logits_pc s') = length (logits_pc s) + length xs /\
    length (bottleneck_acts s') = length (bottleneck_acts s) + length xs /\
    length (rnn_states s') = length (rnn_states s) + length xs /\
    length (cell_states s') = length (cell_states s) + length xs.
Proof.
  induction xs as [|t xs IH]; intros s s' w w' Hrun.
  - cbn [loop] in Hrun. unfold ret in Hrun. injection Hrun as <- _.
    cbn [length]. rewrite !Nat.add_0_r. repeat split; reflexivity.
  - apply loop_cons_ok in Hrun as (s1 & w1 & Hstep & Hloop).
    apply step_inv in Hstep as (inp & r & b & ba & pc & hd & _ & _ & _ & _ & _ & _ & ->).
    apply IH in Hloop as (H1 & H2 & H3 & H4 & H5).
    cbn [logits_hd logits_pc bottleneck_acts rnn_states cell_states] in *.
    rewrite length_app in H1, H2, H3, H4, H5. cbn [length] in *.
    repeat split; lia.
Qed.

Lemma stack_prefix (l1 l2 : list Tensor) (y : Tensor) :
  stack (l1 ++ l2) = Ok y -> l1 <> [] -> Forall sized l1 ->
  stack l1 = Ok (narrow (length l1) y).
Proof.
  intros Hst Hne Hsz.
  apply stack_inv in Hst as (t0 & sh & Ht0 & Hsh0 & Hsh & ->).
  destruct l1 as [|t1 l1]; [contradiction|].
  cbn [app hd_error] in Ht0. injection Ht0 as ->.
  apply Forall_app in Hsh as [Hsh1 _].
  unfold stack.
  assert (Hall : forallb (fun t => shape_eqb (shape t) (shape t0)) (t0 :: l1) = true).
  { apply forallb_forall. intros t Ht. apply shape_eqb_eq.
    rewrite Forall_forall in Hsh1. rewrite (Hsh1 t Ht). exact Hsh0. }
  rewrite Hall. f_equal. unfold narrow. cbn [shape data hd tl].
  rewrite length_app, Nat.min_l by lia. rewrite <- Hsh0. f_equal.
  rewrite flat_map_app.
  assert (Hlen : length (flat_map data (t0 :: l1)) = length (t0 :: l1) * numel sh).
  { apply flat_map_sized. apply Forall_forall. intros t Ht.
    rewrite Forall_forall in Hsh1, Hsz. rewrite <- (Hsh1 t Ht). exact (Hsz t Ht). }
  rewrite <- Hlen, firstn_app, firstn_all, Nat.sub_diag. cbn [firstn].
  rewrite app_nil_r. reflexivity.
Qed.

(** X9.  The recurrence is causal: when a forward call on a sequence
    returns, the call on the first [k] steps of the sequence, from the
    same generator position, returns as well, and each of its five
    sequences is the first [k] steps of the corresponding sequence of the
    full call.  What is computed for a step depends on the steps before
    it only. *)
Theorem forward_prefix (E : Entropy) (self : GridTorch) (x : Tensor)
  (initial_conds : list Tensor) (w w' : World) (o : Outs) (k : nat) :
  forward E self x initial_conds w = (Ok o, w') ->
  biases_sized self ->
  1 <= k -> k <= hd 0 (shape x) ->
  exists o_k w_k,
    forward E self (narrow k x) initial_conds w = (Ok o_k, w_k) /\
    out_logits_hd o_k = narrow k (out_logits_hd o) /\
    out_logits_pc o_k = narrow k (out_logits_pc o) /\
    out_bottleneck_acts o_k = narrow k (out_bottleneck_acts o) /\
    out_rnn_states o_k = narrow k (out_rnn_states o) /\
    out_cell_states o_k = narrow k (out_cell_states o).
Proof.
  intros Hrun Hb Hk1 HkT.
  apply forward_ok_inv in Hrun
    as (B & init & h0 & c0 & xs & s & HB & Hcat & Hh0 & Hc0 & Hxs & Hloop
        & S1 & S2 & S3 & S4 & S5).
  apply shape_at_1_ok in HB as (T & d & Hx). rewrite Hx in HkT. cbn [hd] in HkT.
  unfold iterate in Hxs. rewrite Hx in Hxs. injection Hxs as <-.
  change (B * numel d) with (numel (B :: d)) in Hloop.
  remember (map (mkTensor (B :: d)) (chunks T (numel (B :: d)) (data x))) as xs eqn:Exs.
  assert (Hlen : length xs = T) by (subst xs; rewrite length_map; apply chunks_length).
  assert (Hit : iterate (narrow k x) = Ok (firstn k xs)).
  { unfold iterate, narrow. rewrite Hx. cbn [hd tl shape data].
    rewrite Nat.min_l by exact HkT. subst xs.
    rewrite firstn_map, (chunks_firstn k T) by exact HkT. reflexivity. }
  rewrite <- (firstn_skipn k xs), loop_app in Hloop.
  destruct (loop E self B (firstn k xs) _ w) as [[s1|e] w1] eqn:Hloop1; [|discriminate].
  pose proof (loop_sized E self B _ Hb _ _ _ _ Hloop1
                (initial_sized _ _ _ _ Hb Hh0 Hc0)) as [_ _ Shd Spc Sba Shs Scs].
  destruct (loop_length E self B _ _ _ _ _ Hloop1) as (L1 & L2 & L3 & L4 & L5).
  rewrite length_firstn, Hlen, Nat.min_l in L1, L2, L3, L4, L5 by exact HkT.
  cbn [logits_hd logits_pc bottleneck_acts rnn_states cell_states length Nat.add]
    in L1, L2, L3, L4, L5.
  destruct (loop_extends E self B _ _ _ _ _ Hloop)
    as (d1 & d2 & d3 & d4 & d5 & X1 & X2 & X3 & X4 & X5).
  rewrite X1 in S1. rewrite X2 in S2. rewrite X3 in S3. rewrite X4 in S4.
  rewrite X5 in S5.
  assert (Hne : forall l : list Tensor, length l = k -> l <> []).
  { intros l Hl ->. cbn in Hl. lia. }
  apply stack_prefix in S1; [|auto|exact Shd].
  apply stack_prefix in S2; [|auto|exact Spc].
  apply stack_prefix in S3; [|auto|exact Sba].
  apply stack_prefix in S4; [|auto|exact Shs].
  apply stack_prefix in S5; [|auto|exact Scs].
  rewrite L1 in S1. rewrite L2 in S2. rewrite L3 in S3. rewrite L4 in S4.
  rewrite L5 in S5.
  unfold forward, bind, lift.
  assert (HB' : shape_at (narrow k x) 1 = Ok B).
  { unfold shape_at, narrow. rewrite Hx. reflexivity. }
  rewrite HB', Hcat, Hh0, Hc0, Hit, Hloop1, S1, S2, S3, S4, S5.
  unfold ret. eexists. eexists. split; [reflexivity|].
  cbn [out_logits_hd out_logits_pc out_bottleneck_acts out_rnn_states out_cell_states].
  repeat split; reflexivity.
Qed.

(** *** Draws of a forward call *)

Lemma step_draws (E : Entropy) (self : GridTorch) B (t : Tensor) (s s' : Loop) w w' :
  step E self B t s w = (Ok s', w') ->
  training self = true ->
  fltb (fconst 0) (rate (dropout self)) = true ->
  fltb (rate (dropout self)) (fconst 1) = true ->
  exists ba,
    bottleneck_acts s' = bottleneck_acts s ++ [ba] /\
    cursor w' = cursor w + numel (shape ba) /\ reads w' = reads w.
Proof.
  intros Hrun Htr Hp0 Hp1.
  apply step_inv in Hrun as (inp & r & b & ba & pc & hd & _ & _ & _ & Hdr & _ & _ & ->).
  exists ba. split; [reflexivity|].
  unfold Dropout_forward in Hdr. rewrite Htr, Hp0, Hp1 in Hdr. cbn [negb orb] in Hdr.
  destruct (numel (shape b) =? 0) eqn:Hn.
  - unfold ret in Hdr. injection Hdr as <- <-. apply Nat.eqb_eq in Hn. rewrite Hn.
    split; [lia|reflexivity].
  - injection Hdr as <- <-. cbn [shape advance cursor reads]. split; reflexivity.
Qed.

Lemma loop_draws (E : Entropy) (self : GridTorch) B (xs : list Tensor) :
  training self = true ->
  fltb (fconst 0) (rate (dropout self)) = true ->
  fltb (rate (dropout self)) (fconst 1) = true ->
  forall s s' w w',
    loop E self B xs s w = (Ok s', w') ->
    exists d,
      bottleneck_acts s' = bottleneck_acts s ++ d /\
      cursor w' = cursor w + list_sum (map (fun t => numel (shape t)) d) /\
      reads w' = reads w.
Proof.
  intros Htr Hp0 Hp1. induction xs as [|t xs IH]; intros s s' w w' Hrun.
  - cbn [loop] in Hrun. unfold ret in Hrun. injection Hrun as <- <-.
    exists []. rewrite app_nil_r. cbn. split; [reflexivity|]. split; [lia|reflexivity].
  - apply loop_cons_ok in Hrun as (s1 & w1 & Hstep & Hloop).
    destruct (step_draws _ _ _ _ _ _ _ _ Hstep Htr Hp0 Hp1) as (ba & Hba & Hc & Hr).
    destruct (IH _ _ _ _ Hloop) as (d & Hd & Hc' & Hr').
    exists (ba :: d). rewrite Hd, Hba, <- app_assoc. split; [reflexivity|].
    cbn [map list_sum fold_right]. split; [|congruence].
    change (fold_right Nat.add 0 (map (fun t => numel (shape t)) d))
      with (list_sum (map (fun t => numel (shape t)) d)).
    lia.
Qed.

Lemma list_sum_const (l : list Tensor) :
  Forall (fun t => shape t = shape (hd (mkTensor [] []) l)) l ->
  list_sum (map (fun t => numel (shape t)) l) =
  length l * numel (shape (hd (mkTensor [] []) l)).
Proof.
  generalize (shape (hd (mkTensor [] []) l)). intros sh.
  induction 1 as [|t l Ht _ IH]; [reflexivity|].
  cbn [map list_sum fold_right length].
  change (fold_right Nat.add 0 (map (fun t => numel (shape t)) l))
    with (list_sum (map (fun t => numel (shape t)) l)).
  rewrite IH, Ht. simpl. reflexivity.
Qed.

(** X10.  In training mode with a dropout rate strictly between 0 and 1, a
    forward call that returns has drawn one Bernoulli sample for every
    element of the bottleneck activations it returns and nothing else:
    the generator has advanced by that number of positions, and no file
    has been read. *)
Theorem forward_training_draws (E : Entropy) (self : GridTorch) (x : Tensor)
  (initial_conds : list Tensor) (w w' : World) (o : Outs) :
  forward E self x initial_conds w = (Ok o, w') ->
  training self = true ->
  fltb (fconst 0) (rate (dropout self)) = true ->
  fltb (rate (dropout self)) (fconst 1) = true ->
  cursor w' = cursor w + numel (shape (out_bottleneck_acts o)) /\
  reads w' = reads w.
Proof.
  intros Hrun Htr Hp0 Hp1.
  apply forward_ok_inv in Hrun
    as (B & init & h0 & c0 & xs & s & _ & _ & _ & _ & _ & Hloop & _ & _ & S3 & _).
  destruct (loop_draws E self B xs Htr Hp0 Hp1 _ _ _ _ Hloop) as (d & Hd & Hc & Hr).
  cbn [bottleneck_acts app] in Hd. rewrite Hd in S3.
  apply stack_inv in S3 as (t0 & sh & Ht0 & Hsh0 & Hsh & ->).
  split; [|exact Hr]. rewrite Hc. f_equal. cbn [shape].
  destruct d as [|t1 d]; [discriminate Ht0|]. cbn [hd_error] in Ht0. injection Ht0 as ->.
  rewrite list_sum_const.
  - cbn [hd]. rewrite <- Hsh0. unfold numel. reflexivity.
  - cbn [hd]. rewrite <- Hsh0. exact Hsh.
Qed.

(** ** Further properties: loading *)

Lemma load_outcome_any_model (fs : Files) loc (self self' : GridTorch) w w' :
  fst (init_weights_from_file fs loc (self', w')) =
  fst (init_weights_from_file fs loc (self, w)).
Proof.
  unfold init_weights_from_file, bind.
  do 11 (rewrite ?param_run;
         match goal with |- context [fs ?p] => destruct (fs p) end;
         cbv beta iota; unfold assign, modify; cbv beta iota; cbn [fst snd];
         [|reflexivity]).
  unfold lift. destruct (transpose_1_0 _); reflexivity.
Qed.

Lemma transpose_1_0_ok (t : Tensor) :
  (exists wt, transpose_1_0 t = Ok wt) <-> 2 <= length (shape t).
Proof.
  unfold transpose_1_0. destruct (shape t) as [|d0 [|d1 rest]]; cbn [length]; split.
  - intros [wt Hq]. discriminate.
  - lia.
  - intros [wt Hq]. discriminate.
  - lia.
  - lia.
  - intros _. eexists. reflexivity.
Qed.

Lemma gates_in_weight_files (loc : string) :
  In (String.append loc "grid_cells_core_lstm_w_gates_0.npy") (weight_files loc).
Proof. unfold weight_files. cbn [map In]. tauto. Qed.

(** X11.  The load succeeds exactly when the eleven files exist and the
    array of gate weights has at least two dimensions.  No array is
    compared with the layer it is assigned to: the outcome is the same
    whatever the model the files are loaded into. *)
Theorem load_succeeds_iff_files_present (fs : Files) (loc : string)
  (self : GridTorch) (w : World) :
  (fst (init_weights_from_file fs loc (self, w)) = Ok tt <->
   (forall p, In p (weight_files loc) -> exists a, fs p = Some a) /\
   (forall a, fs (String.append loc "grid_cells_core_lstm_w_gates_0.npy") = Some a ->
      2 <= length (shape a))) /\
  (forall (self' : GridTorch) (w' : World),
     fst (init_weights_from_file fs loc (self', w')) =
     fst (init_weights_from_file fs loc (self, w))).
Proof.
  split; [|intros self' w'; apply load_outcome_any_model].
  split.
  - intros Hok.
    destruct (init_weights_from_file fs loc (self, w)) as [r [self1 w1]] eqn:Hrun.
    cbn [fst] in Hok. subst r.
    apply load_ok_inv in Hrun as (Hall & wt & Hwt & _).
    split.
    + intros p Hp. specialize (Hall p Hp). unfold absent in Hall.
      destruct (fs p) as [a|]; [eexists; reflexivity|discriminate].
    + intros a Ha. unfold file_T in Hwt. rewrite Ha in Hwt.
      assert (Hlen : 2 <= length (shape (torch_Tensor (T a))))
        by (apply transpose_1_0_ok; eexists; exact Hwt).
      unfold torch_Tensor, T in Hlen. cbn [shape] in Hlen. rewrite length_rev in Hlen. exact Hlen.
  - intros [Hall Hg].
    assert (Hpres : forall p, In p (weight_files loc) -> absent fs p = false).
    { intros p Hp. destruct (Hall p Hp) as [a Ha]. unfold absent. rewrite Ha. reflexivity. }
    rewrite (load_run_present fs loc self w Hpres).
    destruct (Hall _ (gates_in_weight_files loc)) as [a Ha].
    assert (Hlen : 2 <= length (shape (file_T fs loc "grid_cells_core_lstm_w_gates_0.npy"))).
    { unfold file_T. rewrite Ha. unfold torch_Tensor, T. cbn [shape]. rewrite length_rev.
      exact (Hg a Ha). }
    apply transpose_1_0_ok in Hlen as [wt ->]. reflexivity.
Qed.

Ltac found fs :=
  repeat match goal with
         | Hq : fs ?p = _ |- context [fs ?p] => rewrite Hq
         end.

(** X12.  A load that fails has already made the assignments that precede
    the failure: when the first absent file is the [n]-th the load reads,
    the model is left with the first [n] (at most nine) of the assignments
    to the linear layers made and the others not; when the gate weights
    cannot be transposed all nine are made.  The recurrent module is as it
    was. *)
Theorem failed_load_keeps_earlier_assignments (fs : Files) (loc : string)
  (self : GridTorch) (w : World) (e : exn) :
  fst (init_weights_from_file fs loc (self, w)) = Raise e ->
  fst (snd (init_weights_from_file fs loc (self, w))) =
    assigned fs loc (before (absent fs) (weight_files loc)) self /\
  lstm (fst (snd (init_weights_from_file fs loc (self, w)))) = lstm self.
Proof.
  unfold init_weights_from_file, bind, weight_files.
  cbn [map before]. unfold absent.
  do 11 (next_file fs;
    [ | intros _; unfold assigned, linear_assignments;
        cbn [firstn fold_left fst snd]; unfold file_T; found fs;
        split; reflexivity ]).
  unfold lift. destruct (transpose_1_0 _); cbv beta iota; cbn [fst snd].
  - discriminate.
  - intros _. unfold assigned, linear_assignments.
    cbn [firstn fold_left fst snd]. unfold file_T. found fs. split; reflexivity.
Qed.

(** X13.  Besides tensors a load changes one thing, the attribute [bias] of
    the recurrent module: a successful load has replaced the flag by the
    tensor of gate biases, a failed one has left it as it was (the
    assignment is the last statement).  Whatever the outcome, the model
    stays in the mode it was in (a freshly built one is in training mode,
    with dropout active), and the dropout rate, the stored target
    ensembles and the sizes recorded in the layers ([in_features],
    [out_features], [input_size], [hidden_size]) are as before, also when
    the arrays assigned have other shapes. *)
Theorem load_keeps_mode_and_sizes (fs : Files) (loc : string) (self : GridTorch)
  (w : World) :
  let self1 := fst (snd (init_weights_from_file fs loc (self, w))) in
  training self1 = training self /\
  dropout self1 = dropout self /\
  self_target_ensembles self1 = self_target_ensembles self /\
  map (fun l : Linear => (in_features l, out_features l))
      [state_embed self1; cell_embed self1; bottleneck self1; pc_logits self1;
       hd_logits self1] =
  map (fun l : Linear => (in_features l, out_features l))
      [state_embed self; cell_embed self; bottleneck self; pc_logits self;
       hd_logits self] /\
  input_size (lstm self1) = input_size (lstm self) /\
  hidden_size (lstm self1) = hidden_size (lstm self) /\
  (fst (init_weights_from_file fs loc (self, w)) = Ok tt ->
   lstm_bias (lstm self1) =
     bias_Parameter (file_T fs loc "grid_cells_core_lstm_b_gates_0.npy")) /\
  (fst (init_weights_from_file fs loc (self, w)) <> Ok tt ->
   lstm_bias (lstm self1) = lstm_bias (lstm self)).
Proof.
  cbv zeta. unfold init_weights_from_file, bind.
  do 11 (rewrite ?param_run;
         match goal with |- context [fs ?p] => destruct (fs p) eqn:? end;
         cbv beta iota; unfold assign, modify; cbv beta iota; cbn [fst snd];
         [|do 6 (split; [reflexivity|]);
           split; [intros Hq; discriminate Hq|intros _; reflexivity]]).
  unfold lift. destruct (transpose_1_0 _); cbv beta iota; cbn [fst snd];
    do 6 (split; [reflexivity|]).
  - split; [intros _|intros Hq; exfalso; apply Hq; reflexivity].
    unfold on_lstm, set_lstm_bias, set_lstm_weight. cbn [lstm lstm_bias].
    unfold file_T.
    repeat match goal with Hf : fs _ = Some _ |- _ => rewrite Hf; clear Hf end.
    reflexivity.
  - split; [intros Hq; discriminate Hq|intros _; reflexivity].
Qed.

(** *** Transposition *)

Lemma chunks_spec {A} k n (l : list A) :
  chunks k n l = map (fun i => firstn n (skipn (i * n) l)) (seq 0 k).
Proof.
  revert l. induction k as [|k IH]; intros l; [reflexivity|].
  cbn [chunks seq map]. f_equal. rewrite IH, <- seq_shift, map_map.
  apply map_ext. intros i. rewrite skipn_skipn. f_equal. f_equal. simpl. lia.
Qed.

Lemma heads_spec {A} (d : A) (rows : list (list A)) :
  Forall (fun row => 1 <= length row) rows ->
  flat_map (firstn 1) rows = map (fun row => nth 0 row d) rows.
Proof.
  induction 1 as [|row rows Hrow _ IH]; [reflexivity|].
  cbn [flat_map map]. rewrite IH.
  destruct row as [|a row]; [cbn in Hrow; lia|]. reflexivity.
Qed.

Lemma transpose_rows_spec {A} (d : A) c (rows : list (list A)) :
  Forall (fun row => c <= length row) rows ->
  transpose_rows c rows = map (fun j => map (fun row => nth j row d) rows) (seq 0 c).
Proof.
  revert rows. induction c as [|c IH]; intros rows Hrows; [reflexivity|].
  cbn [transpose_rows seq map]. f_equal.
  - apply heads_spec. eapply Forall_impl; [|exact Hrows]. cbn beta. intros; lia.
  - rewrite IH, <- seq_shift, map_map.
    + apply map_ext. intros j. rewrite map_map. apply map_ext. intros row.
      rewrite nth_skipn. reflexivity.
    + apply Forall_forall. intros row Hrow. apply in_map_iff in Hrow as (row' & <- & Hin).
      rewrite Forall_forall in Hrows. specialize (Hrows row' Hin).
      rewrite length_skipn. lia.
Qed.

Lemma column_spec {A} (d : A) r c j (l : list A) :
  j < c ->
  map (fun row => nth j row d) (chunks r c l) =
  map (fun i => nth (i * c + j) l d) (seq 0 r).
Proof.
  intros Hj. rewrite chunks_spec, map_map. apply map_ext. intros i.
  rewrite nth_firstn, nth_skipn.
  destruct (j <? c) eqn:Hlt; [reflexivity|]. apply Nat.ltb_ge in Hlt. lia.
Qed.

Lemma singletons_spec (l : list F) :
  flat_map (firstn 1) (chunks (length l) 1 l) = l.
Proof.
  induction l as [|a l IH]; [reflexivity|].
  cbn [length chunks flat_map skipn]. rewrite IH. reflexivity.
Qed.

Lemma T_data_vector (n : nat) (row : list F) : length row = n -> T_data [n] row = row.
Proof.
  intros <-. cbn [T_data]. change (numel []) with 1. cbn [transpose_rows concat].
  rewrite map_id, app_nil_r. apply singletons_spec.
Qed.

Lemma flat_map_ext_in {A B} (f g : A -> list B) (l : list A) :
  (forall a, In a l -> f a = g a) -> flat_map f l = flat_map g l.
Proof.
  intros Hfg. rewrite !flat_map_concat_map. f_equal. apply map_ext_in. exact Hfg.
Qed.

Lemma T_data_matrix (r c : nat) (d : list F) :
  length d = r * c -> T_data [r; c] d = transposed r c d.
Proof.
  intros Hd. cbn [T_data].
  replace (numel [c]) with c by (unfold numel; simpl; lia).
  assert (Hrows : Forall (fun row => length row = c) (chunks r c d))
    by (apply chunks_sized; lia).
  rewrite (map_ext_in (fun d0 => concat (transpose_rows (numel []) (map (fun d1 => d1)
                                  (chunks c (numel []) d0)))) (fun row => row)).
  - rewrite map_id, (transpose_rows_spec (fconst 0)).
    + unfold transposed. rewrite flat_map_concat_map. f_equal.
      apply map_ext_in. intros j Hj. apply in_seq in Hj. apply column_spec. lia.
    + eapply Forall_impl; [|exact Hrows]. cbn beta. intros row ->. lia.
  - intros row Hrow. rewrite Forall_forall in Hrows.
    exact (T_data_vector c row (Hrows row Hrow)).
Qed.

Lemma nth_singletons k m (l : list F) :
  m < k -> nth m (chunks k 1 l) [] = firstn 1 (skipn m l).
Proof.
  intros Hm. rewrite chunks_spec.
  rewrite (nth_indep _ [] (firstn 1 (skipn (0 * 1) l))) by (rewrite length_map, length_seq; lia).
  rewrite (map_nth (fun i => firstn 1 (skipn (i * 1) l))), seq_nth by lia.
  rewrite Nat.mul_1_r. reflexivity.
Qed.

Lemma concat_singletons {A B} (g : A -> B) (l : list A) :
  concat (map (fun i => [g i]) l) = map g l.
Proof. induction l as [|a l IH]; [reflexivity|]. cbn. rewrite IH. reflexivity. Qed.

Lemma concat_blocks {A B C} (g : A -> B -> C) (l1 : list A) (l2 : list B) :
  concat (concat (map (fun j => map (fun i => [g j i]) l2) l1)) =
  flat_map (fun j => map (g j) l2) l1.
Proof.
  induction l1 as [|a l1 IH]; [reflexivity|].
  cbn [map concat flat_map]. rewrite concat_app, IH, concat_singletons. reflexivity.
Qed.

Lemma firstn_1_skipn (m : nat) (l : list F) :
  m < length l -> firstn 1 (skipn m l) = [nth m l (fconst 0)].
Proof.
  revert l. induction m as [|m IH]; intros [|a l] Hm; cbn in Hm; try lia.
  - reflexivity.
  - cbn [skipn nth]. apply IH. lia.
Qed.

Lemma transpose_1_0_matrix (t : Tensor) (r c : nat) :
  shape t = [r; c] -> sized t ->
  transpose_1_0 t = Ok (mkTensor [c; r] (transposed r c (data t))).
Proof.
  unfold sized, transpose_1_0. intros Hs Hd. rewrite Hs in *.
  replace (numel [r; c]) with (r * c) in Hd by (unfold numel; simpl; lia).
  change (numel []) with 1. f_equal. f_equal.
  rewrite (transpose_rows_spec []).
  - rewrite (map_ext_in _ (fun j => map (fun i => [nth (i * c + j) (data t) (fconst 0)])
                                        (seq 0 r))).
    + apply (concat_blocks (fun j i => nth (i * c + j) (data t) (fconst 0))).
    + intros j Hj. apply in_seq in Hj. rewrite column_spec by lia.
      apply map_ext_in. intros i Hi. apply in_seq in Hi.
      assert (Hlt : i * c + j < r * c) by nia.
      rewrite nth_singletons by exact Hlt. apply firstn_1_skipn. lia.
  - eapply Forall_impl; [|apply chunks_sized; rewrite chunks_length; lia].
    cbn beta. intros row ->. lia.
Qed.

Lemma nth_blocks {A} (f : nat -> list A) (n : nat) (d : A) :
  (forall j, length (f j) = n) ->
  forall k s j i,
    j < k -> i < n -> nth (j * n + i) (flat_map f (seq s k)) d = nth i (f (s + j)) d.
Proof.
  intros Hf. induction k as [|k IH]; intros s j i Hj Hi; [lia|].
  cbn [seq flat_map]. destruct j as [|j].
  - rewrite app_nth1 by (rewrite Hf; simpl; lia). rewrite Nat.add_0_r. reflexivity.
  - replace (S j * n + i) with (length (f s) + (j * n + i)) by (rewrite Hf; simpl; lia).
    rewrite app_nth2_plus, IH by lia. f_equal. f_equal. lia.
Qed.

Lemma nth_transposed (r c : nat) (d : list F) (i j : nat) :
  i < r -> j < c ->
  nth (j * r + i) (transposed r c d) (fconst 0) = nth (i * c + j) d (fconst 0).
Proof.
  intros Hi Hj. unfold transposed.
  rewrite (nth_blocks _ r) by (try lia; intros; rewrite length_map, length_seq; reflexivity).
  rewrite (nth_indep _ _ (nth (0 * c + (0 + j)) d (fconst 0)))
    by (rewrite length_map, length_seq; lia).
  rewrite (map_nth (fun i0 => nth (i0 * c + (0 + j)) d (fconst 0))), seq_nth by lia.
  reflexivity.
Qed.

Lemma rows_concat (r c : nat) (d : list F) :
  length d = r * c ->
  flat_map (fun i => map (fun j => nth (i * c + j) d (fconst 0)) (seq 0 c)) (seq 0 r) = d.
Proof.
  revert d. induction r as [|r IH]; intros d Hd.
  - destruct d; [reflexivity|discriminate].
  - cbn [seq flat_map]. rewrite <- seq_shift, flat_map_concat_map, map_map,
      <- flat_map_concat_map.
    transitivity (firstn c d ++ skipn c d); [|apply firstn_skipn]. f_equal.
    + apply (nth_ext _ _ (fconst 0) (fconst 0)).
      * rewrite length_map, length_seq, length_firstn. simpl in Hd. lia.
      * intros n Hn. rewrite length_map, length_seq in Hn.
        rewrite (nth_indep _ _ (nth (0 * c + 0) d (fconst 0)))
          by (rewrite length_map, length_seq; lia).
        rewrite (map_nth (fun j => nth (0 * c + j) d (fconst 0))), seq_nth by lia.
        rewrite nth_firstn. destruct (n <? c) eqn:Hlt; [reflexivity|].
        apply Nat.ltb_ge in Hlt. lia.
    + rewrite <- (IH (skipn c d)) at 1 by (rewrite length_skipn; simpl in Hd; lia).
      symmetry. apply flat_map_ext. intros i. apply map_ext. intros j.
      rewrite nth_skipn. f_equal. simpl. lia.
Qed.

Lemma transposed_length (r c : nat) (d : list F) : length (transposed r c d) = c * r.
Proof.
  unfold transposed. rewrite (flat_map_sized _ r).
  - rewrite length_seq. reflexivity.
  - apply Forall_forall. intros j _. rewrite length_map, length_seq. reflexivity.
Qed.

Lemma transposed_involutive (r c : nat) (d : list F) :
  length d = r * c -> transposed c r (transposed r c d) = d.
Proof.
  intros Hd. rewrite <- (rows_concat r c d Hd) at 2. unfold transposed at 1.
  apply flat_map_ext_in. intros i Hi. apply in_seq in Hi.
  apply map_ext_in. intros j Hj. apply in_seq in Hj.
  apply nth_transposed; lia.
Qed.

Lemma T_vector (a : Tensor) (n : nat) : shape a = [n] -> sized a -> T a = a.
Proof.
  destruct a as [s d]. unfold sized, T. cbn [shape data]. intros -> Hd.
  cbn [rev app]. f_equal. apply T_data_vector.
  rewrite Hd. unfold numel. simpl. lia.
Qed.

Lemma T_matrix (a : Tensor) (r c : nat) :
  shape a = [r; c] -> sized a -> T a = mkTensor [c; r] (transposed r c (data a)).
Proof.
  destruct a as [s d]. unfold sized, T. cbn [shape data]. intros -> Hd.
  cbn [rev app]. f_equal. apply T_data_matrix.
  rewrite Hd. unfold numel. simpl. lia.
Qed.

Lemma T_involutive (t : Tensor) (r c : nat) :
  shape t = [r; c] -> sized t -> T (T t) = t.
Proof.
  intros Hs Hd. rewrite (T_matrix t r c Hs Hd).
  rewrite (T_matrix (mkTensor [c; r] (transposed r c (data t))) c r eq_refl).
  - cbn [data]. rewrite transposed_involutive.
    + destruct t as [s d]. cbn [shape data] in *. subst s. reflexivity.
    + unfold sized in Hd. rewrite Hs in Hd. rewrite Hd. unfold numel. simpl. lia.
  - unfold sized. cbn [shape data]. rewrite transposed_length. unfold numel. simpl. lia.
Qed.

Lemma transposed_map (f : F -> F) (r c : nat) (d : list F) :
  length d = r * c -> transposed r c (map f d) = map f (transposed r c d).
Proof.
  intros Hd. unfold transposed.
  rewrite flat_map_concat_map, (flat_map_concat_map _ (seq 0 c)), concat_map, map_map.
  f_equal. apply map_ext_in. intros j Hj. apply in_seq in Hj.
  rewrite map_map. apply map_ext_in. intros i Hi. apply in_seq in Hi.
  rewrite (nth_indep _ (fconst 0) (f (fconst 0))) by (rewrite length_map, Hd; nia).
  apply map_nth.
Qed.

Lemma transposed_In (r c : nat) (d : list F) (x : F) :
  length d = r * c -> In x (transposed r c d) -> In x d.
Proof.
  intros Hd Hx. unfold transposed in Hx.
  apply in_flat_map in Hx as (j & Hj & Hx). apply in_seq in Hj.
  apply in_map_iff in Hx as (i & <- & Hi). apply in_seq in Hi.
  apply nth_In. rewrite Hd. nia.
Qed.

Lemma map_fixed (f : F -> F) (d : list F) :
  (forall x, In x d -> f x = x) -> map f d = d.
Proof. intros Hf. rewrite (map_ext_in f (fun x => x) d Hf). apply map_id. Qed.

(** X14.  [load_tf_param] logs the path it reads and returns the array with
    its axes reversed and its elements converted to single precision: a
    vector in the order it is stored, an [r] by [c] matrix as the [c] by
    [r] matrix whose entry [(j, i)] is the converted entry [(i, j)] of
    the file.  Reversing the axes twice gives the matrix back, so a file
    that holds the transpose of a parameter is loaded as that parameter,
    converted.  The values come back as they are stored only when the
    conversion leaves each of them as it is. *)
Theorem load_tf_param_transposes (fs : Files) (p : string) (w : World) (a : Tensor) :
  fs p = Some a -> sized a ->
  snd (load_tf_param fs p w) = log_read p w /\
  (forall n, shape a = [n] -> fst (load_tf_param fs p w) = Ok (torch_Tensor a)) /\
  (forall r c, shape a = [r; c] ->
     fst (load_tf_param fs p w) =
       Ok (mkTensor [c; r] (map ffloat32 (transposed r c (data a)))) /\
     forall i j, i < r -> j < c ->
       nth (j * r + i) (map ffloat32 (transposed r c (data a))) (fconst 0) =
       ffloat32 (nth (i * c + j) (data a) (fconst 0))) /\
  (forall t r c, shape t = [r; c] -> sized t -> a = T t ->
     fst (load_tf_param fs p w) = Ok (torch_Tensor t)) /\
  ((forall x, In x (data a) -> ffloat32 x = x) ->
   (forall n, shape a = [n] -> fst (load_tf_param fs p w) = Ok a) /\
   (forall r c, shape a = [r; c] ->
      fst (load_tf_param fs p w) = Ok (mkTensor [c; r] (transposed r c (data a))))).
Proof.
  intros Ha Hd.
  assert (Hrun : load_tf_param fs p w = (Ok (torch_Tensor (T a)), log_read p w)).
  { unfold load_tf_param, np_load, bind, ret. rewrite Ha. reflexivity. }
  rewrite Hrun. cbn [fst snd]. split; [reflexivity|].
  assert (Hlen : forall r c, shape a = [r; c] -> length (data a) = r * c).
  { intros r c Hs. unfold sized in Hd. rewrite Hs in Hd. rewrite Hd.
    unfold numel. simpl. lia. }
  split; [|split; [|split]].
  - intros n Hs. rewrite (T_vector a n Hs Hd). reflexivity.
  - intros r c Hs. split.
    + rewrite (T_matrix a r c Hs Hd). reflexivity.
    + intros i j Hi Hj.
      rewrite (nth_indep _ (fconst 0) (ffloat32 (fconst 0)))
        by (rewrite length_map, transposed_length; nia).
      rewrite map_nth. f_equal. apply nth_transposed; assumption.
  - intros t r c Hs Ht ->. rewrite (T_involutive t r c Hs Ht). reflexivity.
  - intros Hfix. split.
    + intros n Hs. rewrite (T_vector a n Hs Hd). unfold torch_Tensor.
      rewrite (map_fixed ffloat32 (data a) Hfix). destruct a; reflexivity.
    + intros r c Hs. rewrite (T_matrix a r c Hs Hd). unfold torch_Tensor.
      cbn [shape data]. rewrite map_fixed; [reflexivity|].
      intros x Hx. apply Hfix. exact (transposed_In r c (data a) x (Hlen r c Hs) Hx).
Qed.

(** X15.  The gate weights are transposed twice, once by [.T] and once by
    [.transpose(1, 0)]: after a successful load of a directory whose
    array of gate weights is a matrix, the attribute [weight] of the
    recurrent module holds that array in the orientation in which it is
    stored, its elements converted to single precision. *)
Theorem gate_weights_transposed_twice (fs : Files) (loc : string) (self : GridTorch)
  (w : World) (a : Tensor) (r c : nat) :
  fs (String.append loc "grid_cells_core_lstm_w_gates_0.npy") = Some a ->
  shape a = [r; c] -> sized a ->
  fst (init_weights_from_file fs loc (self, w)) = Ok tt ->
  lstm_weight (lstm (fst (snd (init_weights_from_file fs loc (self, w))))) =
    Some (torch_Tensor a).
Proof.
  intros Ha Hs Hd Hok.
  destruct (init_weights_from_file fs loc (self, w)) as [res [self1 w1]] eqn:Hrun.
  cbn [fst snd] in *. subst res.
  apply load_ok_inv in Hrun as (_ & wt & Hwt & -> & _).
  unfold loaded. cbn [lstm on_lstm set_lstm_bias set_lstm_weight lstm_weight].
  f_equal. unfold file_T in Hwt. rewrite Ha in Hwt.
  assert (Hlen : length (data a) = r * c).
  { unfold sized in Hd. rewrite Hs in Hd. rewrite Hd. unfold numel. simpl. lia. }
  rewrite (T_matrix a r c Hs Hd) in Hwt. unfold torch_Tensor in Hwt.
  cbn [shape data] in Hwt.
  rewrite (transpose_1_0_matrix
             (mkTensor [c; r] (map ffloat32 (transposed r c (data a)))) c r eq_refl)
    in Hwt.
  - cbn [data] in Hwt.
    rewrite transposed_map in Hwt by (rewrite transposed_length; reflexivity).
    rewrite transposed_involutive in Hwt by exact Hlen.
    injection Hwt as <-. unfold torch_Tensor. rewrite Hs. reflexivity.
  - unfold sized. cbn [shape data]. rewrite length_map, transposed_length.
    unfold numel. simpl. lia.
Qed.

(** *** A loaded model *)





(** ** Further properties: construction *)

Ltac init_steps fs :=
  repeat match goal with
         | |- context [match ?X with pair _ _ => _ end] =>
           match X with
           | init_weights_from_file _ _ _ => fail 1
           | _ => destruct X as [[?|?] ?]; [|reflexivity]
           end
         end.

(** X17.  Constructing a model from a weights location is constructing it
    without one and then loading the files into it: the random
    initialisation is carried out first, with the same draws, and the
    generator is left where the construction without weights leaves it. *)
Theorem init_from_files_is_init_then_load (E : Entropy) (fs : Files) (a : Args)
  (w : World) (loc : string) :
  truthy (weights_loc a) = Some loc ->
  __init__ E fs a w =
    match __init__ E fs (without_weights a) w with
    | (Ok m, w1) =>
      (match fst (init_weights_from_file fs loc (m, w1)) with
       | Ok _ => Ok (fst (snd (init_weights_from_file fs loc (m, w1))))
       | Raise e => Raise e
       end, snd (snd (init_weights_from_file fs loc (m, w1))))
    | (Raise e, w1) => (Raise e, w1)
    end /\
  cursor (snd (__init__ E fs a w)) = cursor (snd (__init__ E fs (without_weights a) w)).
Proof.
  intros Hloc.
  assert (Hq : __init__ E fs a w =
    match __init__ E fs (without_weights a) w with
    | (Ok m, w1) =>
      (match fst (init_weights_from_file fs loc (m, w1)) with
       | Ok _ => Ok (fst (snd (init_weights_from_file fs loc (m, w1))))
       | Raise e => Raise e
       end, snd (snd (init_weights_from_file fs loc (m, w1))))
    | (Raise e, w1) => (Raise e, w1)
    end).
  { unfold __init__.
    cbn [without_weights target_ensembles nh_lstm nh_bottleneck n_pcs n_hdcs
         dropoutrates_bottleneck bottleneck_has_bias weights_loc truthy].
    rewrite Hloc. unfold bind, lift, ret.
    init_steps fs.
    destruct (getitem (target_ensembles a) 0) as [te0|?]; [|reflexivity].
    init_steps fs.
    destruct (getitem (target_ensembles a) 1) as [te1|?]; [|reflexivity].
    init_steps fs.
    destruct (Dropout_new (dropoutrates_bottleneck a)) as [d|?]; [|reflexivity].
    init_steps fs.
    destruct (init_weights_from_file fs loc _) as [[[]|?] [g' w']]; reflexivity. }
  split; [exact Hq|].
  rewrite Hq.
  destruct (__init__ E fs (without_weights a) w) as [[m|e0] w1]; [|reflexivity].
  cbn [snd].
  destruct (find (absent fs) (weight_files loc)) as [q|] eqn:Hfind.
  - destruct (load_run_missing fs loc m w1 q Hfind) as [self' ->]. reflexivity.
  - rewrite (load_run_present fs loc m w1 (fun p Hp => find_none _ _ Hfind p Hp)).
    destruct (transpose_1_0 _); reflexivity.
Qed.

Ltac run_linear E :=
  match goal with
  | |- context [bind (Linear_new E ?i ?o ?hb) _ ?w] =>
    let l := fresh "l" in
    let w' := fresh "w" in
    let R := fresh "R" in
    let Hl := fresh "Hl" in
    let Q := fresh "Q" in
    destruct (Linear_new_run E i o hb w) as (l & w' & R & Hl & Q);
    rewrite (bind_ok _ _ _ _ _ R); clear R
  end.

Ltac run_lstm E :=
  match goal with
  | |- context [bind (LSTM_new E ?i ?h) _ ?w] =>
    let l := fresh "l" in
    let w' := fresh "w" in
    let R := fresh "R" in
    let Hl := fresh "Hlstm" in
    let Q := fresh "Q" in
    destruct (LSTM_new_run E i h w) as (l & w' & R & Hl & Q);
    rewrite (bind_ok _ _ _ _ _ R); clear R
  end.

Ltac run_trunc E :=
  rewrite (bind_ok _ _ _ _ _ (init_trunc_normal_run E _ _ _)).

Ltac run_kaiming E Hs :=
  match goal with
  | |- context [bind (kaiming_uniform_ E ?t) _ ?w] =>
    let t' := fresh "k" in
    let w' := fresh "w" in
    let R := fresh "R" in
    let Q := fresh "Q" in
    destruct (kaiming_uniform_run E t _ _ w Hs) as (t' & w' & R & _ & Q);
    rewrite (bind_ok _ _ _ _ _ R); clear R
  end.

Lemma init_reads (E : Entropy) (fs : Files) (a : Args) (w : World) :
  truthy (weights_loc a) = None -> reads (snd (__init__ E fs a w)) = reads w.
Proof.
  intros Hloc. unfold __init__. rewrite Hloc.
  run_linear E. run_linear E. run_lstm E. run_linear E.
  destruct (target_ensembles a) as [|e0 [|e1 rest]].
  - cbn [getitem nth_error lift bind snd]. congruence.
  - unfold getitem at 1. cbn [nth_error]. unfold lift at 1, bind at 1.
    run_linear E. cbn [getitem nth_error lift bind snd]. congruence.
  - unfold getitem at 1. cbn [nth_error]. unfold lift at 1, bind at 1.
    run_linear E.
    unfold getitem at 1. cbn [nth_error]. unfold lift at 1, bind at 1.
    run_linear E.
    unfold lift at 1, bind at 1.
    destruct (Dropout_new (dropoutrates_bottleneck a)) as [d|e];
      [|cbn [snd]; congruence].
    do 5 run_trunc E.
    destruct Hlstm as (_ & _ & Hs3 & Hs4 & _).
    run_kaiming E Hs3. run_kaiming E Hs4.
    unfold ret. cbn [snd].
    repeat match goal with
           | Hq : reads _ = reads (advance _ _) |- _ => cbn [advance reads] in Hq
           end.
    congruence.
Qed.

(** X18.  Without a weights location -- [None] or the empty string, which
    Python also takes for false -- the constructor reads no file, whether
    it returns a model or raises, and what it does is the same whatever
    the directory holds. *)
Theorem init_without_location_reads_nothing (E : Entropy) (fs : Files) (a : Args)
  (w : World) :
  truthy (weights_loc a) = None ->
  reads (snd (__init__ E fs a w)) = reads w /\
  forall fs' : Files, __init__ E fs' a w = __init__ E fs a w.
Proof.
  intros Hloc. split; [apply init_reads; exact Hloc|].
  intros fs'. unfold __init__. rewrite Hloc. reflexivity.
Qed.

(** X19.  A dropout rate below 0 or above 1 makes the constructor raise
    the [ValueError] of [nn.Dropout], also when a weights location is
    given: the layers have been created by then, but no file has been
    read. *)
Theorem init_rejects_dropout_rate (E : Entropy) (fs : Files) (a : Args) (w : World)
  (e0 e1 : Ensemble) (rest : list Ensemble) :
  target_ensembles a = e0 :: e1 :: rest ->
  positive_widths a ->
  fltb (dropoutrates_bottleneck a) (fconst 0)
  || fltb (fconst 1) (dropoutrates_bottleneck a) = true ->
  fst (__init__ E fs a w) = Raise ValueError /\
  reads (snd (__init__ E fs a w)) = reads w.
Proof.
  intros Hte _ Hp.
  assert (Hrun : exists w', __init__ E fs a w = (Raise ValueError, w') /\ reads w' = reads w).
  { unfold __init__. rewrite Hte.
    run_linear E. run_linear E. run_lstm E. run_linear E.
    unfold getitem at 1. cbn [nth_error]. unfold lift at 1, bind at 1.
    run_linear E.
    unfold getitem at 1. cbn [nth_error]. unfold lift at 1, bind at 1.
    run_linear E.
    unfold lift at 1, bind at 1. unfold Dropout_new. rewrite Hp.
    eexists. split; [reflexivity|congruence]. }
  destruct Hrun as (w' & -> & Hr). split; [reflexivity|exact Hr].
Qed.

Lemma Linear_new_bias (E : Entropy) i o hb w :
  0 < i ->
  exists l w',
    Linear_new E i o hb w = (Ok l, w') /\
    (hb = false -> bias l = None) /\
    (hb = true ->
     exists c,
       bias l = Some (uniform_tensor E c [o]
                        (fdiv (fconst 1) (fsqrt (fconst (Z.of_nat i)))))).
Proof.
  intros Hi. unfold Linear_new, bind, uniform_, ret. cbv beta iota zeta.
  destruct (0 <? i) eqn:Hlt; [|apply Nat.ltb_ge in Hlt; lia].
  destruct hb; cbv beta iota.
  - eexists. eexists. split; [reflexivity|]. split; [discriminate|].
    intros _. eexists. reflexivity.
  - eexists. eexists. split; [reflexivity|]. split; [reflexivity|discriminate].
Qed.

Lemma kaiming_uniform_value (E : Entropy) (t : Tensor) r c w :
  shape t = [r; c] ->
  kaiming_uniform_ E t w =
  (Ok (uniform_tensor E (cursor w) [r; c] (kaiming_bound (fconst 0) c)),
   advance (numel [r; c]) w).
Proof. intros Hs. unfold kaiming_uniform_. rewrite Hs. reflexivity. Qed.

(** X20.  The bias of the bottleneck is the one bias the constructor leaves
    as [nn.Linear] made it: with [bottleneck_has_bias] the layer has a
    bias of [nh_bottleneck] uniform draws scaled to
    [(-1/sqrt(nh_lstm), 1/sqrt(nh_lstm))], which the constructor does not
    set to zero as it does the other biases; without it the layer has no
    bias. *)
Theorem bottleneck_bias_keeps_default (E : Entropy) (fs : Files) (a : Args) (w : World)
  (e0 e1 : Ensemble) (rest : list Ensemble) :
  target_ensembles a = e0 :: e1 :: rest ->
  positive_widths a ->
  valid_rate (dropoutrates_bottleneck a) ->
  truthy (weights_loc a) = None ->
  exists m w',
    __init__ E fs a w = (Ok m, w') /\
    (bottleneck_has_bias a = false -> bias (bottleneck m) = None) /\
    (bottleneck_has_bias a = true ->
     exists c,
       bias (bottleneck m) =
       Some (uniform_tensor E c [nh_bottleneck a]
               (fdiv (fconst 1) (fsqrt (fconst (Z.of_nat (nh_lstm a))))))).
Proof.
  intros Hte (_ & HH & _) Hd Hloc. apply Dropout_new_valid in Hd.
  unfold __init__. rewrite Hte, Hd, Hloc.
  run_linear E. run_linear E. run_lstm E.
  match goal with
  | |- context [bind (Linear_new E ?i ?o ?hb) _ ?w1] =>
    destruct (Linear_new_bias E i o hb w1 HH) as (bn & w' & R & Hnone & Hsome)
  end.
  rewrite (bind_ok _ _ _ _ _ R).
  unfold getitem at 1. cbn [nth_error]. unfold lift at 1, bind at 1.
  run_linear E.
  unfold getitem at 1. cbn [nth_error]. unfold lift at 1, bind at 1.
  run_linear E.
  unfold lift at 1, bind at 1.
  do 5 run_trunc E.
  destruct Hlstm as (_ & _ & Hs3 & Hs4 & _).
  run_kaiming E Hs3. run_kaiming E Hs4.
  unfold ret. eexists. eexists. split; [reflexivity|].
  cbn [bottleneck set_weight bias]. split; assumption.
Qed.

(** X21.  The two weight tensors of the recurrent module are sampled anew
    by the constructor, after the truncated normals of the linear
    layers: in a model built without weights [weight_ih_l0] and
    [weight_hh_l0] are uniform draws scaled to the Kaiming bound
    [sqrt 3 * sqrt 2 / sqrt fan_in] for fan-ins 3 and [nh_lstm], not the
    values [nn.LSTM] gave them. *)
Theorem fresh_recurrence_weights_kaiming (E : Entropy) (fs : Files) (a : Args)
  (w : World) (e0 e1 : Ensemble) (rest : list Ensemble) :
  target_ensembles a = e0 :: e1 :: rest ->
  positive_widths a ->
  valid_rate (dropoutrates_bottleneck a) ->
  truthy (weights_loc a) = None ->
  exists m w' c,
    __init__ E fs a w = (Ok m, w') /\
    weight_ih_l0 (lstm m) =
      uniform_tensor E c [4 * nh_lstm a; 3] (kaiming_bound (fconst 0) 3) /\
    weight_hh_l0 (lstm m) =
      uniform_tensor E (c + numel [4 * nh_lstm a; 3]) [4 * nh_lstm a; nh_lstm a]
        (kaiming_bound (fconst 0) (nh_lstm a)) /\
    cursor w' = c + numel [4 * nh_lstm a; 3] + numel [4 * nh_lstm a; nh_lstm a].
Proof.
  intros Hte _ Hd Hloc. apply Dropout_new_valid in Hd.
  unfold __init__. rewrite Hte, Hd, Hloc.
  run_linear E. run_linear E. run_lstm E. run_linear E.
  unfold getitem at 1. cbn [nth_error]. unfold lift at 1, bind at 1.
  run_linear E.
  unfold getitem at 1. cbn [nth_error]. unfold lift at 1, bind at 1.
  run_linear E.
  unfold lift at 1, bind at 1.
  do 5 run_trunc E.
  destruct Hlstm as (_ & _ & Hs3 & Hs4 & _).
  rewrite (bind_ok _ _ _ _ _ (kaiming_uniform_value E _ _ _ _ Hs3)).
  rewrite (bind_ok _ _ _ _ _ (kaiming_uniform_value E _ _ _ _ Hs4)).
  unfold ret. eexists. eexists. eexists. split; [reflexivity|].
  cbn [lstm weight_ih_l0 weight_hh_l0 advance cursor]. repeat split.
Qed.

End Facts.

(** ** The rational scalars satisfy the order laws *)

Lemma Qltb_true (a b : Q) : negb (Qle_bool b a) = true <-> (a < b)%Q.
Proof.
  rewrite negb_true_iff. split.
  - intros Hq. apply Qnot_le_lt. intros Hle. apply Qle_bool_iff in Hle. congruence.
  - intros Hlt. destruct (Qle_bool b a) eqn:Hq; [|reflexivity].
    apply Qle_bool_iff in Hq. exfalso. apply (Qlt_not_le _ _ Hlt Hq).
Qed.

Lemma Qltb_false (a b : Q) : negb (Qle_bool b a) = false <-> (b <= a)%Q.
Proof. rewrite negb_false_iff. apply Qle_bool_iff. Qed.

Lemma Qle_bool_shift (x v : Q) :
  Qle_bool (Qred (v + inject_Z 0)) x = Qle_bool v x /\
  Qle_bool x (Qred (v + inject_Z 0)) = Qle_bool x v.
Proof.
  assert (Hv : (Qred (v + inject_Z 0) == v)%Q) by (rewrite Qred_correct; apply Qplus_0_r).
  split.
  - destruct (Qle_bool v x) eqn:H2.
    + apply Qle_bool_iff. rewrite Hv. apply Qle_bool_iff. exact H2.
    + destruct (Qle_bool (Qred (v + inject_Z 0)) x) eqn:H1; [|reflexivity].
      apply Qle_bool_iff in H1. rewrite Hv in H1. apply Qle_bool_iff in H1. congruence.
  - destruct (Qle_bool x v) eqn:H2.
    + apply Qle_bool_iff. rewrite Hv. apply Qle_bool_iff. exact H2.
    + destruct (Qle_bool x (Qred (v + inject_Z 0))) eqn:H1; [|reflexivity].
      apply Qle_bool_iff in H1. rewrite Hv in H1. apply Qle_bool_iff in H1. congruence.
Qed.

Lemma Qsqrt_nonneg (q : Q) : (0 <= Qsqrt q)%Q.
Proof.
  unfold Qsqrt. rewrite Qred_correct. unfold Qle. simpl.
  rewrite Z.mul_1_r. apply Z.sqrt_nonneg.
Qed.

Lemma Q_order : ScalarOrder Q.
Proof.
  constructor; cbn [fltb fmul fadd fdiv fsqrt fconst Q_scalar].
  - intros d s Hd Hs. apply Qltb_true in Hd. apply Qltb_false in Hs.
    apply Qltb_false. rewrite !Qred_correct.
    apply Qmult_le_compat_r; [apply Qlt_le_weak; exact Hd|exact Hs].
  - intros d s Hd Hs. apply Qltb_true in Hd. apply Qltb_false in Hs.
    apply Qltb_false. rewrite !Qred_correct.
    apply Qmult_le_compat_r; [apply Qlt_le_weak; exact Hd|exact Hs].
  - intros x v. f_equal. apply Qle_bool_shift.
  - intros x v. f_equal. apply Qle_bool_shift.
  - intros n. apply Qltb_false. rewrite Qred_correct.
    unfold Qdiv. rewrite Qmult_1_l. apply Qinv_le_0_compat. apply Qsqrt_nonneg.
Qed.

(** ** Concrete runs *)

Lemma standard_rate_valid : valid_rate (dropoutrates_bottleneck standard_args).
Proof. vm_compute. reflexivity. Qed.

Lemma small_model_built :
  fst (__init__ E0 no_files small_args w0) = Ok small_model.
Proof. vm_compute. reflexivity. Qed.

(** The scenario of the specification (batch size 1, five steps) raises. *)
Example scenario_raises :
  fst (forward E0 small_model x5 initial_4_2 w0) = Raise RuntimeError.
Proof. vm_compute. reflexivity. Qed.

(** The same scenario with batch size 2 returns the five sequences. *)
Example scenario_pair_shapes :
  match fst (forward E0 small_model x5_pair initial_4_2_pair w0) with
  | Ok o =>
    shape (out_logits_hd o) = [5; 2; 2] /\ shape (out_logits_pc o) = [5; 2; 4] /\
    shape (out_bottleneck_acts o) = [5; 2; 8] /\
    shape (out_rnn_states o) = [5; 2; 8] /\ shape (out_cell_states o) = [5; 2; 8]
  | Raise _ => False
  end.
Proof. vm_compute. repeat split. Qed.

Lemma forward_batch_size_one_raises_witness :
  (shape x5 = [5; 1; 3] /\ 2 <= 5) /\
  exists e, fst (forward E0 small_model x5 initial_4_2 w0) = Raise e.
Proof.
  split; [split; [reflexivity|repeat constructor]|].
  apply (forward_batch_size_one_raises E0 small_model x5 initial_4_2 w0 5 [3]);
    [reflexivity|repeat constructor].
Defined.

(** After loading the scenario's directory the input and recurrent
    weights of the recurrent module are still the tensors the constructor
    sampled, none of whose elements is the 1/2 the gate file is filled
    with. *)
Example gates_not_loaded :
  let self1 := fst (snd (init_weights_from_file small_dir scenario_loc (small_model, w0))) in
  fst (init_weights_from_file small_dir scenario_loc (small_model, w0)) = Ok tt /\
  forallb (Qeq_bool half)
    (data (file_T small_dir scenario_loc "grid_cells_core_lstm_w_gates_0.npy")) = true /\
  existsb (Qeq_bool half) (data (weight_ih_l0 (lstm self1))) = false /\
  existsb (Qeq_bool half) (data (weight_hh_l0 (lstm self1))) = false.
Proof. vm_compute. repeat split. Qed.

(** On the model loaded from the scenario's directory a forward call
    stops at the first call of the recurrent module. *)
Example loaded_scenario_raises :
  fst (forward E0
         (fst (snd (init_weights_from_file small_dir scenario_loc (small_model, w0))))
         x5_pair initial_4_2_pair w0) = Raise TypeError.
Proof. vm_compute. reflexivity. Qed.

Lemma load_leaves_recurrence_weights_witness :
  fst (init_weights_from_file small_dir scenario_loc (small_model, w0)) = Ok tt /\
  weight (pc_logits
            (fst (snd (init_weights_from_file small_dir scenario_loc (small_model, w0))))) =
  file_T small_dir scenario_loc "grid_cells_core_pc_logits_w_0.npy" /\
  weight_ih_l0
    (lstm (fst (snd (init_weights_from_file small_dir scenario_loc (small_model, w0))))) =
  weight_ih_l0 (lstm small_model).
Proof.
  assert (Hok : fst (init_weights_from_file small_dir scenario_loc (small_model, w0)) = Ok tt)
    by (vm_compute; reflexivity).
  split; [exact Hok|]. split.
  - exact (proj1 (proj2 (proj2
      (proj2 (load_leaves_recurrence_weights small_dir scenario_loc small_model w0) Hok)))).
  - exact (proj1 (proj1
      (load_leaves_recurrence_weights small_dir scenario_loc small_model w0))).
Defined.

(** C3 (as stated).  With candidates 5, 3, 4 and 6, all out of range, the
    value kept is the first one, 5, and not the nearest one, 3. *)
Lemma trunc_fallback_counterexample :
  candidates E_far 0 0 = [5; 3; 4; 6]%Q /\
  existsb in_range (candidates E_far 0 0) = false /\
  fst (truncated_normal_ E_far (mkTensor [1] [0%Q]) 0%Q 1%Q w0) =
    Ok (mkTensor [1] [5%Q]) /\
  nearest 5%Q [3; 4; 6]%Q = 3%Q /\
  selected (candidates E_far 0 0) <> nearest 5%Q [3; 4; 6]%Q.
Proof.
  split; [reflexivity|]. split; [reflexivity|]. split; [reflexivity|].
  split; [reflexivity|]. vm_compute. discriminate.
Qed.

Lemma truncated_normal_keeps_first_in_range_witness :
  ([5; 1; 4; 6]%Q = [5%Q] ++ 1%Q :: [4; 6]%Q /\
   forallb (fun v => negb (in_range v)) [5%Q] = true /\ in_range 1%Q = true) /\
  selected [5; 1; 4; 6]%Q = 1%Q.
Proof.
  split; [repeat split|].
  exact (proj1 (proj2 (proj2 (proj2
    (truncated_normal_keeps_first_in_range E_far (mkTensor [1] [0%Q])
       0%Q 1%Q 4%Z w0))))
    [5; 1; 4; 6]%Q [5%Q] 1%Q [4; 6]%Q eq_refl eq_refl eq_refl).
Defined.

(** C4 (as stated).  In the default configuration the input widths of the
    five layers are 268, 268, 128, 256 and 256, not the sizes 128, 128,
    256, 256 and 12 their weights are sampled with. *)
Lemma standard_sizes_counterexample :
  exists m w',
    __init__ E0 no_files standard_args w0 = (Ok m, w') /\
    (exists c, weight (state_embed m) = trunc_weight E0 c [128; 268] 128) /\
    (exists c, weight (cell_embed m) = trunc_weight E0 c [128; 268] 128) /\
    (exists c, weight (bottleneck m) = trunc_weight E0 c [256; 128] 256) /\
    (exists c, weight (pc_logits m) = trunc_weight E0 c [256; 256] 256) /\
    (exists c, weight (hd_logits m) = trunc_weight E0 c [12; 256] 12) /\
    map (@in_features Q)
        [state_embed m; cell_embed m; bottleneck m; pc_logits m; hd_logits m] =
    [268; 268; 128; 256; 256] /\
    [268; 268; 128; 256; 256] <> [128; 128; 256; 256; 12].
Proof.
  destruct (init_fresh E0 no_files standard_args w0
              (mkEnsemble 256) (mkEnsemble 12) [] eq_refl standard_rate_valid)
    as (m & w1 & Hm & _ & Hrun).
  exists m, w1. split; [exact Hrun|]. destruct Hm.
  split; [exact fresh_state_embed_w0|]. split; [exact fresh_cell_embed_w0|].
  split; [exact fresh_bottleneck_w0|]. split; [exact fresh_pc_logits_w0|].
  split; [exact fresh_hd_logits_w0|].
  split; [|discriminate]. cbn [map].
  destruct fresh_state_embed0 as (-> & _), fresh_cell_embed0 as (-> & _),
    fresh_bottleneck0 as (-> & _), fresh_pc_logits0 as (-> & _),
    fresh_hd_logits0 as (-> & _).
  reflexivity.
Qed.

Lemma init_trunc_normal_sizes_are_fixed_witness :
  (target_ensembles small_args = [mkEnsemble 4; mkEnsemble 2] /\
   positive_widths small_args /\
   valid_rate (dropoutrates_bottleneck small_args) /\
   truthy (weights_loc small_args) = None) /\
  exists m w',
    __init__ E0 no_files small_args w0 = (Ok m, w') /\
    (exists c, weight (hd_logits m) = trunc_weight E0 c [2; 8] 12).
Proof.
  assert (Hw : positive_widths small_args) by (repeat split; repeat constructor).
  assert (Hp : valid_rate (dropoutrates_bottleneck small_args))
    by (vm_compute; reflexivity).
  split; [split; [reflexivity|split; [exact Hw|split; [exact Hp|reflexivity]]]|].
  destruct (init_trunc_normal_sizes_are_fixed E0 no_files small_args w0
              (mkEnsemble 4) (mkEnsemble 2) [] eq_refl Hw Hp eq_refl)
    as (m & w' & Hrun & _ & _ & _ & _ & Hhd & _).
  exists m, w'. split; [exact Hrun|exact Hhd].
Defined.

(** C5 (as stated).  When the four candidates of an element are all 3,
    the element is 3/16: more than the 2/sqrt(256) = 1/8 the claim
    allows for a layer whose input width and sampling size are both 256. *)
Lemma all_out_of_range_counterexample :
  match fst (__init__ E_three no_files wide_args w0) with
  | Ok m =>
    in_features (pc_logits m) = 256 /\
    nth 0 (data (weight (pc_logits m))) 0%Q = (3 # 16)%Q /\
    fmul (fconst 2) (fdiv (fconst 1) (fsqrt (fconst 256))) = (1 # 8)%Q /\
    fltb (fmul (fconst 2) (fdiv (fconst 1) (fsqrt (fconst 256))))
         (nth 0 (data (weight (pc_logits m))) 0%Q) = true
  | Raise _ => False
  end.
Proof. vm_compute. repeat split. Qed.

Lemma fresh_weights_truncated_biases_zero_witness :
  (target_ensembles small_args = [mkEnsemble 4; mkEnsemble 2] /\
   positive_widths small_args /\
   valid_rate (dropoutrates_bottleneck small_args) /\
   truthy (weights_loc small_args) = None) /\
  exists m w',
    __init__ E0 no_files small_args w0 = (Ok m, w') /\
    truncated_at E0 (trunc_start small_args (mkEnsemble 4) (mkEnsemble 2) (cursor w0))
      [8; 6] 128 (weight (state_embed m)) /\
    all_zero (bias_hh_l0 (lstm m)).
Proof.
  assert (Hw : positive_widths small_args) by (repeat split; repeat constructor).
  assert (Hp : valid_rate (dropoutrates_bottleneck small_args))
    by (vm_compute; reflexivity).
  split; [split; [reflexivity|split; [exact Hw|split; [exact Hp|reflexivity]]]|].
  destruct (fresh_weights_truncated_biases_zero Q_order E0 no_files small_args
              w0 (mkEnsemble 4) (mkEnsemble 2) [] eq_refl Hw Hp eq_refl)
    as (m & w' & Hrun & Hse & _ & _ & _ & _ & _ & _ & _ & _ & _ & Hb).
  exists m, w'. split; [exact Hrun|]. split; [exact Hse|exact Hb].
Defined.

Lemma forward_eval_deterministic_witness :
  training (eval small_model) = false /\
  fst (forward E0 (eval small_model) x5_pair initial_4_2_pair w0) =
  fst (forward E_three (eval small_model) x5_pair initial_4_2_pair (mkWorld 7 [])).
Proof.
  split; [reflexivity|].
  exact (proj1 (forward_eval_deterministic E0 E_three (eval small_model)
                  x5_pair initial_4_2_pair w0 (mkWorld 7 []) eq_refl)).
Defined.

(** In training mode the generator does matter. *)
Example forward_training_depends_on_generator :
  training small_model = true /\
  snd (forward E0 small_model x5_pair initial_4_2_pair w0) <> w0.
Proof. split; [reflexivity|]. vm_compute. discriminate. Qed.

(** A hand-computed value: norms 5, 0 and 10. *)
Example l2_loss_hand_computed :
  let m := on_hd_logits (set_weight (mkTensor [1; 2] [6; 8]%Q))
             (on_pc_logits (set_weight (mkTensor [1; 1] [0%Q]))
                (on_bottleneck (set_weight (mkTensor [1; 2] [3; 4]%Q)) small_model)) in
  l2_loss m = (Ok 15%Q, m).
Proof. vm_compute. reflexivity. Qed.

Lemma l2_loss_sum_of_norms_witness :
  fst (l2_loss (eval small_model)) = fst (l2_loss small_model).
Proof.
  exact (proj2 (l2_loss_sum_of_norms small_model (eval small_model))
           eq_refl eq_refl eq_refl).
Defined.

(** The scenario's directory, loaded twice. *)
Example load_twice_scenario :
  let r1 := init_weights_from_file small_dir scenario_loc (small_model, w0) in
  let r2 := init_weights_from_file small_dir scenario_loc (fst (snd r1), snd (snd r1)) in
  fst r1 = Ok tt /\ fst r2 = Ok tt /\
  weight (bottleneck (fst (snd r2))) = filled [8; 8] half.
Proof. vm_compute. repeat split. Qed.

(** C9 (as stated).  A successful construction from the scenario's
    directory has read eleven arrays, not eight. *)
Lemma load_reads_eleven_counterexample :
  (exists m, fst (__init__ E0 small_dir (small_args_from scenario_loc) w0) = Ok m) /\
  length (reads (snd (__init__ E0 small_dir (small_args_from scenario_loc) w0))) = 11 /\
  length (reads (snd (__init__ E0 small_dir (small_args_from scenario_loc) w0))) <> 8.
Proof.
  split; [vm_compute; eexists; reflexivity|].
  split; [vm_compute; reflexivity|]. vm_compute. discriminate.
Qed.

Lemma missing_file_fails_construction_witness :
  (target_ensembles (small_args_from scenario_loc) = [mkEnsemble 4; mkEnsemble 2] /\
   positive_widths (small_args_from scenario_loc) /\
   valid_rate (dropoutrates_bottleneck (small_args_from scenario_loc)) /\
   truthy (weights_loc (small_args_from scenario_loc)) = Some scenario_loc /\
   In bottleneck_file (weight_files scenario_loc) /\
   holed_dir bottleneck_file = None) /\
  exists q, fst (__init__ E0 holed_dir (small_args_from scenario_loc) w0) =
            Raise (FileNotFoundError q).
Proof.
  assert (Hin : In bottleneck_file (weight_files scenario_loc))
    by (cbn; tauto).
  assert (Hw : positive_widths (small_args_from scenario_loc))
    by (repeat split; repeat constructor).
  assert (Hp : valid_rate (dropoutrates_bottleneck (small_args_from scenario_loc)))
    by (vm_compute; reflexivity).
  split;
    [split; [reflexivity|split; [exact Hw|split; [exact Hp|split;
       [reflexivity|split; [exact Hin|reflexivity]]]]]|].
  destruct (proj1 (missing_file_fails_construction E0 holed_dir
                     (small_args_from scenario_loc) w0 scenario_loc
                     (mkEnsemble 4) (mkEnsemble 2) [] eq_refl Hw Hp eq_refl)
              bottleneck_file Hin eq_refl)
    as (q & _ & Hraise & _).
  exists q. exact Hraise.
Defined.

Lemma init_reads_two_ensembles_witness :
  (positive_widths (with_ensembles [mkEnsemble 4] small_args) /\
   length (target_ensembles (with_ensembles [mkEnsemble 4] small_args)) < 2 /\
   fst (__init__ E0 no_files (with_ensembles [mkEnsemble 4] small_args) w0) =
   Raise IndexError) /\
  exists m w',
    __init__ E0 no_files small_args w0 = (Ok m, w') /\
    out_features (pc_logits m) = 4 /\ out_features (hd_logits m) = 2.
Proof.
  assert (Hlen : length (target_ensembles (with_ensembles [mkEnsemble 4] small_args)) < 2)
    by (cbn; repeat constructor).
  assert (Hw1 : positive_widths (with_ensembles [mkEnsemble 4] small_args))
    by (repeat split; repeat constructor).
  assert (Hw : positive_widths small_args) by (repeat split; repeat constructor).
  split.
  - split; [exact Hw1|]. split; [exact Hlen|].
    exact (proj1 (init_reads_two_ensembles E0 no_files
                    (with_ensembles [mkEnsemble 4] small_args) w0) Hw1 Hlen).
  - assert (Hp : valid_rate (dropoutrates_bottleneck small_args))
      by (vm_compute; reflexivity).
    destruct (proj2 (proj2 (init_reads_two_ensembles E0 no_files small_args w0))
                (mkEnsemble 4) (mkEnsemble 2) [] eq_refl Hw Hp eq_refl)
      as (m & w' & Hrun & Hpc & Hhd & _).
    exists m, w'. split; [exact Hrun|]. split; [exact Hpc|exact Hhd].
Defined.

(** ** Concrete runs of the further properties *)


Lemma forward_ok_needs_witness :
  forward E0 small_model x5_pair initial_4_2_pair w0 =
    (Ok (or_outs (fst (forward E0 small_model x5_pair initial_4_2_pair w0))),
     snd (forward E0 small_model x5_pair initial_4_2_pair w0)) /\
  exists T B d,
    shape x5_pair = T :: B :: d /\ 1 <= T /\ 1 <= B /\
    numel d = input_size (lstm small_model) /\
    (2 <= T -> 2 <= B /\ hidden_size (lstm small_model) <> 1).
Proof.
  assert (Hrun : forward E0 small_model x5_pair initial_4_2_pair w0 =
            (Ok (or_outs (fst (forward E0 small_model x5_pair initial_4_2_pair w0))),
             snd (forward E0 small_model x5_pair initial_4_2_pair w0)))
    by (vm_compute; reflexivity).
  split; [exact Hrun|].
  exact (forward_ok_needs E0 small_model x5_pair initial_4_2_pair w0 _ _ Hrun).
Defined.


Lemma forward_rejects_initial_width_witness :
  (shape x5_pair = [5; 2; 3] /\
   shape (weight (state_embed small_model)) = [8; 6] /\ 4 + 3 <> 6) /\
  forward E0 small_model x5_pair initial_4_3_pair w0 = (Raise RuntimeError, w0).
Proof.
  assert (HW : shape (weight (state_embed small_model)) = [8; 6])
    by (vm_compute; reflexivity).
  assert (Hne : 4 + 3 <> 6) by discriminate.
  split; [split; [reflexivity|split; [exact HW|exact Hne]]|].
  exact (forward_rejects_initial_width E0 small_model x5_pair
           (filled [2; 4] 0%Q) (filled [2; 3] 0%Q) w0 5 2 2 4 3 8 6 [3]
           eq_refl eq_refl eq_refl HW Hne).
Defined.

Lemma forward_rejects_step_width_witness :
  (well_shaped 6 8 8 4 2 small_model /\ shape x5_wide = [5; 2; 4] /\ 1 <= 5 /\ 4 <> 3) /\
  forward E0 small_model x5_wide initial_4_2_pair w0 = (Raise RuntimeError, w0).
Proof.
  assert (Hws : well_shaped 6 8 8 4 2 small_model)
    by (constructor; repeat split; vm_compute; first [reflexivity|exact I]).
  assert (HT : 1 <= 5) by (repeat constructor).
  assert (Hk : 4 <> 3) by discriminate.
  split; [split; [exact Hws|split; [reflexivity|split; [exact HT|exact Hk]]]|].
  exact (forward_rejects_step_width E0 small_model x5_wide
           (filled [2; 4] 0%Q) (filled [2; 2] 0%Q) w0 6 8 8 4 2 5 2 4 2 4 2
           Hws eq_refl eq_refl HT eq_refl eq_refl (or_introl Hk)).
Defined.

Lemma forward_without_mask_deterministic_witness :
  (training sure_model = true /\
   fltb (fconst 0) (rate (dropout sure_model))
   && fltb (rate (dropout sure_model)) (fconst 1) = false) /\
  fst (forward E0 sure_model x5_pair initial_4_2_pair w0) =
  fst (forward E_three sure_model x5_pair initial_4_2_pair (mkWorld 7 [])).
Proof.
  assert (Hp : fltb (fconst 0) (rate (dropout sure_model))
               && fltb (rate (dropout sure_model)) (fconst 1) = false)
    by (vm_compute; reflexivity).
  split; [split; [vm_compute; reflexivity|exact Hp]|].
  exact (proj1 (forward_without_mask_deterministic E0 E_three sure_model x5_pair
                  initial_4_2_pair w0 (mkWorld 7 []) Hp)).
Defined.

Lemma forward_training_draws_witness :
  (training small_model = true /\
   fltb (fconst 0) (rate (dropout small_model)) = true /\
   fltb (rate (dropout small_model)) (fconst 1) = true) /\
  cursor (snd (forward E0 small_model x5_pair initial_4_2_pair w0)) =
  cursor w0 +
  numel (shape (out_bottleneck_acts
                  (or_outs (fst (forward E0 small_model x5_pair initial_4_2_pair w0))))).
Proof.
  assert (Hrun : forward E0 small_model x5_pair initial_4_2_pair w0 =
            (Ok (or_outs (fst (forward E0 small_model x5_pair initial_4_2_pair w0))),
             snd (forward E0 small_model x5_pair initial_4_2_pair w0)))
    by (vm_compute; reflexivity).
  assert (Htr : training small_model = true) by (vm_compute; reflexivity).
  assert (Hp0 : fltb (fconst 0) (rate (dropout small_model)) = true)
    by (vm_compute; reflexivity).
  assert (Hp1 : fltb (rate (dropout small_model)) (fconst 1) = true)
    by (vm_compute; reflexivity).
  split; [split; [exact Htr|split; [exact Hp0|exact Hp1]]|].
  exact (proj1 (forward_training_draws E0 small_model x5_pair initial_4_2_pair w0 _ _
                  Hrun Htr Hp0 Hp1)).
Defined.

Lemma forward_outputs_consistent_witness :
  biases_sized small_model /\
  exists hs bs ps ds,
    iterate (out_rnn_states
               (or_outs (fst (forward E0 small_model x5_pair initial_4_2_pair w0)))) =
      Ok hs /\
    iterate (out_bottleneck_acts
               (or_outs (fst (forward E0 small_model x5_pair initial_4_2_pair w0)))) =
      Ok bs /\
    iterate (out_logits_pc
               (or_outs (fst (forward E0 small_model x5_pair initial_4_2_pair w0)))) =
      Ok ps /\
    iterate (out_logits_hd
               (or_outs (fst (forward E0 small_model x5_pair initial_4_2_pair w0)))) =
      Ok ds /\
    consistent small_model (training small_model) hs bs ps ds.
Proof.
  assert (Hrun : forward E0 small_model x5_pair initial_4_2_pair w0 =
            (Ok (or_outs (fst (forward E0 small_model x5_pair initial_4_2_pair w0))),
             snd (forward E0 small_model x5_pair initial_4_2_pair w0)))
    by (vm_compute; reflexivity).
  assert (Hb : biases_sized small_model)
    by (constructor; vm_compute; first [reflexivity|exact I]).
  split; [exact Hb|].
  exact (forward_outputs_consistent E0 small_model x5_pair initial_4_2_pair w0 _ _
           Hrun Hb).
Defined.

Lemma forward_prefix_witness :
  (biases_sized small_model /\ 1 <= 3 /\ 3 <= hd 0 (shape x5_pair)) /\
  exists o_k w_k,
    forward E0 small_model (narrow 3 x5_pair) initial_4_2_pair w0 = (Ok o_k, w_k) /\
    out_rnn_states o_k =
    narrow 3 (out_rnn_states
                (or_outs (fst (forward E0 small_model x5_pair initial_4_2_pair w0)))).
Proof.
  assert (Hrun : forward E0 small_model x5_pair initial_4_2_pair w0 =
            (Ok (or_outs (fst (forward E0 small_model x5_pair initial_4_2_pair w0))),
             snd (forward E0 small_model x5_pair initial_4_2_pair w0)))
    by (vm_compute; reflexivity).
  assert (Hb : biases_sized small_model)
    by (constructor; vm_compute; first [reflexivity|exact I]).
  assert (H1 : 1 <= 3) by (repeat constructor).
  assert (H3 : 3 <= hd 0 (shape x5_pair)) by (vm_compute; repeat constructor).
  split; [split; [exact Hb|split; [exact H1|exact H3]]|].
  destruct (forward_prefix E0 small_model x5_pair initial_4_2_pair w0 _ _ 3
              Hrun Hb H1 H3)
    as (o_k & w_k & Hk & _ & _ & _ & Hhs & _).
  exists o_k, w_k. split; [exact Hk|exact Hhs].
Defined.

Lemma failed_load_keeps_earlier_assignments_witness :
  (fst (init_weights_from_file holed_dir scenario_loc (small_model, w0)) =
   Raise (FileNotFoundError bottleneck_file) /\
   before (absent holed_dir) (weight_files scenario_loc) = 4) /\
  fst (snd (init_weights_from_file holed_dir scenario_loc (small_model, w0))) =
  assigned holed_dir scenario_loc 4 small_model.
Proof.
  assert (Hrun : fst (init_weights_from_file holed_dir scenario_loc (small_model, w0)) =
                 Raise (FileNotFoundError bottleneck_file))
    by (vm_compute; reflexivity).
  split; [split; [exact Hrun|reflexivity]|].
  exact (proj1 (failed_load_keeps_earlier_assignments holed_dir scenario_loc
                  small_model w0 _ Hrun)).
Defined.

(** The four assignments made before the missing bottleneck file have
    replaced the parameters of the two heads; the bottleneck and the
    embeddings are as the constructor left them. *)
Example half_loaded_model :
  let self1 := fst (snd (init_weights_from_file holed_dir scenario_loc (small_model, w0))) in
  weight (pc_logits self1) = filled [4; 8] half /\
  weight (hd_logits self1) = filled [2; 8] half /\
  weight (bottleneck self1) = weight (bottleneck small_model) /\
  state_embed self1 = state_embed small_model /\
  cell_embed self1 = cell_embed small_model.
Proof. vm_compute. repeat split. Qed.

(** Arrays of any shape are accepted by the load; with these the forward
    call stops at the state embedding, before it reaches the recurrent
    module. *)
Example misshaped_load_fails_later :
  let r := init_weights_from_file odd_dir scenario_loc (small_model, w0) in
  fst r = Ok tt /\
  fst (forward E0 (fst (snd r)) x5_pair initial_4_2_pair w0) = Raise RuntimeError.
Proof. vm_compute. repeat split. Qed.

Lemma load_tf_param_transposes_witness :
  (m23_dir m23_path = Some m23 /\ sized m23 /\ shape m23 = [2; 3]) /\
  fst (load_tf_param m23_dir m23_path w0) =
    Ok (mkTensor [3; 2] [16777216; 1 # 2; 2; 5; 3; 6]%Q).
Proof.
  assert (Hf : m23_dir m23_path = Some m23) by reflexivity.
  assert (Hd : sized m23) by reflexivity.
  assert (Hv : map ffloat32 (transposed 2 3 (data m23)) =
               [16777216; 1 # 2; 2; 5; 3; 6]%Q)
    by (vm_compute; reflexivity).
  split; [split; [exact Hf|split; [exact Hd|reflexivity]]|].
  rewrite <- Hv.
  exact (proj1 (proj1 (proj2 (proj2
           (load_tf_param_transposes m23_dir m23_path w0 m23 Hf Hd))) 2 3 eq_refl)).
Defined.

Lemma gate_weights_transposed_twice_witness :
  (small_dir gates_file = Some (filled [11; 32] half) /\
   sized (filled [11; 32] half) /\
   fst (init_weights_from_file small_dir scenario_loc (small_model, w0)) = Ok tt) /\
  lstm_weight
    (lstm (fst (snd (init_weights_from_file small_dir scenario_loc (small_model, w0))))) =
  Some (torch_Tensor (filled [11; 32] half)) /\
  torch_Tensor (filled [11; 32] half) = filled [11; 32] half.
Proof.
  assert (Hf : small_dir gates_file = Some (filled [11; 32] half))
    by (vm_compute; reflexivity).
  assert (Hd : sized (filled [11; 32] half)) by (vm_compute; reflexivity).
  assert (Hok : fst (init_weights_from_file small_dir scenario_loc (small_model, w0)) = Ok tt)
    by (vm_compute; reflexivity).
  split; [split; [exact Hf|split; [exact Hd|exact Hok]]|].
  split; [|vm_compute; reflexivity].
  exact (gate_weights_transposed_twice small_dir scenario_loc small_model w0
           (filled [11; 32] half) 11 32 Hf eq_refl Hd Hok).
Defined.


Lemma init_from_files_is_init_then_load_witness :
  truthy (weights_loc (small_args_from scenario_loc)) = Some scenario_loc /\
  cursor (snd (__init__ E0 small_dir (small_args_from scenario_loc) w0)) =
  cursor (snd (__init__ E0 small_dir (without_weights (small_args_from scenario_loc)) w0)).
Proof.
  split; [reflexivity|].
  exact (proj2 (init_from_files_is_init_then_load E0 small_dir
                  (small_args_from scenario_loc) w0 scenario_loc eq_refl)).
Defined.

Lemma init_without_location_reads_nothing_witness :
  truthy (weights_loc (small_args_with half false (Some EmptyString))) = None /\
  reads (snd (__init__ E0 small_dir (small_args_with half false (Some EmptyString)) w0)) =
  reads w0.
Proof.
  split; [reflexivity|].
  exact (proj1 (init_without_location_reads_nothing E0 small_dir
                  (small_args_with half false (Some EmptyString)) w0 eq_refl)).
Defined.

Lemma init_rejects_dropout_rate_witness :
  (positive_widths (small_args_with (3 # 2)%Q false (Some scenario_loc)) /\
   fltb (dropoutrates_bottleneck (small_args_with (3 # 2)%Q false (Some scenario_loc)))
        (fconst 0)
   || fltb (fconst 1)
        (dropoutrates_bottleneck (small_args_with (3 # 2)%Q false (Some scenario_loc))) =
   true) /\
  fst (__init__ E0 small_dir (small_args_with (3 # 2)%Q false (Some scenario_loc)) w0) =
  Raise ValueError.
Proof.
  assert (Hw : positive_widths (small_args_with (3 # 2)%Q false (Some scenario_loc)))
    by (repeat split; repeat constructor).
  assert (Hp : fltb (dropoutrates_bottleneck
                       (small_args_with (3 # 2)%Q false (Some scenario_loc))) (fconst 0)
               || fltb (fconst 1)
                    (dropoutrates_bottleneck
                       (small_args_with (3 # 2)%Q false (Some scenario_loc))) = true)
    by (vm_compute; reflexivity).
  split; [split; [exact Hw|exact Hp]|].
  exact (proj1 (init_rejects_dropout_rate E0 small_dir
                  (small_args_with (3 # 2)%Q false (Some scenario_loc)) w0
                  (mkEnsemble 4) (mkEnsemble 2) [] eq_refl Hw Hp)).
Defined.

Lemma bottleneck_bias_keeps_default_witness :
  (positive_widths (small_args_with half true None) /\
   valid_rate (dropoutrates_bottleneck (small_args_with half true None))) /\
  exists m w' c,
    __init__ E0 no_files (small_args_with half true None) w0 = (Ok m, w') /\
    bias (bottleneck m) =
    Some (uniform_tensor E0 c [8] (fdiv (fconst 1) (fsqrt (fconst 8)))).
Proof.
  assert (Hw : positive_widths (small_args_with half true None))
    by (repeat split; repeat constructor).
  assert (Hp : valid_rate (dropoutrates_bottleneck (small_args_with half true None)))
    by (vm_compute; reflexivity).
  split; [split; [exact Hw|exact Hp]|].
  destruct (bottleneck_bias_keeps_default E0 no_files (small_args_with half true None) w0
              (mkEnsemble 4) (mkEnsemble 2) [] eq_refl Hw Hp eq_refl)
    as (m & w' & Hrun & _ & Hsome).
  destruct (Hsome eq_refl) as [c Hc].
  exists m, w', c. split; [exact Hrun|exact Hc].
Defined.

(** With the generator of the scenario that bias is not zero. *)
Example bottleneck_bias_not_zero :
  match fst (__init__ E0 no_files (small_args_with half true None) w0) with
  | Ok m =>
    match bias (bottleneck m) with
    | Some b => existsb (fun v => negb (Qeq_bool v 0)) (data b) = true
    | None => False
    end
  | Raise _ => False
  end.
Proof. vm_compute. reflexivity. Qed.


Lemma fresh_recurrence_weights_kaiming_witness :
  (positive_widths small_args /\ valid_rate (dropoutrates_bottleneck small_args)) /\
  exists m w' c,
    __init__ E0 no_files small_args w0 = (Ok m, w') /\
    weight_ih_l0 (lstm m) = uniform_tensor E0 c [32; 3] (kaiming_bound (fconst 0) 3).
Proof.
  assert (Hw : positive_widths small_args) by (repeat split; repeat constructor).
  assert (Hp : valid_rate (dropoutrates_bottleneck small_args))
    by (vm_compute; reflexivity).
  split; [split; [exact Hw|exact Hp]|].
  destruct (fresh_recurrence_weights_kaiming E0 no_files small_args w0
              (mkEnsemble 4) (mkEnsemble 2) [] eq_refl Hw Hp eq_refl)
    as (m & w' & c & Hrun & Hih & _).
  exists m, w', c. split; [exact Hrun|exact Hih].
Defined.
